(** * FutureCropAI browser scripts: a shallow embedding

    The repository holds three page scripts that talk to one HTTP API:

    - the select-based price page (cascading commodity, state and market
      selects, [validate], the predict and clear handlers, [drawSeries]),
      embedded in [Module SelectPage];
    - [price_app.js] ([onCommodityChange], [onStateChange],
      [validateContext], [loadHistory], [doPrediction], [clearForm]),
      embedded in [Module PriceApp];
    - [crop_app.js] ([getNumber], [onRecommendClick]), embedded in
      [Module CropApp].

    Modelling choices, shared by the three modules.

    - A JavaScript string is the list of its UTF-16 code units.
    - A [<select>] is its [disabled] flag, its list of options and the index
      of the selected option; assigning [innerHTML] replaces the options
      and selects the first one.  The placeholders are literals of the
      scripts and free of markup.  Where a script writes names that come
      from the server into markup, the options are those of the HTML
      standard when every name is plain text, that is free of [<], [&],
      NUL, CR and lone surrogates (an option without a [value] attribute
      has its text, white space stripped and collapsed, as its value);
      for any other text they are what the parser of the host makes of
      the markup, and the host is a parameter ([Browser]).
    - [encodeURIComponent] throws on a string with a lone surrogate; a
      request keeps its parameters as they are before their encoding.
    - The page is a record of the DOM properties the scripts read and
      write; every handler is a function on that record.
    - An [async] handler is a resumption: it runs to its next network
      call, hands back the page together with the request and a
      continuation, and the continuation is later run on the page as it is
      then, with the outcome of the call.  Reading the body of a response
      is folded into the call, since no script touches the page between
      the two.
    - A body that parses as JSON is null or a record of the fields the
      scripts read, each of which may be absent; when present a field has
      the type that the API gives it.
    - Text written into the page is kept without its markup, and the
      conversions of values to text stay symbolic.
    - The timers that hide the toasts are not modelled: a page keeps the
      list of the toasts and alerts raised so far. *)

From Stdlib Require Import String Ascii NArith QArith Bool Arith Lia List.
Import ListNotations.
Close Scope Q_scope.
Local Open Scope nat_scope.
Local Open Scope list_scope.

(** ** JavaScript strings *)

Module Js.

Definition jsstring : Type := list N.

(** An ASCII literal of the source. *)
Definition lit (s : string) : jsstring :=
  map N_of_ascii (list_ascii_of_string s).

(** U+2026, the ellipsis that ends the placeholders, U+2014, the dash
    shown in an empty chip, U+20B9, the rupee sign, and U+00B0, the degree
    sign. *)
Definition ellipsis : jsstring := [8230%N].
Definition emdash : jsstring := [8212%N].
Definition rupee_sign : jsstring := [8377%N].
Definition degree_sign : jsstring := [176%N].

(** [!s] for a string [s]. *)
Definition is_empty (s : jsstring) : bool :=
  match s with [] => true | _ :: _ => false end.

Fixpoint eqb (s t : jsstring) : bool :=
  match s, t with
  | [], [] => true
  | a :: s', b :: t' => N.eqb a b && eqb s' t'
  | _, _ => false
  end.

(** WhiteSpace and LineTerminator of ECMAScript, which are what
    [String.prototype.trim] strips: TAB, LF, VT, FF, CR, SP, NBSP,
    U+1680, U+2000..U+200A, U+2028, U+2029, U+202F, U+205F, U+3000 and
    U+FEFF. *)
Definition isWhiteSpace (c : N) : bool :=
  (existsb (N.eqb c)
     [9; 10; 11; 12; 13; 32; 160; 5760; 8232; 8233; 8239; 8287; 12288; 65279]
   || (N.leb 8192 c && N.leb c 8202))%N.

Fixpoint trimStart (s : jsstring) : jsstring :=
  match s with
  | [] => []
  | c :: r => if isWhiteSpace c then trimStart r else s
  end.

Definition trimEnd (s : jsstring) : jsstring := rev (trimStart (rev s)).

Definition trim (s : jsstring) : jsstring := trimEnd (trimStart s).

(** Regular expressions, as far as the scripts use them: a sequence of
    one-character classes anchored at both ends. *)
Inductive atom : Type :=
| Digit                    (* \d *)
| Chr (c : N).             (* a literal character *)

Definition isDigit (c : N) : bool := (N.leb 48 c && N.leb c 57)%N.

Definition atom_matches (a : atom) (c : N) : bool :=
  match a with
  | Digit => isDigit c
  | Chr k => N.eqb c k
  end.

Fixpoint test (re : list atom) (s : jsstring) : bool :=
  match re, s with
  | [], [] => true
  | a :: re', c :: s' => atom_matches a c && test re' s'
  | _, _ => false
  end.

(** A string is well formed when each of its surrogates is half of a
    pair: a leading one (U+D800..U+DBFF) is followed by a trailing one
    (U+DC00..U+DFFF), and no trailing one stands alone. *)
Definition isLeadSurrogate (c : N) : bool := (N.leb 55296 c && N.leb c 56319)%N.

Definition isTrailSurrogate (c : N) : bool := (N.leb 56320 c && N.leb c 57343)%N.

Fixpoint isWellFormed (s : jsstring) : bool :=
  match s with
  | [] => true
  | c :: r =>
      if isLeadSurrogate c
      then match r with
           | d :: r' => isTrailSurrogate d && isWellFormed r'
           | [] => false
           end
      else negb (isTrailSurrogate c) && isWellFormed r
  end.

(** Scalar values that arrive in JSON bodies and end up in chart arrays
    and templates. *)
Inductive jsval : Type :=
| Undefined
| Null
| Bool (b : bool)
| Num (q : Q)
| Str (s : jsstring).

Definition truthy (v : jsval) : bool :=
  match v with
  | Undefined | Null => false
  | Bool b => b
  | Num q => negb (Qeq_bool q 0%Q)
  | Str s => negb (is_empty s)
  end.

(** [v ?? d] *)
Definition nullish (v d : jsval) : jsval :=
  match v with
  | Undefined | Null => d
  | _ => v
  end.

(** Errors raised by the host rather than by a [throw] of the scripts. *)
Inductive native : Type :=
| FetchFailed       (* the promise of [fetch] rejects *)
| SyntaxError       (* the body is not JSON *)
| TypeError         (* a property of null or undefined is read *)
| RangeError        (* [new Array(-1)] *)
| URIError.         (* [encodeURIComponent] of a lone surrogate *)

(** Text built by a template literal.  The host's conversions to string
    stay symbolic: a fragment records which value was interpolated. *)
Inductive frag : Type :=
| T (s : jsstring)              (* literal text *)
| V (v : jsval)                 (* [${v}] *)
| LocaleIN (v : jsval)          (* [Number(v).toLocaleString("en-IN")] *)
| Code (n : N)                  (* [${r.status}] *)
| Fixed1 (q : Q)                (* [q.toFixed(1)] *)
| NativeMessage (k : native).   (* the message of a host error *)

Definition text : Type := list frag.

Definition plain (s : string) : text := [T (lit s)].

(** Exceptions. *)
Inductive exn : Type :=
| Error (message : text)        (* [new Error(message)] *)
| Host (k : native).

Definition message (e : exn) : text :=
  match e with
  | Error m => m
  | Host k => [NativeMessage k]
  end.

Inductive result (A : Type) : Type :=
| Ok (a : A)
| Throw (e : exn).
Arguments Ok {A} a.
Arguments Throw {A} e.

(** [encodeURIComponent(s)], which throws when [s] is not well formed.
    The requests of this development keep their parameters before their
    encoding, so what comes back is [s] itself. *)
Definition encodeURIComponent (s : jsstring) : result jsstring :=
  if isWellFormed s then Ok s else Throw (Host URIError).

End Js.
Import Js.

(** ** The DOM as the scripts see it *)

Module Dom.

Record option_el : Type := mkOption { o_value : jsstring; o_text : jsstring }.

Record select : Type := mkSelect {
  disabled : bool;
  options : list option_el;
  selectedIndex : option nat       (* [None] is index -1 *)
}.

(** [sel.value] *)
Definition value (sel : select) : jsstring :=
  match selectedIndex sel with
  | Some i => match nth_error (options sel) i with
              | Some o => o_value o
              | None => []
              end
  | None => []
  end.

(** [sel.disabled = b] *)
Definition set_disabled (b : bool) (sel : select) : select :=
  mkSelect b (options sel) (selectedIndex sel).

(** [sel.innerHTML = ...]: the options are replaced and the first one, if
    any, becomes the selected one. *)
Definition set_innerHTML (opts : list option_el) (sel : select) : select :=
  mkSelect (disabled sel) opts
           (match opts with [] => None | _ :: _ => Some 0 end).

Fixpoint index_of (v : jsstring) (opts : list option_el) : option nat :=
  match opts with
  | [] => None
  | o :: r => if Js.eqb (o_value o) v then Some 0
              else option_map S (index_of v r)
  end.

(** [sel.value = v]: the first option with that value is selected, and
    none when there is no such option. *)
Definition set_value (v : jsstring) (sel : select) : select :=
  mkSelect (disabled sel) (options sel) (index_of v (options sel)).

(** [sel.selectedIndex = i] *)
Definition set_selectedIndex (i : nat) (sel : select) : select :=
  mkSelect (disabled sel) (options sel)
           (if Nat.ltb i (length (options sel)) then Some i else None).

(** The user picks option [i] of an enabled select. *)
Definition pick (i : nat) (sel : select) : option select :=
  if disabled sel then None
  else if Nat.ltb i (length (options sel))
       then Some (mkSelect false (options sel) (Some i))
       else None.

(** [<option value="">placeholder</option>] *)
Definition placeholder (label : jsstring) : option_el := mkOption [] label.

(** An option element whose [value] and [textContent] are both set to
    [v]. *)
Definition item (v : jsstring) : option_el := mkOption v v.

(** ASCII whitespace of the HTML standard: TAB, LF, FF, CR and SPACE. *)
Definition isAsciiWhitespace (c : N) : bool :=
  existsb (N.eqb c) [9; 10; 12; 13; 32]%N.

Fixpoint stripLeading (s : jsstring) : jsstring :=
  match s with
  | [] => []
  | c :: r => if isAsciiWhitespace c then stripLeading r else s
  end.

(** Every run of whitespace becomes one space, and a run at the end
    nothing; [pending] tells that a run has been met since the last
    character that was kept. *)
Fixpoint collapse (pending : bool) (s : jsstring) : jsstring :=
  match s with
  | [] => []
  | c :: r =>
      if isAsciiWhitespace c then collapse true r
      else if pending then 32%N :: c :: collapse false r
      else c :: collapse false r
  end.

(** "Strip and collapse ASCII whitespace" of the HTML standard, which
    gives the value of an option that has no [value] attribute from its
    text. *)
Definition stripAndCollapse (s : jsstring) : jsstring :=
  collapse false (stripLeading s).

(** Text that the HTML parser takes character by character: no [<], no
    [&], no NUL, which it drops, no CR, which it turns into LF, and no
    lone surrogate, which is an error of the input stream. *)
Definition isPlainText (s : jsstring) : bool :=
  forallb (fun c => negb (existsb (N.eqb c) [0; 13; 38; 60]%N)) s
  && isWellFormed s.

(** [<option>v</option>] once parsed, for a plain text [v]. *)
Definition text_option (v : jsstring) : option_el :=
  mkOption (stripAndCollapse v) v.

(** The markup that the scripts write: [<option value="">label</option>]
    and [<option>v</option>]. *)
Definition placeholder_markup (label : jsstring) : jsstring :=
  lit "<option value=" ++ [34; 34]%N ++ lit ">" ++ label ++ lit "</option>".

Definition item_markup (v : jsstring) : jsstring :=
  lit "<option>" ++ v ++ lit "</option>".

(** The HTML parser of the host, for the markup that is not plain text:
    the options it makes of what is assigned to [innerHTML]. *)
Class Browser : Type := { parseOptions : jsstring -> list option_el }.

(** The options that
    [<option value="">first</option>] followed by [<option>v</option>]
    for each [v] of [items] gives when it is assigned to [innerHTML]. *)
Definition written_options {browser : Browser} (first : jsstring) (items : list jsstring)
    : list option_el :=
  if forallb isPlainText (first :: items)
  then placeholder first :: map text_option items
  else parseOptions (placeholder_markup first ++ concat (map item_markup items)).

(** The choices a dependent select offers: its options after the
    placeholder, which every write of the scripts puts first. *)
Definition offered (sel : select) : list jsstring :=
  map o_value (tl (options sel)).

(** A control in its disabled state with no selected value. *)
Definition cleared (sel : select) : Prop :=
  disabled sel = true /\ value sel = [].

End Dom.
Import Dom.

(** ** The network *)

Module Net.

Inductive method : Type := GET | POST.

(** What a request carries in its body, before [JSON.stringify]. *)
Inductive reqbody : Type :=
| NoBody
| ContextBody (commodity state market : jsstring) (date : option jsstring)
| SoilBody (N P K temperature humidity ph rainfall : Q).

(** A request: the path below [API_BASE], the query parameters before
    their URL encoding, and the body. *)
Record request : Type := mkRequest {
  rq_method : method;
  rq_path : jsstring;
  rq_params : list (jsstring * jsstring);
  rq_body : reqbody
}.

(** The fields the scripts read from a parsed JSON object. *)
Record jsobj : Type := mkObj {
  states : option (list jsstring);
  markets : option (list jsstring);
  dates : option (list jsstring);
  prices : option (list jsval);
  predicted_next_price : jsval;
  window_size : jsval;
  used_points : jsval;
  padded : jsval;
  detail : jsval;
  recommended_crop : jsval;
  confidence : jsval;
  suitability : jsval;
  growth_score : jsval;
  risk_label : jsval;
  alternatives : option (list (jsval * jsval))    (* crop and confidence *)
}.

Definition empty_obj : jsobj :=
  mkObj None None None None Undefined Undefined Undefined Undefined Undefined
        Undefined Undefined Undefined Undefined Undefined None.

Inductive parsed : Type :=
| NotJson
| JsonNull
| JsonObj (o : jsobj).

Record response : Type := mkResponse {
  ok : bool;
  status : N;
  statusText : jsstring;
  body_text : jsstring;       (* what [r.text()] gives *)
  body_json : parsed          (* what parsing that text gives *)
}.

(** How a call to [fetch] ends. *)
Inductive outcome : Type :=
| Rejected
| Responded (r : response).

(** [r.json()] *)
Definition json (r : response) : result parsed :=
  match body_json r with
  | NotJson => Throw (Host SyntaxError)
  | j => Ok j
  end.

(** Reading a property of a parsed body: null has none. *)
Definition obj (j : parsed) : result jsobj :=
  match j with
  | JsonObj o => Ok o
  | JsonNull => Throw (Host TypeError)
  | NotJson => Throw (Host SyntaxError)
  end.

(** [x || []] for an array that may be absent. *)
Definition or_empty {A : Type} (x : option (list A)) : list A :=
  match x with Some l => l | None => [] end.

(** A step that may throw, followed by another. *)
Definition bind_result {A B : Type} (r : result A) (f : A -> result B) : result B :=
  match r with Ok a => f a | Throw e => Throw e end.

End Net.
Import Net.

(** ** Asynchronous handlers *)

Section Async.

Variable page : Type.

(** What is left of a handler once it has run to its next [await]. *)
#[warnings="-register-all"]
Inductive proc : Type :=
| Fin
| Await (rq : request) (k : outcome -> page -> page * proc).

Definition handler : Type := page -> page * proc.

Definition cont : Type := outcome -> page -> page * proc.

(** The page and the calls in flight. *)
Record world : Type := mkWorld {
  pg : page;
  inflight : list (request * cont)
}.

Definition spawn (r : page * proc) (rest : list (request * cont)) : world :=
  match snd r with
  | Fin => mkWorld (fst r) rest
  | Await rq k => mkWorld (fst r) (rest ++ [(rq, k)])
  end.

(** An event runs a handler on the current page. *)
Definition fire (h : handler) (w : world) : world :=
  spawn (h (pg w)) (inflight w).

Fixpoint remove_nth {A : Type} (n : nat) (l : list A) : list A :=
  match n, l with
  | _, [] => []
  | O, _ :: r => r
  | S n', a :: r => a :: remove_nth n' r
  end.

(** The call at position [n] of the calls in flight ends with [o]. *)
Definition deliver (n : nat) (o : outcome) (w : world) : world :=
  match nth_error (inflight w) n with
  | None => w
  | Some (_, k) => spawn (k o (pg w)) (remove_nth n (inflight w))
  end.

(** The same call answered by a server [srv]. *)
Definition resolve (srv : request -> outcome) (n : nat) (w : world) : world :=
  match nth_error (inflight w) n with
  | None => w
  | Some (rq, _) => deliver n (srv rq) w
  end.

(** A handler and all that follows it leave a flag of the page as they
    find it. *)
Inductive keeps (f : page -> bool) : proc -> Prop :=
| keeps_fin : keeps f Fin
| keeps_await rq k :
    (forall o p, f (fst (k o p)) = f p) ->
    (forall o p, keeps f (snd (k o p))) ->
    keeps f (Await rq k).

Definition handler_keeps (f : page -> bool) (h : handler) : Prop :=
  forall p, f (fst (h p)) = f p /\ keeps f (snd (h p)).

End Async.

Arguments Fin {page}.
Arguments Await {page} rq k.
Arguments mkWorld {page} pg inflight.
Arguments pg {page} w.
Arguments inflight {page} w.
Arguments spawn {page} r rest.
Arguments fire {page} h w.
Arguments deliver {page} n o w.
Arguments resolve {page} srv n w.
Arguments keeps {page} f _.
Arguments keeps_fin {page} f.
Arguments keeps_await {page} f rq k _ _.
Arguments handler_keeps {page} f h.

(** ** The select-based price page *)

Module SelectPage.

(** [chart.data]: the labels and the data of the two datasets. *)
Record chart_data : Type := mkChart {
  labels : list jsstring;
  recent : list jsval;            (* datasets[0].data, "Recent Prices" *)
  predicted : list jsval          (* datasets[1].data, "Predicted Next" *)
}.

Record page : Type := mkPage {
  commodity : select;
  stateSel : select;
  marketSel : select;
  dateInp : jsstring;             (* dateInp.value *)
  predictBtn : bool;              (* predictBtn.disabled *)
  resBox_hide : bool;             (* resBox has class "hide" *)
  resBox : text;                  (* resBox.textContent *)
  winPill : text;
  usedPill : text;
  padPill : text;
  toaster : list (text * bool);   (* the toasts raised so far, with [bad] *)
  chartNote : text;
  chart : option chart_data;      (* [let chart;] is undefined until setupChart *)
  today : jsstring                (* new Date().toISOString().slice(0,10),
                                     which no listener writes *)
}.

Definition with_commodity (x : select) (p : page) : page :=
  mkPage x (stateSel p) (marketSel p) (dateInp p) (predictBtn p)
         (resBox_hide p) (resBox p) (winPill p) (usedPill p) (padPill p)
         (toaster p) (chartNote p) (chart p) (today p).

Definition with_stateSel (x : select) (p : page) : page :=
  mkPage (commodity p) x (marketSel p) (dateInp p) (predictBtn p)
         (resBox_hide p) (resBox p) (winPill p) (usedPill p) (padPill p)
         (toaster p) (chartNote p) (chart p) (today p).

Definition with_marketSel (x : select) (p : page) : page :=
  mkPage (commodity p) (stateSel p) x (dateInp p) (predictBtn p)
         (resBox_hide p) (resBox p) (winPill p) (usedPill p) (padPill p)
         (toaster p) (chartNote p) (chart p) (today p).

Definition with_predictBtn (x : bool) (p : page) : page :=
  mkPage (commodity p) (stateSel p) (marketSel p) (dateInp p) x
         (resBox_hide p) (resBox p) (winPill p) (usedPill p) (padPill p)
         (toaster p) (chartNote p) (chart p) (today p).

Definition with_resBox (hide : bool) (x : text) (p : page) : page :=
  mkPage (commodity p) (stateSel p) (marketSel p) (dateInp p) (predictBtn p)
         hide x (winPill p) (usedPill p) (padPill p)
         (toaster p) (chartNote p) (chart p) (today p).

Definition with_pills (w u d : text) (p : page) : page :=
  mkPage (commodity p) (stateSel p) (marketSel p) (dateInp p) (predictBtn p)
         (resBox_hide p) (resBox p) w u d
         (toaster p) (chartNote p) (chart p) (today p).

Definition with_toaster (x : list (text * bool)) (p : page) : page :=
  mkPage (commodity p) (stateSel p) (marketSel p) (dateInp p) (predictBtn p)
         (resBox_hide p) (resBox p) (winPill p) (usedPill p) (padPill p)
         x (chartNote p) (chart p) (today p).

Definition with_chartNote (x : text) (p : page) : page :=
  mkPage (commodity p) (stateSel p) (marketSel p) (dateInp p) (predictBtn p)
         (resBox_hide p) (resBox p) (winPill p) (usedPill p) (padPill p)
         (toaster p) x (chart p) (today p).

Definition with_chart (x : option chart_data) (p : page) : page :=
  mkPage (commodity p) (stateSel p) (marketSel p) (dateInp p) (predictBtn p)
         (resBox_hide p) (resBox p) (winPill p) (usedPill p) (padPill p)
         (toaster p) (chartNote p) x (today p).

(** [toast(msg, bad)]; the timer that removes the toast later is not
    modelled, so [toaster] is the record of what was raised. *)
Definition toast (msg : text) (bad : bool) (p : page) : page :=
  with_toaster (toaster p ++ [(msg, bad)]) p.

(** The part of [apiGet] that follows the call. *)
Definition apiGet (o : outcome) : result parsed :=
  match o with
  | Rejected => Throw (Host FetchFailed)
  | Responded r =>
      if negb (ok r)
      then Throw (Error [Code (status r); T (lit " "); T (statusText r)])
      else json r
  end.

(** The part of [apiPost] that follows the call. *)
Definition apiPost (o : outcome) : result parsed :=
  match o with
  | Rejected => Throw (Host FetchFailed)
  | Responded r =>
      let data := match body_json r with
                  | NotJson => JsonObj empty_obj        (* { raw: txt } *)
                  | j => j
                  end in
      if negb (ok r)
      then
        let d := match data with JsonObj o => detail o | _ => Undefined end in
        Throw (Error (if truthy d then [V d]
                      else if negb (is_empty (body_text r)) then [T (body_text r)]
                      else plain "Request failed"))
      else Ok data
  end.

Definition setDisabled (disabled : bool) (placeholder : option jsstring)
    (sel : select) : select :=
  let sel := set_disabled disabled sel in
  match placeholder with
  | Some label => set_innerHTML [Dom.placeholder label] sel
  | None => sel
  end.

Section Filling.

Context {browser : Browser}.

Definition fillSelect (items : list jsstring) (firstText : jsstring)
    (sel : select) : select :=
  let sel := set_innerHTML (written_options firstText items) sel in
  set_disabled (Nat.eqb (length items) 0) sel.

End Filling.

Definition select_commodity_first : jsstring := lit "Select commodity first" ++ ellipsis.
Definition select_state_first : jsstring := lit "Select state first" ++ ellipsis.
Definition loading_states : jsstring := lit "Loading states" ++ ellipsis.
Definition loading_markets : jsstring := lit "Loading markets" ++ ellipsis.
Definition select_a_state : jsstring := lit "Select a state" ++ ellipsis.
Definition select_a_market : jsstring := lit "Select a market" ++ ellipsis.
Definition states_unavailable : jsstring := lit "States unavailable".
Definition markets_unavailable : jsstring := lit "Markets unavailable".

Definition states_request (c : jsstring) : request :=
  mkRequest GET (lit "/states") [(lit "commodity", c)] NoBody.

Definition markets_request (c s : jsstring) : request :=
  mkRequest GET (lit "/markets") [(lit "commodity", c); (lit "state", s)] NoBody.

(** The [catch] of the listener of [commodity]'s change event. *)
Definition commodity_change_catch (p : page) : page :=
  let p := with_stateSel (setDisabled true (Some states_unavailable) (stateSel p)) p in
  toast (plain "Could not load states for this commodity.") true p.

(** The [catch] of the listener of [stateSel]'s change event. *)
Definition state_change_catch (p : page) : page :=
  let p := with_marketSel (setDisabled true (Some markets_unavailable) (marketSel p)) p in
  toast (plain "Could not load markets for that state.") true p.

Section Cascade.

Context {browser : Browser}.

(** What the listener of [commodity]'s change event does once the call
    for the states has ended. *)
Definition commodity_change_resume : cont page := fun o p =>
  match bind_result (apiGet o) obj with
  | Ok res =>
      (with_stateSel (fillSelect (or_empty (states res)) select_a_state (stateSel p)) p,
       Fin)
  | Throw _ => (commodity_change_catch p, Fin)
  end.

(** [commodity.addEventListener("change", ...)]; the path of the call is
    built inside the [try], so that an error of [encodeURIComponent] ends
    in the [catch] with no call made. *)
Definition commodity_change : handler page := fun p =>
  let c := trim (value (commodity p)) in
  let p := with_marketSel (setDisabled true (Some select_state_first) (marketSel p)) p in
  if is_empty c
  then (with_stateSel (setDisabled true (Some select_commodity_first) (stateSel p)) p, Fin)
  else
    let p := with_stateSel (setDisabled true (Some loading_states) (stateSel p)) p in
    match encodeURIComponent c with
    | Ok c => (p, Await (states_request c) commodity_change_resume)
    | Throw _ => (commodity_change_catch p, Fin)
    end.

Definition state_change_resume : cont page := fun o p =>
  match bind_result (apiGet o) obj with
  | Ok res =>
      (with_marketSel (fillSelect (or_empty (markets res)) select_a_market (marketSel p)) p,
       Fin)
  | Throw _ => (state_change_catch p, Fin)
  end.

(** [stateSel.addEventListener("change", ...)] *)
Definition state_change : handler page := fun p =>
  let c := trim (value (commodity p)) in
  let s := trim (value (stateSel p)) in
  let p := with_marketSel (setDisabled true (Some loading_markets) (marketSel p)) p in
  if is_empty c || is_empty s
  then (with_marketSel (setDisabled true (Some select_state_first) (marketSel p)) p, Fin)
  else
    match bind_result (encodeURIComponent c) (fun c =>
          bind_result (encodeURIComponent s) (fun s =>
          Ok (markets_request c s))) with
    | Ok rq => (p, Await rq state_change_resume)
    | Throw _ => (state_change_catch p, Fin)
    end.

End Cascade.

(** The query object that [validate] returns; [q_date = None] is
    [date: undefined]. *)
Record query : Type := mkQuery {
  q_commodity : jsstring;
  q_state : jsstring;
  q_market : jsstring;
  q_date : option jsstring
}.

(** [/^\d{4}-\d{2}-\d{2}$/] *)
Definition date_re : list atom :=
  [Digit; Digit; Digit; Digit; Chr 45; Digit; Digit; Chr 45; Digit; Digit].

(** [validate()]; [None] is [null]. *)
Definition validate (p : page) : page * option query :=
  let c := trim (value (commodity p)) in
  let s := trim (value (stateSel p)) in
  let m := trim (value (marketSel p)) in
  let d := trim (dateInp p) in
  if is_empty c then (toast (plain "Select a commodity.") true p, None)
  else if is_empty s then (toast (plain "Select a state.") true p, None)
  else if is_empty m then (toast (plain "Select a market.") true p, None)
  else if negb (is_empty d) && negb (test date_re d)
  then (toast (plain "Invalid date format. Use YYYY-MM-DD.") true p, None)
  else (p, Some (mkQuery c s m (if is_empty d then None else Some d))).

(** [setupChart()] creates the chart with no label and two empty datasets. *)
Definition setupChart (p : page) : page :=
  with_chart (Some (mkChart [] [] [])) p.

(** [resetChart()] *)
Definition resetChart (p : page) : page :=
  match chart p with
  | None => p
  | Some _ => with_chart (Some (mkChart [] [] [])) p
  end.

(** The chips and the result box as a click on predict or clear leaves
    them. *)
Definition blank_pills (p : page) : page :=
  with_pills [T (lit "win: " ++ emdash)] [T (lit "used: " ++ emdash)]
             [T (lit "padded: " ++ emdash)] p.

(** [seriesEndpoint(q)]: the date is a parameter only when the query has
    one. *)
Definition seriesEndpoint (q : query) : request :=
  mkRequest GET (lit "/series_by_context")
    ([(lit "commodity", q_commodity q); (lit "state", q_state q);
      (lit "market", q_market q)]
     ++ match q_date q with
        | Some d => [(lit "date", d)]
        | None => []
        end)
    NoBody.

(** [q.date || new Date().toISOString().slice(0,10)] *)
Definition date_or_today (q : query) (p : page) : jsstring :=
  match q_date q with
  | Some d => d
  | None => today p
  end.

(** [new Array(n - 1).fill(null).concat([v])]; a negative length is a
    RangeError. *)
Definition sparse (n : nat) (v : jsval) : result (list jsval) :=
  match n with
  | O => Throw (Host RangeError)
  | S m => Ok (repeat Null m ++ [v])
  end.

(** Synchronous stretches of code that read and write the page and may
    throw. *)
Definition M (A : Type) : Type := page -> page * result A.

Definition ret {A : Type} (a : A) : M A := fun p => (p, Ok a).

Definition bind {A B : Type} (m : M A) (f : A -> M B) : M B := fun p =>
  match m p with
  | (p', Ok a) => f a p'
  | (p', Throw e) => (p', Throw e)
  end.

Definition lift {A : Type} (r : result A) : M A := fun p => (p, r).

Definition throw {A : Type} (e : exn) : M A := fun p => (p, Throw e).

Definition gets {A : Type} (f : page -> A) : M A := fun p => (p, Ok (f p)).

Definition modify (f : page -> page) : M unit := fun p => (f p, Ok tt).

(** [try { m } catch { h }] *)
Definition try_catch {A : Type} (m : M A) (h : exn -> M A) : M A := fun p =>
  match m p with
  | (p', Ok a) => (p', Ok a)
  | (p', Throw e) => h e p'
  end.

(** [chart.data], which is a TypeError while [chart] is undefined. *)
Definition the_chart : M chart_data := fun p =>
  match chart p with
  | Some ch => (p, Ok ch)
  | None => (p, Throw (Host TypeError))
  end.

Definition some_or_TypeError {A : Type} (x : option A) : M A :=
  match x with
  | Some a => ret a
  | None => throw (Host TypeError)
  end.

Declare Scope js_scope.
Delimit Scope js_scope with js.
Notation "x <- m ;; k" := (bind m (fun x => k))
  (at level 61, m at next level, right associativity) : js_scope.
Notation "m ;;; k" := (bind m (fun _ => k))
  (at level 61, right associativity) : js_scope.

Local Open Scope js_scope.

(** The body of the [try] of [drawSeries], from the end of the call on. *)
Definition drawSeries_try (q : query) (resp : jsobj) (o : outcome) : M unit :=
  r <- lift (match o with
             | Rejected => Throw (Host FetchFailed)
             | Responded r => Ok r
             end) ;;
  (if negb (ok r) then throw (Error []) else ret tt) ;;;
  j <- lift (json r) ;;
  hist <- lift (obj j) ;;
  hist_dates <- some_or_TypeError (dates hist) ;;
  hist_prices <- some_or_TypeError (prices hist) ;;
  d <- gets (date_or_today q) ;;
  let labels := hist_dates ++ [d] in
  let data := hist_prices ++ [predicted_next_price resp] in
  ch <- the_chart ;;
  modify (with_chart (Some (mkChart labels (recent ch) (predicted ch)))) ;;;
  ch <- the_chart ;;
  modify (with_chart (Some (mkChart (SelectPage.labels ch) hist_prices (predicted ch)))) ;;;
  series <- lift (sparse (length hist_prices) (predicted_next_price resp)) ;;
  ch <- the_chart ;;
  modify (with_chart (Some (mkChart (SelectPage.labels ch) (recent ch) series))) ;;;
  modify (with_chartNote []).

(** The [catch] of [drawSeries]. *)
Definition drawSeries_catch (q : query) (resp : jsobj) : M unit :=
  d <- gets (date_or_today q) ;;
  ch <- the_chart ;;
  modify (with_chart (Some (mkChart [d] (recent ch) (predicted ch)))) ;;;
  ch <- the_chart ;;
  modify (with_chart (Some (mkChart (SelectPage.labels ch) [] (predicted ch)))) ;;;
  ch <- the_chart ;;
  modify (with_chart (Some (mkChart (SelectPage.labels ch) (recent ch)
                                    [predicted_next_price resp]))) ;;;
  modify (with_chartNote
            (plain "History endpoint not available; showing predicted point only.")).

(** [drawSeries(q, resp)], from the end of its call on. *)
Definition drawSeries (q : query) (resp : jsobj) (o : outcome) : M unit :=
  try_catch (drawSeries_try q resp o) (fun _ => drawSeries_catch q resp).

(** The [catch] and the [finally] of the predict listener. *)
Definition predict_catch (e : exn) (p : page) : page :=
  let p := toast (T (lit "Prediction failed: ") :: message e) true p in
  with_chartNote (plain "Chart not updated.") p.

Definition predict_finally (p : page) : page := with_predictBtn false p.

(** The end of the [try] statement: the [catch] if something was thrown,
    and the [finally] in every case. *)
Definition predict_end (r : page * result unit) : page :=
  predict_finally
    (match snd r with
     | Ok _ => fst r
     | Throw e => predict_catch e (fst r)
     end).

Definition predict_request (q : query) : request :=
  mkRequest POST (lit "/predict_by_context") []
            (ContextBody (q_commodity q) (q_state q) (q_market q) (q_date q)).

(** What the [try] does with the body of the prediction before it calls
    [drawSeries]. *)
Definition show_prediction (data : parsed) : M jsobj :=
  resp <- lift (obj data) ;;
  modify (fun p =>
    with_pills
      [T (lit "win: "); V (nullish (window_size resp) (Str emdash))]
      [T (lit "used: "); V (nullish (used_points resp) (Str emdash))]
      [T (lit "padded: " ++ (if truthy (padded resp) then lit "yes" else lit "no"))]
      p) ;;;
  modify (with_resBox false
            [T (lit "Predicted next price: " ++ rupee_sign ++ lit " ");
             LocaleIN (if truthy (predicted_next_price resp)
                       then predicted_next_price resp else Num 0%Q)]) ;;;
  ret resp.

Definition predict_resume_history (q : query) (resp : jsobj) : cont page :=
  fun o p => (predict_end (drawSeries q resp o p), Fin).

Definition predict_resume (q : query) : cont page := fun o p =>
  match bind (lift (apiPost o)) show_prediction p with
  | (p, Ok resp) => (p, Await (seriesEndpoint q) (predict_resume_history q resp))
  | (p, Throw e) => (predict_end (p, Throw e), Fin)
  end.

(** [predictBtn.addEventListener("click", ...)] *)
Definition predictBtn_click : handler page := fun p =>
  match validate p with
  | (p, None) => (p, Fin)
  | (p, Some q) =>
      let p := with_predictBtn true p in
      let p := with_resBox true [] p in
      let p := blank_pills p in
      let p := with_chartNote [] p in
      let p := resetChart p in
      (p, Await (predict_request q) (predict_resume q))
  end.

(** [clearBtn.addEventListener("click", ...)] *)
Definition clearBtn_click : handler page := fun p =>
  let p := with_commodity (set_value [] (commodity p)) p in
  let p := with_stateSel (setDisabled true (Some select_commodity_first) (stateSel p)) p in
  let p := with_marketSel (setDisabled true (Some select_state_first) (marketSel p)) p in
  let p := with_resBox true (resBox p) p in
  let p := blank_pills p in
  let p := with_chartNote [] p in
  (resetChart p, Fin).

(** What the user does on this page, and what the network does.  A
    disabled select takes no choice and a disabled button no click. *)
Inductive event : Type :=
| PickCommodity (i : nat)       (* choose option [i] of the commodity select *)
| PickState (i : nat)
| PickMarket (i : nat)
| ClickPredict
| ClickClear
| Settle (n : nat) (o : outcome).   (* the call at position [n] ends with [o] *)

Section Events.

Context {browser : Browser}.

Definition step (w : world page) (e : event) : world page :=
  match e with
  | PickCommodity i =>
      match pick i (commodity (pg w)) with
      | Some sel =>
          fire commodity_change (mkWorld (with_commodity sel (pg w)) (inflight w))
      | None => w
      end
  | PickState i =>
      match pick i (stateSel (pg w)) with
      | Some sel =>
          fire state_change (mkWorld (with_stateSel sel (pg w)) (inflight w))
      | None => w
      end
  | PickMarket i =>
      match pick i (marketSel (pg w)) with
      | Some sel => mkWorld (with_marketSel sel (pg w)) (inflight w)
      | None => w
      end
  | ClickPredict =>
      if predictBtn (pg w) then w else fire predictBtn_click w
  | ClickClear => fire clearBtn_click w
  | Settle n o => deliver n o w
  end.

Definition run (w : world page) (es : list event) : world page :=
  fold_left step es w.

End Events.

End SelectPage.

(** ** price_app.js *)

Module PriceApp.

(** [priceChart.data]; the second dataset exists only once a prediction
    has been marked. *)
Record chart_data : Type := mkChart {
  labels : list jsstring;
  recent : list jsval;                  (* datasets[0].data *)
  predicted : option (list jsval)       (* datasets[1].data, when there *)
}.

Record page : Type := mkPage {
  pp_commodity : select;
  pp_state : select;
  pp_market : select;
  pp_date : jsstring;                   (* the value of #pp-date *)
  input_error : bool * bool * bool;     (* class "input--error" on the selects *)
  chips : text * text * text;           (* #chip-win, #chip-used, #chip-pad *)
  pp_predictionText : text;
  toasts : list (text * bool);          (* calls of showToast, with isError *)
  alerts : list text;                   (* calls of alert *)
  priceChart : option chart_data;       (* null until a chart is rendered *)
  pp_predictBtn : bool                  (* the disabled flag of #pp-predictBtn *)
}.

Definition with_state (x : select) (p : page) : page :=
  mkPage (pp_commodity p) x (pp_market p) (pp_date p) (input_error p) (chips p)
         (pp_predictionText p) (toasts p) (alerts p) (priceChart p) (pp_predictBtn p).

Definition with_market (x : select) (p : page) : page :=
  mkPage (pp_commodity p) (pp_state p) x (pp_date p) (input_error p) (chips p)
         (pp_predictionText p) (toasts p) (alerts p) (priceChart p) (pp_predictBtn p).

Definition with_commodity (x : select) (p : page) : page :=
  mkPage x (pp_state p) (pp_market p) (pp_date p) (input_error p) (chips p)
         (pp_predictionText p) (toasts p) (alerts p) (priceChart p) (pp_predictBtn p).

Definition with_date (x : jsstring) (p : page) : page :=
  mkPage (pp_commodity p) (pp_state p) (pp_market p) x (input_error p) (chips p)
         (pp_predictionText p) (toasts p) (alerts p) (priceChart p) (pp_predictBtn p).

Definition with_input_error (x : bool * bool * bool) (p : page) : page :=
  mkPage (pp_commodity p) (pp_state p) (pp_market p) (pp_date p) x (chips p)
         (pp_predictionText p) (toasts p) (alerts p) (priceChart p) (pp_predictBtn p).

Definition with_chips (x : text * text * text) (p : page) : page :=
  mkPage (pp_commodity p) (pp_state p) (pp_market p) (pp_date p) (input_error p) x
         (pp_predictionText p) (toasts p) (alerts p) (priceChart p) (pp_predictBtn p).

Definition with_predictionText (x : text) (p : page) : page :=
  mkPage (pp_commodity p) (pp_state p) (pp_market p) (pp_date p) (input_error p)
         (chips p) x (toasts p) (alerts p) (priceChart p) (pp_predictBtn p).

Definition with_toasts (x : list (text * bool)) (p : page) : page :=
  mkPage (pp_commodity p) (pp_state p) (pp_market p) (pp_date p) (input_error p)
         (chips p) (pp_predictionText p) x (alerts p) (priceChart p) (pp_predictBtn p).

Definition with_alerts (x : list text) (p : page) : page :=
  mkPage (pp_commodity p) (pp_state p) (pp_market p) (pp_date p) (input_error p)
         (chips p) (pp_predictionText p) (toasts p) x (priceChart p) (pp_predictBtn p).

Definition with_priceChart (x : option chart_data) (p : page) : page :=
  mkPage (pp_commodity p) (pp_state p) (pp_market p) (pp_date p) (input_error p)
         (chips p) (pp_predictionText p) (toasts p) (alerts p) x (pp_predictBtn p).

(** [showToast(message, isError)]; the single toast element shows the last
    message, and [toasts] keeps all of them. *)
Definition showToast (message : text) (isError : bool) (p : page) : page :=
  with_toasts (toasts p ++ [(message, isError)]) p.

Definition alert (message : text) (p : page) : page :=
  with_alerts (alerts p ++ [message]) p.

(** The part of [fetchJSON] that follows the call. *)
Definition fetchJSON (o : outcome) : result parsed :=
  match o with
  | Rejected => Throw (Host FetchFailed)
  | Responded resp =>
      if negb (ok resp)
      then Throw (Error (if negb (is_empty (body_text resp))
                         then [T (body_text resp)]
                         else [T (lit "HTTP "); Code (status resp)]))
      else json resp
  end.

Definition select_commodity_first : jsstring := lit "Select commodity first" ++ ellipsis.
Definition select_state_first : jsstring := lit "Select state first" ++ ellipsis.
Definition loading_states : jsstring := lit "Loading states" ++ ellipsis.
Definition loading_markets : jsstring := lit "Loading markets" ++ ellipsis.
Definition select_state : jsstring := lit "Select state" ++ ellipsis.
Definition select_market : jsstring := lit "Select market" ++ ellipsis.
Definition no_states_found : jsstring := lit "No states found".
Definition no_markets_found : jsstring := lit "No markets found".
Definition error_loading_states : jsstring := lit "Error loading states".
Definition error_loading_markets : jsstring := lit "Error loading markets".

Definition states_request (commodity : jsstring) : request :=
  mkRequest GET (lit "/states") [(lit "commodity", commodity)] NoBody.

Definition markets_request (commodity state : jsstring) : request :=
  mkRequest GET (lit "/markets")
            [(lit "commodity", commodity); (lit "state", state)] NoBody.

(** [sel.innerHTML = first option; items.forEach(append an option)] *)
Definition fill (first : jsstring) (items : list jsstring) (sel : select) : select :=
  set_innerHTML (placeholder first :: map item items) sel.

(** The [catch] of [onCommodityChange]. *)
Definition onCommodityChange_catch (p : page) : page :=
  let p := with_state (set_innerHTML [placeholder error_loading_states] (pp_state p)) p in
  showToast (plain "Failed to load states.") true p.

(** The [catch] of [onStateChange]. *)
Definition onStateChange_catch (p : page) : page :=
  let p := with_market (set_innerHTML [placeholder error_loading_markets] (pp_market p)) p in
  showToast (plain "Failed to load markets.") true p.

Definition onCommodityChange_resume : cont page := fun o p =>
  match bind_result (fetchJSON o) obj with
  | Ok data =>
      let states := or_empty (states data) in
      if Nat.eqb (length states) 0
      then
        let p := with_state (set_innerHTML [placeholder no_states_found] (pp_state p)) p in
        (showToast (plain "No states found for this commodity in DB.") true p, Fin)
      else
        let p := with_state (set_disabled false (pp_state p)) p in
        (with_state (fill select_state states (pp_state p)) p, Fin)
  | Throw _ => (onCommodityChange_catch p, Fin)
  end.

Definition onCommodityChange : handler page := fun p =>
  let commodity := value (pp_commodity p) in
  let p := with_state (set_innerHTML [placeholder loading_states] (pp_state p)) p in
  let p := with_state (set_disabled true (pp_state p)) p in
  let p := with_market (set_innerHTML [placeholder select_state_first] (pp_market p)) p in
  let p := with_market (set_disabled true (pp_market p)) p in
  if is_empty commodity
  then (with_state (set_innerHTML [placeholder select_commodity_first] (pp_state p)) p, Fin)
  else
    match encodeURIComponent commodity with
    | Ok commodity => (p, Await (states_request commodity) onCommodityChange_resume)
    | Throw _ => (onCommodityChange_catch p, Fin)
    end.

Definition onStateChange_resume : cont page := fun o p =>
  match bind_result (fetchJSON o) obj with
  | Ok data =>
      let markets := or_empty (markets data) in
      if Nat.eqb (length markets) 0
      then
        let p := with_market (set_innerHTML [placeholder no_markets_found] (pp_market p)) p in
        (showToast (plain "No markets found for this state.") true p, Fin)
      else
        let p := with_market (set_disabled false (pp_market p)) p in
        (with_market (fill select_market markets (pp_market p)) p, Fin)
  | Throw _ => (onStateChange_catch p, Fin)
  end.

Definition onStateChange : handler page := fun p =>
  let commodity := value (pp_commodity p) in
  let state := value (pp_state p) in
  let p := with_market (set_innerHTML [placeholder loading_markets] (pp_market p)) p in
  let p := with_market (set_disabled true (pp_market p)) p in
  if is_empty commodity || is_empty state
  then (with_market (set_innerHTML [placeholder select_state_first] (pp_market p)) p, Fin)
  else
    match bind_result (encodeURIComponent commodity) (fun commodity =>
          bind_result (encodeURIComponent state) (fun state =>
          Ok (markets_request commodity state))) with
    | Ok rq => (p, Await rq onStateChange_resume)
    | Throw _ => (onStateChange_catch p, Fin)
    end.

(** [validateContext()] *)
Definition validateContext (p : page) : page * bool :=
  let c := is_empty (value (pp_commodity p)) in
  let s := is_empty (value (pp_state p)) in
  let m := is_empty (value (pp_market p)) in
  let p := with_input_error (c, s, m) p in
  let ok := negb c && negb s && negb m in
  if ok then (p, true)
  else (alert (plain "Please select commodity, state and market before predicting.") p,
        false).

(** [updateWindowChips(win, used, padded)] *)
Definition updateWindowChips (win used : frag) (padded : bool) (p : page) : page :=
  with_chips ([T (lit "win: "); win], [T (lit "used: "); used],
              [T (lit "padded: " ++ (if padded then lit "yes" else lit "no"))]) p.

(** [renderChart(labels, values)]: the old chart is destroyed and a new one
    with a single dataset takes its place. *)
Definition renderChart (labels : list jsstring) (values : list jsval) (p : page) : page :=
  with_priceChart (Some (mkChart labels values None)) p.

Definition series_request (commodity state market date : jsstring) : request :=
  mkRequest GET (lit "/series_by_context")
    ([(lit "commodity", commodity); (lit "state", state); (lit "market", market);
      (lit "limit", lit "30")]
     ++ (if is_empty date then [] else [(lit "date", date)]))
    NoBody.

Definition M (A : Type) : Type := page -> page * result A.

Definition ret {A : Type} (a : A) : M A := fun p => (p, Ok a).

Definition bind {A B : Type} (m : M A) (f : A -> M B) : M B := fun p =>
  match m p with
  | (p', Ok a) => f a p'
  | (p', Throw e) => (p', Throw e)
  end.

Definition lift {A : Type} (r : result A) : M A := fun p => (p, r).

Definition throw {A : Type} (e : exn) : M A := fun p => (p, Throw e).

Definition gets {A : Type} (f : page -> A) : M A := fun p => (p, Ok (f p)).

Definition modify (f : page -> page) : M unit := fun p => (f p, Ok tt).

Definition try_catch {A : Type} (m : M A) (h : exn -> M A) : M A := fun p =>
  match m p with
  | (p', Ok a) => (p', Ok a)
  | (p', Throw e) => h e p'
  end.

Definition some_or_TypeError {A : Type} (x : option A) : M A :=
  match x with
  | Some a => ret a
  | None => throw (Host TypeError)
  end.

Declare Scope price_scope.
Notation "x <- m ;; k" := (bind m (fun x => k))
  (at level 61, m at next level, right associativity) : price_scope.
Notation "m ;;; k" := (bind m (fun _ => k))
  (at level 61, right associativity) : price_scope.
Local Open Scope price_scope.

(** The [try] of [loadHistory], from the end of the call on. *)
Definition loadHistory_try (plotOnly : bool) (o : outcome) : M unit :=
  j <- lift (fetchJSON o) ;;
  data <- lift (obj j) ;;
  modify (renderChart (or_empty (dates data)) (or_empty (prices data))) ;;;
  if plotOnly
  then
    data_prices <- some_or_TypeError (prices data) ;;
    modify (updateWindowChips (T emdash)
              (V (Num (inject_Z (Z.of_nat (length data_prices))))) false) ;;;
    modify (with_predictionText
              [T (lit "History plotted. Click Predict Price to estimate next price.")])
  else ret tt.

(** [loadHistory(plotOnly)], from the end of its call on. *)
Definition loadHistory (plotOnly : bool) (o : outcome) : M unit :=
  try_catch (loadHistory_try plotOnly o)
    (fun _ => modify (showToast
       (plain "Could not load history. Maybe DB has no data for this context.") true)).

(** The request of [loadHistory], from the values read when it starts. *)
Definition loadHistory_request (p : page) : request :=
  series_request (value (pp_commodity p)) (value (pp_state p))
                 (value (pp_market p)) (pp_date p).

(** [new Array(n - 1).fill(null).concat(v)] *)
Definition sparse (n : nat) (v : jsval) : result (list jsval) :=
  match n with
  | O => Throw (Host RangeError)
  | S m => Ok (repeat Null m ++ [v])
  end.

(** The body of [if (priceChart && priceChart.data.labels.length > 0)]. *)
Definition mark_prediction (out : jsobj) : M unit :=
  pc <- gets priceChart ;;
  match pc with
  | Some ch =>
      if Nat.ltb 0 (length (labels ch))
      then
        let hist := recent ch in
        series <- lift (sparse (length hist) (predicted_next_price out)) ;;
        modify (with_priceChart (Some (mkChart (labels ch) (recent ch) (Some series))))
      else ret tt
  | None => ret tt
  end.

(** The [try] of [doPrediction], from the end of the call on; the
    selections are those read when [doPrediction] started.  The text is
    the sentence without its [<strong>] tags. *)
Definition doPrediction_try (commodity state market : jsstring) (o : outcome) : M unit :=
  j <- lift (fetchJSON o) ;;
  out <- lift (obj j) ;;
  modify (updateWindowChips (V (window_size out)) (V (used_points out))
                            (truthy (padded out))) ;;;
  modify (with_predictionText
            [T (lit "Predicted next-day modal price for "); T commodity;
             T (lit " in "); T market; T (lit ", "); T state; T (lit " is ");
             T (rupee_sign ++ lit " "); V (predicted_next_price out); T (lit ".")]) ;;;
  mark_prediction out ;;;
  modify (showToast (plain "Prediction successful.") false).

Definition doPrediction_resume (commodity state market : jsstring) : cont page :=
  fun o p =>
    (fst (try_catch (doPrediction_try commodity state market o)
            (fun e => modify (alert (T (lit "Prediction failed: ") :: message e))) p),
     Fin).

Definition predict_request (commodity state market date : jsstring) : request :=
  mkRequest POST (lit "/predict_by_context") []
    (ContextBody commodity state market
                 (if is_empty date then None else Some date)).

(** [doPrediction()] *)
Definition doPrediction : handler page := fun p =>
  let commodity := value (pp_commodity p) in
  let state := value (pp_state p) in
  let market := value (pp_market p) in
  let date := pp_date p in
  (p, Await (predict_request commodity state market date)
            (doPrediction_resume commodity state market)).

(** [await loadHistory(true)] and the end of [onPlotClick]. *)
Definition onPlotClick_resume : cont page :=
  fun o p => (fst (loadHistory true o p), Fin).

(** [onPlotClick()] *)
Definition onPlotClick : handler page := fun p =>
  match validateContext p with
  | (p, false) => (p, Fin)
  | (p, true) => (p, Await (loadHistory_request p) onPlotClick_resume)
  end.

(** [await loadHistory(false)] and then [await doPrediction()]. *)
Definition onPredictClick_resume : cont page :=
  fun o p => doPrediction (fst (loadHistory false o p)).

(** [onPredictClick()] *)
Definition onPredictClick : handler page := fun p =>
  match validateContext p with
  | (p, false) => (p, Fin)
  | (p, true) => (p, Await (loadHistory_request p) onPredictClick_resume)
  end.

(** [clearForm()] *)
Definition clearForm : handler page := fun p =>
  let p := with_commodity (set_selectedIndex 0 (pp_commodity p)) p in
  let p := with_state (set_innerHTML [placeholder select_commodity_first] (pp_state p)) p in
  let p := with_state (set_disabled true (pp_state p)) p in
  let p := with_market (set_innerHTML [placeholder select_state_first] (pp_market p)) p in
  let p := with_market (set_disabled true (pp_market p)) p in
  let p := with_date [] p in
  let p := updateWindowChips (T emdash) (T emdash) true p in
  let p := with_predictionText
             [T (lit "No prediction yet. Fill the form and click Predict Price.")] p in
  (with_priceChart None p, Fin).

(** What the user does on this page, and what the network does.  A
    disabled select takes no choice and a disabled button no click. *)
Inductive event : Type :=
| PickCommodity (i : nat)
| PickState (i : nat)
| PickMarket (i : nat)
| ClickPredict
| ClickPlot
| ClickClear
| Settle (n : nat) (o : outcome).

Definition step (w : world page) (e : event) : world page :=
  match e with
  | PickCommodity i =>
      match pick i (pp_commodity (pg w)) with
      | Some sel =>
          fire onCommodityChange (mkWorld (with_commodity sel (pg w)) (inflight w))
      | None => w
      end
  | PickState i =>
      match pick i (pp_state (pg w)) with
      | Some sel =>
          fire onStateChange (mkWorld (with_state sel (pg w)) (inflight w))
      | None => w
      end
  | PickMarket i =>
      match pick i (pp_market (pg w)) with
      | Some sel => mkWorld (with_market sel (pg w)) (inflight w)
      | None => w
      end
  | ClickPredict =>
      if pp_predictBtn (pg w) then w else fire onPredictClick w
  | ClickPlot => fire onPlotClick w
  | ClickClear => fire clearForm w
  | Settle n o => deliver n o w
  end.

Definition run (w : world page) (es : list event) : world page :=
  fold_left step es w.

End PriceApp.

(** ** crop_app.js *)

Module CropApp.

(** The ids of the seven inputs. *)
Inductive field : Type :=
| id_N | id_P | id_K | id_temperature | id_humidity | id_ph | id_rainfall.

Definition id (f : field) : jsstring :=
  match f with
  | id_N => lit "N"
  | id_P => lit "P"
  | id_K => lit "K"
  | id_temperature => lit "temperature"
  | id_humidity => lit "humidity"
  | id_ph => lit "ph"
  | id_rainfall => lit "rainfall"
  end.

Definition field_eqb (f g : field) : bool :=
  match f, g with
  | id_N, id_N | id_P, id_P | id_K, id_K | id_temperature, id_temperature
  | id_humidity, id_humidity | id_ph, id_ph | id_rainfall, id_rainfall => true
  | _, _ => false
  end.

(** A JavaScript number: every finite double is a rational. *)
Inductive number : Type :=
| NaN
| Finite (q : Q)
| Infinite (negative : bool).

Record input : Type := mkInput {
  i_value : jsstring;            (* el.value *)
  i_error : bool                 (* el has class "input--error" *)
}.

(** The request body; the seven numbers are finite once they have passed
    [getNumber]. *)
Record payload : Type := mkPayload {
  N_ : Q; P_ : Q; K_ : Q;
  temperature : Q; humidity : Q; ph : Q; rainfall : Q
}.

(** What [renderResult] and [clearForm] write. *)
Record panel : Type := mkPanel {
  cr_mainResult : text;
  cr_metrics_hidden : bool;
  cr_confidence : text;
  cr_suitability : text;
  cr_growth : text;
  cr_risk : text;
  cr_altList : list text;
  cr_alternatives_hidden : bool;
  cr_inputSummary : text
}.

Record page : Type := mkPage {
  inputs : field -> input;
  cr_recoBtn : bool;             (* the disabled flag of #cr-recoBtn *)
  results : panel;
  toasts : list (text * bool);
  alerts : list text
}.

Definition with_input (f : field) (x : input) (p : page) : page :=
  mkPage (fun g => if field_eqb g f then x else inputs p g)
         (cr_recoBtn p) (results p) (toasts p) (alerts p).

Definition with_results (x : panel) (p : page) : page :=
  mkPage (inputs p) (cr_recoBtn p) x (toasts p) (alerts p).

Definition showToast (message : text) (isError : bool) (p : page) : page :=
  mkPage (inputs p) (cr_recoBtn p) (results p)
         (toasts p ++ [(message, isError)]) (alerts p).

Definition alert (message : text) (p : page) : page :=
  mkPage (inputs p) (cr_recoBtn p) (results p) (toasts p)
         (alerts p ++ [message]).

Definition M (A : Type) : Type := page -> page * result A.

Definition ret {A : Type} (a : A) : M A := fun p => (p, Ok a).

Definition bind {A B : Type} (m : M A) (f : A -> M B) : M B := fun p =>
  match m p with
  | (p', Ok a) => f a p'
  | (p', Throw e) => (p', Throw e)
  end.

Definition lift {A : Type} (r : result A) : M A := fun p => (p, r).

Definition throw {A : Type} (e : exn) : M A := fun p => (p, Throw e).

Definition modify (f : page -> page) : M unit := fun p => (f p, Ok tt).

Declare Scope crop_scope.
Notation "x <- m ;; k" := (bind m (fun x => k))
  (at level 61, m at next level, right associativity) : crop_scope.
Notation "m ;;; k" := (bind m (fun _ => k))
  (at level 61, right associativity) : crop_scope.
Local Open Scope crop_scope.

(** [el.classList.remove("input--error")] and [el.classList.add(...)] *)
Definition set_error (f : field) (b : bool) (p : page) : page :=
  with_input f (mkInput (i_value (inputs p f)) b) p.

Definition Qltb (x y : Q) : bool := negb (Qle_bool y x).

Section WithNumber.

(** [Number(raw)], the host's conversion of a string to a number. *)
Variable Number : jsstring -> number.

(** [getNumber(id, min, max)] *)
Definition getNumber (f : field) (min max : Q) : M Q := fun p =>
  let p := set_error f false p in
  let raw := trim (i_value (inputs p f)) in
  if is_empty raw
  then (set_error f true p,
        Throw (Error [T (lit "Please enter a value for "); T (id f); T (lit ".")]))
  else
    match Number raw with
    | NaN =>
        (set_error f true p,
         Throw (Error [T (id f); T (lit " must be a number.")]))
    | Infinite _ =>
        (set_error f true p,
         Throw (Error [T (id f); T (lit " should be between "); V (Num min);
                       T (lit " and "); V (Num max); T (lit ".")]))
    | Finite v =>
        if Qltb v min || Qltb max v
        then (set_error f true p,
              Throw (Error [T (id f); T (lit " should be between "); V (Num min);
                            T (lit " and "); V (Num max); T (lit ".")]))
        else (p, Ok v)
    end.

(** The seven calls of [getNumber] and the payload built from them. *)
Definition read_form : M payload :=
  N <- getNumber id_N 0 200 ;;
  P <- getNumber id_P 0 200 ;;
  K <- getNumber id_K 0 300 ;;
  temperature <- getNumber id_temperature (-10) 60 ;;
  humidity <- getNumber id_humidity 0 100 ;;
  ph <- getNumber id_ph 0 14 ;;
  rainfall <- getNumber id_rainfall 0 500 ;;
  ret (mkPayload N P K temperature humidity ph rainfall).

Definition recommend_request (x : payload) : request :=
  mkRequest POST (lit "/crop/recommend") []
    (SoilBody (N_ x) (P_ x) (K_ x) (temperature x) (humidity x) (ph x) (rainfall x)).

(** [v != null ? v.toFixed(1) + suffix : dash]; [toFixed] exists on
    numbers only. *)
Definition fixed_or_dash (v : jsval) (suffix : jsstring) : result text :=
  match v with
  | Undefined | Null => Ok [T emdash]
  | Num q => Ok [Fixed1 q; T suffix]
  | _ => Throw (Host TypeError)
  end.

(** [v || d] *)
Definition or_else (v d : jsval) : jsval := if truthy v then v else d.

Fixpoint alternatives_items (l : list (jsval * jsval)) : result (list text) :=
  match l with
  | [] => Ok []
  | (crop, conf) :: r =>
      match (match conf with
             | Undefined | Null => Ok []
             | Num q => Ok [Fixed1 q; T (lit "% confidence")]
             | _ => Throw (Host TypeError)
             end) with
      | Throw e => Throw e
      | Ok c =>
          match alternatives_items r with
          | Throw e => Throw e
          | Ok rest => Ok (([V crop; T (lit " ")] ++ c) :: rest)
          end
      end
  end.

(** The items that [forEach] has appended when it stops, at the end of the
    list or at the first item that throws. *)
Fixpoint alternatives_done (l : list (jsval * jsval)) : list text :=
  match l with
  | [] => []
  | (crop, conf) :: r =>
      match conf with
      | Undefined | Null => [V crop; T (lit " ")] :: alternatives_done r
      | Num q => [V crop; T (lit " "); Fixed1 q; T (lit "% confidence")]
                   :: alternatives_done r
      | _ => []
      end
  end.

(** [renderResult(data, input)], without the markup. *)
Definition renderResult (data : parsed) (x : payload) : M unit :=
  data <- lift (obj data) ;;
  let rec := or_else (recommended_crop data) (Str (lit "Unknown crop")) in
  modify (fun p => with_results
    (mkPanel [T (lit "Recommended crop: "); V rec;
              T (lit "This is based on your soil nutrients and climate parameters.")]
             false
             (cr_confidence (results p)) (cr_suitability (results p))
             (cr_growth (results p)) (cr_risk (results p)) (cr_altList (results p))
             (cr_alternatives_hidden (results p)) (cr_inputSummary (results p))) p) ;;;
  c <- lift (fixed_or_dash (confidence data) (lit "%")) ;;
  modify (fun p => with_results
    (mkPanel (cr_mainResult (results p)) (cr_metrics_hidden (results p))
             c [V (or_else (suitability data) (Str emdash))]
             (cr_growth (results p)) (cr_risk (results p)) (cr_altList (results p))
             (cr_alternatives_hidden (results p)) (cr_inputSummary (results p))) p) ;;;
  g <- lift (fixed_or_dash (growth_score data) (lit "/10")) ;;
  modify (fun p => with_results
    (mkPanel (cr_mainResult (results p)) (cr_metrics_hidden (results p))
             (cr_confidence (results p)) (cr_suitability (results p))
             g [V (or_else (risk_label data) (Str emdash))] []
             (cr_alternatives_hidden (results p)) (cr_inputSummary (results p))) p) ;;;
  match alternatives data with
  | Some (a :: l) =>
      modify (fun p => with_results
        (mkPanel (cr_mainResult (results p)) (cr_metrics_hidden (results p))
                 (cr_confidence (results p)) (cr_suitability (results p))
                 (cr_growth (results p)) (cr_risk (results p))
                 (alternatives_done (a :: l)) false
                 (cr_inputSummary (results p))) p) ;;;
      lift (alternatives_items (a :: l)) ;;; ret tt
  | _ =>
      modify (fun p => with_results
        (mkPanel (cr_mainResult (results p)) (cr_metrics_hidden (results p))
                 (cr_confidence (results p)) (cr_suitability (results p))
                 (cr_growth (results p)) (cr_risk (results p))
                 (cr_altList (results p)) true
                 (cr_inputSummary (results p))) p)
  end ;;;
  modify (fun p => with_results
    (mkPanel (cr_mainResult (results p)) (cr_metrics_hidden (results p))
             (cr_confidence (results p)) (cr_suitability (results p))
             (cr_growth (results p)) (cr_risk (results p))
             (cr_altList (results p)) (cr_alternatives_hidden (results p))
             [T (lit "N="); V (Num (N_ x)); T (lit ", P="); V (Num (P_ x));
              T (lit ", K="); V (Num (K_ x)); T (lit ", Temp=");
              V (Num (temperature x)); T (degree_sign ++ lit "C, Humidity=");
              V (Num (humidity x)); T (lit "%, pH="); V (Num (ph x));
              T (lit ", Rainfall="); V (Num (rainfall x)); T (lit "mm.")]) p).

(** The rest of the [try] of [onRecommendClick], from the end of the call
    on. *)
Definition recommend_try (x : payload) (o : outcome) : M unit :=
  resp <- lift (match o with
                | Rejected => Throw (Host FetchFailed)
                | Responded r => Ok r
                end) ;;
  (if negb (ok resp)
   then throw (Error (if negb (is_empty (body_text resp))
                      then [T (body_text resp)]
                      else [T (lit "HTTP "); Code (status resp)]))
   else ret tt) ;;;
  data <- lift (json resp) ;;
  renderResult data x ;;;
  modify (showToast (plain "Crop recommendation generated.") false).

(** [catch (e) { alert(e.message); }] *)
Definition recommend_catch (r : page * result unit) : page :=
  match snd r with
  | Ok _ => fst r
  | Throw e => alert (message e) (fst r)
  end.

(** [onRecommendClick()] *)
Definition onRecommendClick_resume (x : payload) : cont page :=
  fun o p => (recommend_catch (recommend_try x o p), Fin).

Definition onRecommendClick : handler page := fun p =>
  match read_form p with
  | (p, Ok x) => (p, Await (recommend_request x) (onRecommendClick_resume x))
  | (p, Throw e) => (recommend_catch (p, Throw e), Fin)
  end.

End WithNumber.

(** [clearForm()] *)
Definition clearForm : handler page := fun p =>
  (mkPage (fun _ => mkInput [] false) (cr_recoBtn p)
          (mkPanel [T (lit "Results will appear here after you click Recommend Crop.")]
                   true (cr_confidence (results p)) (cr_suitability (results p))
                   (cr_growth (results p)) (cr_risk (results p))
                   (cr_altList (results p)) true [T emdash])
          (toasts p) (alerts p),
   Fin).

End CropApp.

(** ** script.js *)

Module Script.

(** The part of [apiPost] that follows the call. *)
Definition apiPost (o : outcome) : result parsed :=
  match o with
  | Rejected => Throw (Host FetchFailed)
  | Responded res =>
      if negb (ok res)
      then Throw (Error [T (lit "API error: "); Code (status res)])
      else json res
  end.

End Script.

(** ** What the specification speaks of *)

Module NetSpec.

(** What a server lists in its answer: the array of a successful JSON
    answer, and nothing in any other case. *)
Definition listed (field : jsobj -> option (list jsstring)) (o : outcome)
    : list jsstring :=
  match o with
  | Rejected => []
  | Responded r =>
      if ok r
      then match body_json r with
           | JsonObj b => or_empty (field b)
           | _ => []
           end
      else []
  end.

(** A call succeeds with zero results. *)
Definition empty_success (field : jsobj -> option (list jsstring)) (o : outcome)
    : Prop :=
  exists r b, o = Responded r /\ ok r = true /\ body_json r = JsonObj b /\
              or_empty (field b) = [].

End NetSpec.
Import NetSpec.

(** ** What the specification speaks of, on the select-based page *)

Module SelectSpec.
Import SelectPage.

(** The requirements of the query validator, in the order of the
    specification. *)
Inductive requirement : Type :=
| NeedCommodity
| NeedState
| NeedMarket
| NeedDate.

Definition requirements : list requirement :=
  [NeedCommodity; NeedState; NeedMarket; NeedDate].

(** A date is four digits, a hyphen, two digits, a hyphen and two
    digits. *)
Definition digits (n : nat) (s : jsstring) : Prop :=
  length s = n /\ Forall (fun c => isDigit c = true) s.

Definition hyphen : N := 45%N.

Definition DatePattern (d : jsstring) : Prop :=
  exists y m dd,
    d = y ++ hyphen :: m ++ hyphen :: dd /\
    digits 4 y /\ digits 2 m /\ digits 2 dd.

(** A string with no white space at either end. *)
Definition Trimmed (s : jsstring) : Prop :=
  (forall c r, s = c :: r -> isWhiteSpace c = false) /\
  (forall c r, s = r ++ [c] -> isWhiteSpace c = false).

(** A field is given when something is left of it once trimmed. *)
Definition given (s : jsstring) : bool := negb (is_empty (trim s)).

(** A requirement is met: the three selections are given, and the date,
    if present, matches the pattern. *)
Definition met (p : page) (r : requirement) : bool :=
  match r with
  | NeedCommodity => given (value (commodity p))
  | NeedState => given (value (stateSel p))
  | NeedMarket => given (value (marketSel p))
  | NeedDate => negb (given (dateInp p)) || test date_re (trim (dateInp p))
  end.

Definition first_unmet (p : page) : option requirement :=
  find (fun r => negb (met p r)) requirements.

Definition report (r : requirement) : text :=
  match r with
  | NeedCommodity => plain "Select a commodity."
  | NeedState => plain "Select a state."
  | NeedMarket => plain "Select a market."
  | NeedDate => plain "Invalid date format. Use YYYY-MM-DD."
  end.

(** The normalized query of a page: the trimmed selections, and the
    trimmed date unless nothing is left of it. *)
Definition normalized (p : page) : query :=
  mkQuery (trim (value (commodity p))) (trim (value (stateSel p)))
          (trim (value (marketSel p)))
          (if given (dateInp p) then Some (trim (dateInp p)) else None).

Definition selections_present (p : page) : Prop :=
  met p NeedCommodity = true /\ met p NeedState = true /\ met p NeedMarket = true.

Definition wellformed (q : query) : Prop :=
  (q_commodity q <> [] /\ Trimmed (q_commodity q)) /\
  (q_state q <> [] /\ Trimmed (q_state q)) /\
  (q_market q <> [] /\ Trimmed (q_market q)) /\
  match q_date q with
  | None => True
  | Some d => DatePattern d
  end.

(** The states that the server has for a commodity: what it lists in
    its answer, and none for a name that has no URL encoding, for which
    no call can be made. *)
(** The requirements once more, in the words of the specification alone:
    nothing below mentions [trim], the regular expression or [validate]. *)

(** A text of white space only; the empty text is one. *)
Definition Blank (s : jsstring) : Prop :=
  Forall (fun c => isWhiteSpace c = true) s.

(** [t] is [s] without the white space at its two ends. *)
Definition Core (s t : jsstring) : Prop :=
  exists l r, s = l ++ t ++ r /\ Blank l /\ Blank r /\ Trimmed t.

(** A selection is required to be more than white space, and the date to
    be white space only or, white space at its ends apart, a date of the
    pattern. *)
Definition Met (p : page) (r : requirement) : Prop :=
  match r with
  | NeedCommodity => ~ Blank (value (commodity p))
  | NeedState => ~ Blank (value (stateSel p))
  | NeedMarket => ~ Blank (value (marketSel p))
  | NeedDate => Blank (dateInp p) \/ exists d, Core (dateInp p) d /\ DatePattern d
  end.

(** The place of a requirement in the fixed order. *)
Definition place (r : requirement) : nat :=
  match r with
  | NeedCommodity => 0
  | NeedState => 1
  | NeedMarket => 2
  | NeedDate => 3
  end.

(** [r] is the first requirement that is not met. *)
Definition FirstUnmet (p : page) (r : requirement) : Prop :=
  ~ Met p r /\ forall r', place r' < place r -> Met p r'.

(** [q] is the complete normalized query of the page: each selection
    without the white space at its ends, and the date likewise, left out
    when the input holds white space only. *)
Definition Normalized (p : page) (q : query) : Prop :=
  Core (value (commodity p)) (q_commodity q) /\
  Core (value (stateSel p)) (q_state q) /\
  Core (value (marketSel p)) (q_market q) /\
  match q_date q with
  | Some d => Core (dateInp p) d /\ d <> []
  | None => Blank (dateInp p)
  end.

(** The states that the server has for a commodity: what it lists in
    its answer, and none for a name that has no URL encoding, for which
    no call can be made. *)
Definition states_for (srv : request -> outcome) (c : jsstring) : list jsstring :=
  if isWellFormed c then listed states (srv (states_request c)) else [].

Definition markets_for (srv : request -> outcome) (c s : jsstring) : list jsstring :=
  if isWellFormed c && isWellFormed s
  then listed markets (srv (markets_request c s))
  else [].

(** A server whose answers list plain text only: names without [<],
    [&], NUL, CR or lone surrogate. *)
Definition plain_names (l : list jsstring) : Prop :=
  Forall (fun v => isPlainText v = true) l.

Definition plain_server (srv : request -> outcome) : Prop :=
  forall rq, plain_names (listed states (srv rq)) /\
             plain_names (listed markets (srv rq)).

(** The options on display correspond to the selection: the state select
    offers the states of the selected commodity and the market select
    the markets of the selected commodity and state, each name with its
    white space stripped and collapsed. *)
Definition fresh (srv : request -> outcome) (p : page) : Prop :=
  let c := trim (value (commodity p)) in
  let s := trim (value (stateSel p)) in
  offered (stateSel p) =
    (if is_empty c then [] else map stripAndCollapse (states_for srv c)) /\
  offered (marketSel p) =
    (if is_empty c || is_empty s then []
     else map stripAndCollapse (markets_for srv c s)).

(** The events of the cascading controls. *)
Definition cascading (e : event) : bool :=
  match e with
  | PickCommodity _ | PickState _ | PickMarket _ | ClickClear => true
  | ClickPredict | Settle _ _ => false
  end.

Section Runs.

Context {browser : Browser}.

(** A run in which the call of each event is answered, by [srv], before
    the next event. *)
Definition in_turn (srv : request -> outcome) (w : world page) (es : list event)
    : world page :=
  fold_left (fun w e => resolve srv 0 (step w e)) es w.

(** The calls that the listeners of this page put in flight. *)
Inductive task : request * cont page -> Prop :=
| task_states c : task (states_request c, commodity_change_resume)
| task_markets c s : task (markets_request c s, state_change_resume)
| task_predict q : task (predict_request q, predict_resume q)
| task_history q resp : task (seriesEndpoint q, predict_resume_history q resp).

End Runs.

(** The calls of the predict listener among the calls in flight. *)
Definition prediction_call (t : request * cont page) : bool :=
  Js.eqb (rq_path (fst t)) (lit "/predict_by_context")
  || Js.eqb (rq_path (fst t)) (lit "/series_by_context").

Definition prediction_calls (w : world page) : nat :=
  length (filter prediction_call (inflight w)).

(** The history lookup fails: the call is rejected, the status is not a
    success, the body is not a JSON object, a series is missing, or there
    is no price in it. *)
Definition history_unavailable (o : outcome) : Prop :=
  match o with
  | Rejected => True
  | Responded r =>
      ok r = false \/
      match body_json r with
      | NotJson | JsonNull => True
      | JsonObj b => dates b = None \/ prices b = None \/ prices b = Some []
      end
  end.

(** The predict button is disabled exactly while a call of its listener
    is in flight, and every call in flight is one of the page's own. *)
Definition guarded {browser : Browser} (w : world page) : Prop :=
  Forall task (inflight w) /\
  prediction_calls w = (if predictBtn (pg w) then 1 else 0).

(** No call is in flight and the options on display are fresh. *)
Definition settled (srv : request -> outcome) (w : world page) : Prop :=
  inflight w = [] /\ fresh srv (pg w).

(** The result area of the page shows nothing: the result box is hidden
    and empty, the chips show dashes, and the chart, if there is one, has
    no label and no point. *)
Definition blank (p : page) : Prop :=
  resBox_hide p = true /\ resBox p = [] /\
  winPill p = [T (lit "win: " ++ emdash)] /\
  usedPill p = [T (lit "used: " ++ emdash)] /\
  padPill p = [T (lit "padded: " ++ emdash)] /\
  match chart p with
  | None => True
  | Some ch => ch = mkChart [] [] []
  end.

(** The prediction call ends without a prediction: the helper throws, or
    the body is null. *)
Definition prediction_error (o : outcome) : option exn :=
  match apiPost o with
  | Throw e => Some e
  | Ok JsonNull => Some (Host TypeError)
  | Ok _ => None
  end.

End SelectSpec.

(** ** What the specification speaks of, on the page of price_app.js *)

Module PriceSpec.
Import PriceApp.

(** The states that the server has for a commodity: what it lists in
    its answer, and none for a name that has no URL encoding. *)
Definition states_for (srv : request -> outcome) (c : jsstring) : list jsstring :=
  if isWellFormed c then listed states (srv (states_request c)) else [].

Definition markets_for (srv : request -> outcome) (c s : jsstring) : list jsstring :=
  if isWellFormed c && isWellFormed s
  then listed markets (srv (markets_request c s))
  else [].

(** The options on display correspond to the selection. *)
Definition fresh (srv : request -> outcome) (p : page) : Prop :=
  let c := value (pp_commodity p) in
  let s := value (pp_state p) in
  offered (pp_state p) = (if is_empty c then [] else states_for srv c) /\
  offered (pp_market p) =
    (if is_empty c || is_empty s then [] else markets_for srv c s).

(** The commodity select begins with its placeholder, as [initPage]
    leaves it. *)
Definition placeholder_first (sel : select) : Prop :=
  exists o rest, options sel = o :: rest /\ o_value o = [].

Definition cascading (e : event) : bool :=
  match e with
  | PickCommodity _ | PickState _ | PickMarket _ | ClickClear => true
  | ClickPredict | ClickPlot | Settle _ _ => false
  end.

Definition in_turn (srv : request -> outcome) (w : world page) (es : list event)
    : world page :=
  fold_left (fun w e => resolve srv 0 (step w e)) es w.

Definition settled (srv : request -> outcome) (w : world page) : Prop :=
  inflight w = [] /\ placeholder_first (pp_commodity (pg w)) /\ fresh srv (pg w).

(** The history lookup of this page fails: [fetchJSON] throws or gives
    null. *)
Definition history_fails (o : outcome) : Prop :=
  match bind_result (fetchJSON o) obj with
  | Ok _ => False
  | Throw _ => True
  end.

(** A stretch of code that leaves the predict button as it finds it. *)
Definition quiet {A : Type} (m : M A) : Prop :=
  forall p, pp_predictBtn (fst (m p)) = pp_predictBtn p.

(** The three selections of this page are made. *)
Definition selections_made (p : page) : bool :=
  negb (is_empty (value (pp_commodity p))) &&
  negb (is_empty (value (pp_state p))) &&
  negb (is_empty (value (pp_market p))).

(** Two pages with the same selects and the same date. *)
Definition same_context (p p' : page) : Prop :=
  pp_commodity p' = pp_commodity p /\ pp_state p' = pp_state p /\
  pp_market p' = pp_market p /\ pp_date p' = pp_date p.

(** A stretch of code that leaves the selects and the date as it finds
    them. *)
Definition keeps_context {A : Type} (m : M A) : Prop :=
  forall p, same_context p (fst (m p)).

End PriceSpec.

(** ** What the specification speaks of, on the page of crop_app.js *)

Module CropSpec.
Import CropApp.

(** The bounds of the seven inputs. *)
Definition bounds (f : field) : Q * Q :=
  match f with
  | id_N => (0, 200)
  | id_P => (0, 200)
  | id_K => (0, 300)
  | id_temperature => (-10, 60)
  | id_humidity => (0, 100)
  | id_ph => (0, 14)
  | id_rainfall => (0, 500)
  end%Q.

(** The number that an input holds, if it holds one. *)
Definition entered (Number : jsstring -> number) (p : page) (f : field) : option Q :=
  let raw := trim (i_value (inputs p f)) in
  if is_empty raw then None
  else match Number raw with
       | Finite v => Some v
       | NaN | Infinite _ => None
       end.

Definition within (f : field) (v : Q) : bool :=
  Qle_bool (fst (bounds f)) v && Qle_bool v (snd (bounds f)).

(** The number of an input when it is within its bounds. *)
Definition accepted (Number : jsstring -> number) (p : page) (f : field) : option Q :=
  match entered Number p f with
  | Some v => if within f v then Some v else None
  | None => None
  end.

(** The payload of a form all of whose inputs are accepted. *)
Definition form_payload (Number : jsstring -> number) (p : page) : option payload :=
  match accepted Number p id_N, accepted Number p id_P, accepted Number p id_K,
        accepted Number p id_temperature, accepted Number p id_humidity,
        accepted Number p id_ph, accepted Number p id_rainfall with
  | Some n, Some p', Some k, Some t, Some h, Some a, Some r =>
      Some (mkPayload n p' k t h a r)
  | _, _, _, _, _, _, _ => None
  end.

(** Two pages that differ at most in the error marks of their inputs. *)
Definition same_form (p p' : page) : Prop :=
  (forall f, i_value (inputs p' f) = i_value (inputs p f)) /\
  cr_recoBtn p' = cr_recoBtn p /\
  results p' = results p /\
  toasts p' = toasts p /\
  alerts p' = alerts p.

(** A stretch of code that leaves the recommend button as it finds it. *)
Definition quiet {A : Type} (m : M A) : Prop :=
  forall p, cr_recoBtn (fst (m p)) = cr_recoBtn p.

(** The number that a payload carries for an input. *)
Definition get (f : field) (x : payload) : Q :=
  match f with
  | id_N => N_ x
  | id_P => P_ x
  | id_K => K_ x
  | id_temperature => temperature x
  | id_humidity => humidity x
  | id_ph => ph x
  | id_rainfall => rainfall x
  end.

(** The inputs in the order in which [onRecommendClick] reads them. *)
Definition fields : list field :=
  [id_N; id_P; id_K; id_temperature; id_humidity; id_ph; id_rainfall].

Definition rank (f : field) : nat :=
  match f with
  | id_N => 0
  | id_P => 1
  | id_K => 2
  | id_temperature => 3
  | id_humidity => 4
  | id_ph => 5
  | id_rainfall => 6
  end.

(** The first input, in that order, that is not accepted. *)
Definition first_rejected (Number : jsstring -> number) (p : page) : option field :=
  find (fun f => match accepted Number p f with Some _ => false | None => true end)
       fields.

(** A reply that [renderResult] can show: the confidences and the growth
    score are numbers where they are present. *)
Definition numeric_or_absent (v : jsval) : bool :=
  match v with
  | Undefined | Null | Num _ => true
  | Bool _ | Str _ => false
  end.

Definition renderable (data : jsobj) : bool :=
  numeric_or_absent (confidence data) &&
  numeric_or_absent (growth_score data) &&
  forallb (fun a => numeric_or_absent (snd a)) (or_empty (alternatives data)).

(** The call of [onRecommendClick] ends without a reply to show. *)
Definition no_reply (o : outcome) : Prop :=
  match o with
  | Rejected => True
  | Responded r =>
      ok r = false \/ body_json r = NotJson \/ body_json r = JsonNull
  end.

(** The summary of the inputs that [renderResult] writes. *)
Definition summary (x : payload) : text :=
  [T (lit "N="); V (Num (N_ x)); T (lit ", P="); V (Num (P_ x));
   T (lit ", K="); V (Num (K_ x)); T (lit ", Temp=");
   V (Num (temperature x)); T (degree_sign ++ lit "C, Humidity=");
   V (Num (humidity x)); T (lit "%, pH="); V (Num (ph x));
   T (lit ", Rainfall="); V (Num (rainfall x)); T (lit "mm.")].

(** The mark that a click leaves on input [f]: the inputs before the
    first rejected one are cleared of their mark, that one is marked, and
    the later ones keep the mark they had. *)
Definition mark_after (Number : jsstring -> number) (p : page) (f : field) : bool :=
  match first_rejected Number p with
  | None => false
  | Some f0 =>
      if Nat.ltb (rank f) (rank f0) then false
      else if Nat.eqb (rank f) (rank f0) then true
      else i_error (inputs p f)
  end.

End CropSpec.

(** ** Concrete pages and servers *)

Module Demo.

(** A host for the examples.  Every name in them is plain text, so that
    its parser is never consulted. *)
Definition browser : Browser := {| parseOptions := fun _ => [] |}.

Definition Rice : jsstring := lit "Rice".
Definition Wheat : jsstring := lit "Wheat".
Definition Punjab : jsstring := lit "Punjab".
Definition Bihar : jsstring := lit "Bihar".
Definition Ludhiana : jsstring := lit "Ludhiana".
Definition Patna : jsstring := lit "Patna".

Definition ok_json (b : jsobj) : outcome :=
  Responded (mkResponse true 200 (lit "OK") [] (JsonObj b)).

Definition not_found : outcome :=
  Responded (mkResponse false 404 (lit "Not Found") [] NotJson).

Definition with_states (l : list jsstring) : jsobj :=
  mkObj (Some l) None None None Undefined Undefined Undefined Undefined Undefined
        Undefined Undefined Undefined Undefined Undefined None.

Definition with_markets (l : list jsstring) : jsobj :=
  mkObj None (Some l) None None Undefined Undefined Undefined Undefined Undefined
        Undefined Undefined Undefined Undefined Undefined None.

Definition with_series (d : list jsstring) (x : list jsval) : jsobj :=
  mkObj None None (Some d) (Some x) Undefined Undefined Undefined Undefined
        Undefined Undefined Undefined Undefined Undefined Undefined None.

(** A prediction of 13 from a window of 7 of which [used] points were
    there. *)
Definition prediction (used : Z) : jsobj :=
  mkObj None None None None (Num 13) (Num 7) (Num (inject_Z used))
        (Bool (Z.eqb used 0)) Undefined
        Undefined Undefined Undefined Undefined Undefined None.

Definition param (k : string) (rq : request) : jsstring :=
  match find (fun kv => Js.eqb (fst kv) (lit k)) (rq_params rq) with
  | Some kv => snd kv
  | None => []
  end.

(** A server that knows Punjab for Rice and Bihar for Wheat, one market
    in each, and nothing else. *)
Definition srv (rq : request) : outcome :=
  if Js.eqb (rq_path rq) (lit "/states")
  then if Js.eqb (param "commodity" rq) Rice then ok_json (with_states [Punjab])
       else if Js.eqb (param "commodity" rq) Wheat then ok_json (with_states [Bihar])
       else ok_json (with_states [])
  else if Js.eqb (rq_path rq) (lit "/markets")
  then if Js.eqb (param "state" rq) Punjab then ok_json (with_markets [Ludhiana])
       else if Js.eqb (param "state" rq) Bihar then ok_json (with_markets [Patna])
       else ok_json (with_markets [])
  else not_found.

(** The select-based page as [init] leaves it when the server lists Rice
    and Wheat. *)
Definition commodities : select :=
  mkSelect false
    [placeholder (lit "Select a commodity" ++ ellipsis);
     text_option Rice; text_option Wheat]
    (Some 0).

Definition select_page : SelectPage.page :=
  SelectPage.mkPage commodities
    (mkSelect true [placeholder SelectPage.select_commodity_first] (Some 0))
    (mkSelect true [placeholder SelectPage.select_state_first] (Some 0))
    (lit "2024-01-04") false true [] [] [] [] [] []
    (Some (SelectPage.mkChart [] [] [])) (lit "2024-01-04").

Definition select_world : world SelectPage.page := mkWorld select_page [].

(** The same page once Rice, Punjab and Ludhiana are chosen, with a given
    text in the date input. *)
Definition chosen (date : jsstring) : SelectPage.page :=
  SelectPage.mkPage
    (mkSelect false (options commodities) (Some 1))
    (mkSelect false [placeholder SelectPage.select_a_state; text_option Punjab]
              (Some 1))
    (mkSelect false [placeholder SelectPage.select_a_market; text_option Ludhiana]
              (Some 1))
    date false true [] [] [] [] [] []
    (Some (SelectPage.mkChart [] [] [])) (lit "2024-01-04").

Definition chosen_query (date : option jsstring) : SelectPage.query :=
  SelectPage.mkQuery Rice Punjab Ludhiana date.

Definition day1 : jsstring := lit "2024-01-01".
Definition day2 : jsstring := lit "2024-01-02".
Definition day3 : jsstring := lit "2024-01-03".
Definition day4 : jsstring := lit "2024-01-04".

(** Three days of history. *)
Definition history3 : outcome :=
  ok_json (with_series [day1; day2; day3] [Num 10; Num 11; Num 12]).

(** Rice is chosen and then Wheat while the states of Rice are still on
    their way. *)
Definition two_picks : world SelectPage.page :=
  SelectPage.run (browser := browser) select_world
    [SelectPage.PickCommodity 1; SelectPage.PickCommodity 2].

(** The answer for Wheat arrives first and the answer for Rice after it. *)
Definition late_rice : world SelectPage.page :=
  SelectPage.run (browser := browser) two_picks
    [SelectPage.Settle 1 (srv (SelectPage.states_request Wheat));
     SelectPage.Settle 0 (srv (SelectPage.states_request Rice))].

(** The page of price_app.js as [initPage] leaves it when the server
    lists Rice and Wheat. *)
Definition price_commodities : select :=
  mkSelect false
    [placeholder (lit "Select commodity" ++ ellipsis); item Rice; item Wheat]
    (Some 0).

Definition price_page : PriceApp.page :=
  PriceApp.mkPage price_commodities
    (mkSelect true [placeholder PriceApp.select_commodity_first] (Some 0))
    (mkSelect true [placeholder PriceApp.select_state_first] (Some 0))
    [] (false, false, false) ([], [], []) [] [] [] None false.

Definition price_world : world PriceApp.page := mkWorld price_page [].

(** The same page once Rice, Punjab and Ludhiana are chosen; no chart has
    been drawn yet. *)
Definition price_chosen : PriceApp.page :=
  PriceApp.mkPage
    (mkSelect false (options price_commodities) (Some 1))
    (mkSelect false [placeholder PriceApp.select_state; item Punjab] (Some 1))
    (mkSelect false [placeholder PriceApp.select_market; item Ludhiana] (Some 1))
    [] (false, false, false) ([], [], []) [] [] [] None false.

(** A click on predict whose history call fails and whose prediction
    call succeeds with no point used. *)
Definition price_predicted : world PriceApp.page :=
  PriceApp.run (mkWorld price_chosen [])
    [PriceApp.ClickPredict;
     PriceApp.Settle 0 not_found;
     PriceApp.Settle 0 (ok_json (prediction 0))].

(** A conversion that agrees with [Number] on strings of decimal digits
    and gives NaN on every other string; it serves the examples only. *)
Fixpoint digits_value (s : jsstring) (acc : Z) : option Z :=
  match s with
  | [] => Some acc
  | c :: r =>
      if isDigit c
      then digits_value r (10 * acc + Z.of_N (c - 48))%Z
      else None
  end.

Definition decimal (s : jsstring) : CropApp.number :=
  match digits_value s 0 with
  | Some z => CropApp.Finite (inject_Z z)
  | None => CropApp.NaN
  end.

(** A form with [n] typed for N and usual values elsewhere. *)
Definition soil_form (n : jsstring) : CropApp.page :=
  CropApp.mkPage
    (fun f => match f with
              | CropApp.id_N => CropApp.mkInput n false
              | CropApp.id_P => CropApp.mkInput (lit "40") false
              | CropApp.id_K => CropApp.mkInput (lit "40") false
              | CropApp.id_temperature => CropApp.mkInput (lit "25") false
              | CropApp.id_humidity => CropApp.mkInput (lit "80") false
              | CropApp.id_ph => CropApp.mkInput (lit "7") false
              | CropApp.id_rainfall => CropApp.mkInput (lit "200") false
              end)
    false
    (CropApp.mkPanel [] true [] [] [] [] [] true [])
    [] [].

Definition soil_payload : CropApp.payload :=
  CropApp.mkPayload 150 40 40 25 80 7 200.

(** The chosen page on which [setupChart] has not run. *)
Definition chartless : SelectPage.page :=
  SelectPage.with_chart None (chosen day4).

(** A history answer with two dates and no price. *)
Definition dates_only : outcome :=
  ok_json (mkObj None None (Some [day1; day2]) None Undefined Undefined Undefined
                 Undefined Undefined Undefined Undefined Undefined Undefined
                 Undefined None).

(** The page of price_app.js with a chart of three days. *)
Definition price_charted : PriceApp.page :=
  PriceApp.with_priceChart
    (Some (PriceApp.mkChart [day1; day2; day3] [Num 10; Num 11; Num 12] None))
    price_chosen.

(** A form with a stale mark on its last input and nothing typed for K. *)
Definition stale_form : CropApp.page :=
  CropApp.mkPage
    (fun f => match f with
              | CropApp.id_N => CropApp.mkInput (lit "150") true
              | CropApp.id_P => CropApp.mkInput (lit "40") false
              | CropApp.id_K => CropApp.mkInput [] false
              | CropApp.id_temperature => CropApp.mkInput (lit "25") false
              | CropApp.id_humidity => CropApp.mkInput (lit "80") false
              | CropApp.id_ph => CropApp.mkInput (lit "7") false
              | CropApp.id_rainfall => CropApp.mkInput (lit "900") true
              end)
    false
    (CropApp.mkPanel [] true [] [] [] [] [] true [])
    [] [].

(** A reply that names rice with a confidence of 92. *)
Definition rice_reply : jsobj :=
  mkObj None None None None Undefined Undefined Undefined Undefined Undefined
        (Str (lit "rice")) (Num 92) Undefined Undefined Undefined None.

(** The same reply with the confidence sent as text. *)
Definition text_reply : jsobj :=
  mkObj None None None None Undefined Undefined Undefined Undefined Undefined
        (Str (lit "rice")) (Str (lit "92")) Undefined Undefined Undefined None.

End Demo.

(** * Properties *)

(** ** Strings *)

Module JsFacts.

Lemma eqb_eq (s t : jsstring) : Js.eqb s t = true <-> s = t.
Proof.
  revert t; induction s as [|a s IH]; intros [|b t]; simpl; split;
    try congruence; try reflexivity.
  - intros H. apply andb_true_iff in H as [Hab Hst].
    apply N.eqb_eq in Hab. apply IH in Hst. congruence.
  - intros H. injection H as -> ->.
    apply andb_true_iff; split; [apply N.eqb_refl | now apply IH].
Qed.

Lemma eqb_refl (s : jsstring) : Js.eqb s s = true.
Proof. now apply eqb_eq. Qed.

Lemma is_empty_true (s : jsstring) : is_empty s = true <-> s = [].
Proof. destruct s; simpl; split; congruence. Qed.

Lemma is_empty_false (s : jsstring) : is_empty s = false <-> s <> [].
Proof. destruct s; simpl; split; congruence. Qed.

Lemma trimStart_head (s : jsstring) (c : N) (r : jsstring) :
  trimStart s = c :: r -> isWhiteSpace c = false.
Proof.
  induction s as [|a s IH]; simpl; [discriminate|].
  destruct (isWhiteSpace a) eqn:Ha; [exact IH|].
  intros H; injection H as -> _; exact Ha.
Qed.

Lemma trimStart_fixed (c : N) (r : jsstring) :
  isWhiteSpace c = false -> trimStart (c :: r) = c :: r.
Proof. intros H; simpl; now rewrite H. Qed.

Lemma trimStart_snoc (l : jsstring) (c : N) :
  isWhiteSpace c = false -> trimStart (l ++ [c]) = trimStart l ++ [c].
Proof.
  intros Hc; induction l as [|a l IH]; simpl.
  - now rewrite Hc.
  - destruct (isWhiteSpace a); [exact IH | reflexivity].
Qed.

Lemma trimEnd_cons (c : N) (r : jsstring) :
  isWhiteSpace c = false -> trimEnd (c :: r) = c :: trimEnd r.
Proof.
  intros Hc; unfold trimEnd; simpl.
  rewrite (trimStart_snoc _ _ Hc), rev_app_distr; reflexivity.
Qed.

Lemma trimStart_idempotent (s : jsstring) : trimStart (trimStart s) = trimStart s.
Proof.
  destruct (trimStart s) as [|c r] eqn:E; [reflexivity|].
  apply trimStart_fixed, (trimStart_head s c r E).
Qed.

Lemma trimEnd_idempotent (s : jsstring) : trimEnd (trimEnd s) = trimEnd s.
Proof.
  unfold trimEnd. now rewrite rev_involutive, trimStart_idempotent.
Qed.

(** What is left of a string once trimmed: nothing, or a first character
    that is no white space followed by a right-trimmed rest. *)
Lemma trim_cases (s : jsstring) :
  trim s = [] \/
  exists c r, isWhiteSpace c = false /\ trim s = c :: trimEnd r.
Proof.
  unfold trim. destruct (trimStart s) as [|c r] eqn:E.
  - left; reflexivity.
  - right; exists c, r. pose proof (trimStart_head s c r E) as Hc.
    split; [exact Hc | now apply trimEnd_cons].
Qed.

Lemma trim_idempotent (s : jsstring) : trim (trim s) = trim s.
Proof.
  destruct (trim_cases s) as [E | (c & r & Hc & E)]; rewrite E.
  - reflexivity.
  - unfold trim. rewrite (trimStart_fixed c _ Hc), (trimEnd_cons c _ Hc).
    now rewrite trimEnd_idempotent.
Qed.

Lemma trimEnd_last (s r : jsstring) (c : N) :
  trimEnd s = r ++ [c] -> isWhiteSpace c = false.
Proof.
  unfold trimEnd; intros H.
  apply (f_equal (@rev N)) in H.
  rewrite rev_involutive, rev_app_distr in H; simpl in H.
  exact (trimStart_head _ _ _ H).
Qed.

End JsFacts.

(** ** Calls in flight *)

Module AsyncFacts.

Lemma remove_nth_Forall {A : Type} (P : A -> Prop) (n : nat) (l : list A) :
  Forall P l -> Forall P (remove_nth n l).
Proof.
  intros H; revert n; induction H as [|a l Ha Hl IH]; intros [|n]; simpl;
    auto using Forall.
Qed.

Lemma nth_error_Forall {A : Type} (P : A -> Prop) (n : nat) (l : list A) (x : A) :
  Forall P l -> nth_error l n = Some x -> P x.
Proof.
  intros H E. rewrite Forall_forall in H. eapply H, nth_error_In, E.
Qed.

Lemma filter_remove_nth {A : Type} (f : A -> bool) (n : nat) (l : list A) (x : A) :
  nth_error l n = Some x ->
  length (filter f l) =
    length (filter f (remove_nth n l)) + (if f x then 1 else 0).
Proof.
  revert n; induction l as [|a l IH]; intros [|n]; simpl; try discriminate.
  - intros E; injection E as ->. destruct (f x); simpl; lia.
  - intros E. specialize (IH n E). destruct (f a); simpl; lia.
Qed.

Lemma filter_snoc_length {A : Type} (f : A -> bool) (l : list A) (x : A) :
  length (filter f (l ++ [x])) = length (filter f l) + (if f x then 1 else 0).
Proof.
  rewrite filter_app, length_app. simpl. destruct (f x); reflexivity.
Qed.

(** A property that the first world has and every step keeps holds at the
    end of every run. *)
Lemma fold_left_invariant {W E : Type} (step : W -> E -> W) (Inv : W -> Prop) :
  (forall w e, Inv w -> Inv (step w e)) ->
  forall es w, Inv w -> Inv (fold_left step es w).
Proof.
  intros Hstep es; induction es as [|e es IH]; simpl; intros w Hw;
    [exact Hw | apply IH, Hstep, Hw].
Qed.

(** The same for the steps allowed by a test on the events. *)
Lemma fold_left_invariant_on {W E : Type} (step : W -> E -> W) (Inv : W -> Prop)
    (allowed : E -> bool) :
  (forall w e, allowed e = true -> Inv w -> Inv (step w e)) ->
  forall es w, forallb allowed es = true -> Inv w -> Inv (fold_left step es w).
Proof.
  intros Hstep es; induction es as [|e es IH]; simpl; intros w Hes Hw;
    [exact Hw|].
  apply andb_true_iff in Hes as [He Hes]. apply IH; [exact Hes|].
  apply Hstep; assumption.
Qed.

Lemma resolve_idle {page : Type} (srv : request -> outcome) (p : page) :
  resolve srv 0 (mkWorld p []) = mkWorld p [].
Proof. reflexivity. Qed.

Lemma resolve_single {page : Type} (srv : request -> outcome) (p : page)
    (rq : request) (k : outcome -> page -> page * proc page) :
  resolve srv 0 (mkWorld p [(rq, k)]) = spawn (k (srv rq) p) [].
Proof. reflexivity. Qed.

(** A choice of the user leaves the options of the select as they are. *)
Lemma pick_options (i : nat) (sel sel' : select) :
  pick i sel = Some sel' -> options sel' = options sel.
Proof.
  unfold pick. destruct (disabled sel); [discriminate|].
  destruct (Nat.ltb i (length (options sel))); [|discriminate].
  intros H; injection H as <-. reflexivity.
Qed.

End AsyncFacts.

(** ** The select-based page *)

Module SelectFacts.
Import SelectPage SelectSpec JsFacts AsyncFacts.

Lemma trim_Trimmed (s : jsstring) : Trimmed (trim s).
Proof.
  split.
  - intros c r E. destruct (trim_cases s) as [E0 | (c0 & r0 & Hc & E0)];
      rewrite E0 in E; [discriminate|].
    now injection E as -> _.
  - intros c r E. unfold trim in E. exact (trimEnd_last _ _ _ E).
Qed.

Lemma Forall_isDigit (l : jsstring) :
  Forall (fun c => isDigit c = true) l <-> forallb isDigit l = true.
Proof. rewrite forallb_forall, Forall_forall; reflexivity. Qed.

(** The regular expression of [validate] accepts exactly the dates of the
    specification's pattern. *)
Lemma date_re_spec (d : jsstring) : test date_re d = true <-> DatePattern d.
Proof.
  split.
  - intros H.
    destruct d as [|y1 [|y2 [|y3 [|y4 [|h1 [|m1 [|m2 [|h2 [|d1 [|d2 [|x d]]]]]]]]]]];
      simpl in H; try discriminate;
      try (repeat (apply andb_true_iff in H as [? H]); discriminate).
    repeat (apply andb_true_iff in H as [? H]).
    repeat match goal with E : N.eqb _ _ = true |- _ => apply N.eqb_eq in E; subst end.
    exists [y1; y2; y3; y4], [m1; m2], [d1; d2].
    unfold digits, hyphen; simpl; repeat split; try reflexivity;
      repeat constructor; assumption.
  - intros (y & m & dd & -> & [Ly Hy] & [Lm Hm] & [Ld Hd]).
    destruct y as [|y1 [|y2 [|y3 [|y4 [|? ?]]]]]; try discriminate.
    destruct m as [|m1 [|m2 [|? ?]]]; try discriminate.
    destruct dd as [|d1 [|d2 [|? ?]]]; try discriminate.
    apply Forall_isDigit in Hy, Hm, Hd. simpl in Hy, Hm, Hd.
    repeat match goal with H : _ && _ = true |- _ => apply andb_true_iff in H as [? H] end.
    simpl. unfold hyphen.
    repeat match goal with H : isDigit _ = true |- _ => rewrite H; clear H end.
    reflexivity.
Qed.

Lemma given_trim_nonempty (s : jsstring) : given s = true <-> trim s <> [].
Proof.
  unfold given. rewrite negb_true_iff. apply is_empty_false.
Qed.

(** [validate], case by case. *)
Lemma validate_cases (p : page) :
  validate p =
    if negb (met p NeedCommodity) then (toast (report NeedCommodity) true p, None)
    else if negb (met p NeedState) then (toast (report NeedState) true p, None)
    else if negb (met p NeedMarket) then (toast (report NeedMarket) true p, None)
    else if negb (met p NeedDate) then (toast (report NeedDate) true p, None)
    else (p, Some (normalized p)).
Proof.
  unfold validate, met, normalized, given, report.
  destruct (is_empty (trim (value (commodity p)))); simpl; [reflexivity|].
  destruct (is_empty (trim (value (stateSel p)))); simpl; [reflexivity|].
  destruct (is_empty (trim (value (marketSel p)))); simpl; [reflexivity|].
  destruct (is_empty (trim (dateInp p))); simpl; [reflexivity|].
  destruct (test date_re (trim (dateInp p))); reflexivity.
Qed.

(** *** The requirements in the words of the specification *)

Lemma trimStart_split (s : jsstring) :
  exists l, s = l ++ trimStart s /\ Blank l.
Proof.
  induction s as [|c s (l & E & B)]; simpl.
  - exists []. split; [reflexivity | constructor].
  - destruct (isWhiteSpace c) eqn:Hc.
    + exists (c :: l). split; [simpl; now f_equal | now constructor].
    + exists []. split; [reflexivity | constructor].
Qed.

Lemma trimEnd_split (s : jsstring) :
  exists r, s = trimEnd s ++ r /\ Blank r.
Proof.
  destruct (trimStart_split (rev s)) as (l & E & B).
  exists (rev l). split; [|now apply Forall_rev].
  unfold trimEnd. rewrite <- rev_app_distr, <- E.
  symmetry; apply rev_involutive.
Qed.

(** What [trim] leaves is the string without the white space at its two
    ends. *)
Lemma trim_Core (s : jsstring) : Core s (trim s).
Proof.
  destruct (trimStart_split s) as (l & El & Bl).
  destruct (trimEnd_split (trimStart s)) as (r & Er & Br).
  exists l, r. split; [|split; [exact Bl | split; [exact Br | apply trim_Trimmed]]].
  unfold trim. rewrite <- Er. exact El.
Qed.

Lemma trimStart_Blank_app (l x : jsstring) :
  Blank l -> trimStart (l ++ x) = trimStart x.
Proof.
  intros B; induction B as [|c l Hc _ IH]; simpl; [reflexivity | now rewrite Hc].
Qed.

Lemma trimStart_Blank (l : jsstring) : Blank l -> trimStart l = [].
Proof.
  intros B. rewrite <- (app_nil_r l). now rewrite trimStart_Blank_app.
Qed.

Lemma trimEnd_app_Blank (t r : jsstring) :
  Blank r -> trimEnd (t ++ r) = trimEnd t.
Proof.
  intros B. unfold trimEnd.
  rewrite rev_app_distr, trimStart_Blank_app; [reflexivity | now apply Forall_rev].
Qed.

Lemma trimEnd_Trimmed (t : jsstring) : Trimmed t -> trimEnd t = t.
Proof.
  intros [_ H]. unfold trimEnd.
  destruct (rev t) as [|c r] eqn:E.
  - apply (f_equal (@rev N)) in E. rewrite rev_involutive in E. now subst.
  - assert (Et : t = rev r ++ [c])
      by (rewrite <- (rev_involutive t), E; reflexivity).
    rewrite (trimStart_fixed c r (H c (rev r) Et)). now rewrite Et.
Qed.

(** And nothing else is. *)
Lemma Core_trim (s t : jsstring) : Core s t -> t = trim s.
Proof.
  intros (l & r & -> & Bl & Br & Ht). unfold trim.
  rewrite (trimStart_Blank_app l _ Bl).
  destruct t as [|c t'].
  - simpl. now rewrite (trimStart_Blank r Br).
  - assert (Hc : isWhiteSpace c = false) by apply (proj1 Ht c t' eq_refl).
    change ((c :: t') ++ r) with (c :: (t' ++ r)).
    rewrite (trimStart_fixed c _ Hc).
    change (c :: t' ++ r) with ((c :: t') ++ r).
    rewrite (trimEnd_app_Blank _ _ Br). symmetry. now apply trimEnd_Trimmed.
Qed.

Lemma Blank_trim (s : jsstring) : Blank s <-> trim s = [].
Proof.
  split.
  - intros B. unfold trim. now rewrite (trimStart_Blank s B).
  - intros E. destruct (trim_Core s) as (l & r & Es & Bl & Br & _).
    rewrite E in Es. simpl in Es. rewrite Es. apply Forall_app; now split.
Qed.

Lemma given_not_Blank (s : jsstring) : given s = true <-> ~ Blank s.
Proof.
  unfold given. rewrite negb_true_iff, is_empty_false, Blank_trim. reflexivity.
Qed.

Lemma not_given_Blank (s : jsstring) : given s = false <-> Blank s.
Proof.
  unfold given. rewrite negb_false_iff, is_empty_true, Blank_trim. reflexivity.
Qed.

(** The tests of [validate] decide the requirements. *)
Lemma met_Met (p : page) (r : requirement) : met p r = true <-> Met p r.
Proof.
  destruct r; cbn [met Met]; try apply given_not_Blank.
  rewrite orb_true_iff, negb_true_iff, not_given_Blank.
  split; (intros [H | H]; [now left | right]).
  - exists (trim (dateInp p)). split; [apply trim_Core | now apply date_re_spec].
  - destruct H as (d & Hc & Hd). apply date_re_spec.
    now rewrite <- (Core_trim _ _ Hc).
Qed.

Lemma unmet_not_Met (p : page) (r : requirement) : met p r = false <-> ~ Met p r.
Proof.
  rewrite <- met_Met. destruct (met p r); split; congruence.
Qed.

Lemma normalized_Normalized (p : page) : Normalized p (normalized p).
Proof.
  unfold Normalized, normalized; cbn [q_commodity q_state q_market q_date].
  repeat split; try apply trim_Core.
  destruct (given (dateInp p)) eqn:E.
  - split; [apply trim_Core | now apply given_trim_nonempty].
  - now apply not_given_Blank.
Qed.

(** C2.  For every page, [validate] either returns a query and raises
    nothing, and then every requirement is met and the query is the
    complete normalized one, or returns null and raises exactly one
    toast, which names the first requirement not met in the order
    commodity, state, market, date pattern.  The requirements are those
    of the specification: a selection is more than white space, and the
    date is white space only or, the white space at its ends apart,
    four digits, hyphen, two digits, hyphen, two digits.  When the date
    input is empty or white space only, the date requirement is met, the
    query has no date, and neither the prediction request nor the history
    request carries one. *)
Theorem validate_complete_or_first_unmet (p : page) :
  (((forall r, Met p r) /\
    exists q, validate p = (p, Some q) /\ Normalized p q) \/
   (exists r,
      FirstUnmet p r /\
      validate p = (toast (report r) true p, None) /\
      toaster (fst (validate p)) = toaster p ++ [(report r, true)])) /\
  (Blank (dateInp p) ->
   Met p NeedDate /\
   forall q,
     snd (validate p) = Some q ->
     q_date q = None /\
     rq_body (predict_request q) =
       ContextBody (q_commodity q) (q_state q) (q_market q) None /\
     rq_params (seriesEndpoint q) =
       [(lit "commodity", q_commodity q); (lit "state", q_state q);
        (lit "market", q_market q)]).
Proof.
  split.
  - rewrite validate_cases.
    destruct (met p NeedCommodity) eqn:Hc; cbn [negb];
      [|right; exists NeedCommodity; split; [split|split; reflexivity];
        [now apply unmet_not_Met | intros r' Hr; destruct r'; simpl in Hr; lia]].
    destruct (met p NeedState) eqn:Hs; cbn [negb];
      [|right; exists NeedState; split; [split|split; reflexivity];
        [now apply unmet_not_Met
        | intros r' Hr; apply met_Met; destruct r'; simpl in Hr; try lia; assumption]].
    destruct (met p NeedMarket) eqn:Hm; cbn [negb];
      [|right; exists NeedMarket; split; [split|split; reflexivity];
        [now apply unmet_not_Met
        | intros r' Hr; apply met_Met; destruct r'; simpl in Hr; try lia; assumption]].
    destruct (met p NeedDate) eqn:Hd; cbn [negb];
      [|right; exists NeedDate; split; [split|split; reflexivity];
        [now apply unmet_not_Met
        | intros r' Hr; apply met_Met; destruct r'; simpl in Hr; try lia; assumption]].
    left. split.
    + intros r. apply met_Met. destruct r; assumption.
    + exists (normalized p). split; [reflexivity | apply normalized_Normalized].
  - intros B. split; [now left|].
    intros q Hq. rewrite validate_cases in Hq.
    destruct (met p NeedCommodity), (met p NeedState), (met p NeedMarket),
             (met p NeedDate); cbn [negb snd] in Hq; try discriminate.
    injection Hq as <-.
    apply not_given_Blank in B.
    unfold predict_request, seriesEndpoint, normalized; simpl.
    rewrite B. repeat split; reflexivity.
Qed.

Lemma validate_complete_or_first_unmet_witness :
  Blank (dateInp (Demo.chosen [])) /\
  validate (Demo.chosen []) = (Demo.chosen [], Some (Demo.chosen_query None)) /\
  rq_body (predict_request (Demo.chosen_query None)) =
    ContextBody Demo.Rice Demo.Punjab Demo.Ludhiana None.
Proof.
  pose proof (validate_complete_or_first_unmet (Demo.chosen [])) as [_ H].
  assert (B : Blank (dateInp (Demo.chosen []))) by constructor.
  split; [exact B|]. split; [reflexivity|].
  exact (proj1 (proj2 (proj2 (H B) (Demo.chosen_query None) eq_refl))).
Defined.

(** C10.  [validate] is a total function: on every page it returns null,
    or a query whose commodity, state and market are non-empty and carry
    no white space at either end, and whose date is absent or matches
    four digits, hyphen, two digits, hyphen, two digits. *)
Theorem validate_returns_null_or_wellformed (p : page) :
  exists p' r,
    validate p = (p', r) /\
    match r with
    | None => True
    | Some q => wellformed q
    end.
Proof.
  rewrite validate_cases.
  destruct (met p NeedCommodity) eqn:Hc, (met p NeedState) eqn:Hs,
           (met p NeedMarket) eqn:Hm, (met p NeedDate) eqn:Hd; cbn [negb];
    eexists _, _; (split; [reflexivity|]); try exact I.
  unfold met in Hc, Hs, Hm, Hd.
  unfold wellformed, normalized; simpl.
  repeat split; try apply trim_Trimmed; try (now apply given_trim_nonempty).
  destruct (given (dateInp p)); simpl in Hd; [|exact I].
  now apply date_re_spec.
Qed.

Lemma validate_with_date (p : page) :
  selections_present p -> given (dateInp p) = true ->
  validate p =
    if test date_re (trim (dateInp p)) then (p, Some (normalized p))
    else (toast (report NeedDate) true p, None).
Proof.
  intros (Hc & Hs & Hm) Hd. rewrite validate_cases, Hc, Hs, Hm.
  unfold met at 1. rewrite Hd. cbn [negb orb].
  destruct (test date_re (trim (dateInp p))); reflexivity.
Qed.

(** C3 as stated fails on the code: a date input with a leading blank is
    not empty and does not match the pattern, and yet [validate] accepts
    it, because it checks the trimmed input. *)
Lemma padded_date_passes_validation :
  selections_present (Demo.chosen (lit " 2024-01-05")) /\
  dateInp (Demo.chosen (lit " 2024-01-05")) <> [] /\
  ~ DatePattern (dateInp (Demo.chosen (lit " 2024-01-05"))) /\
  validate (Demo.chosen (lit " 2024-01-05")) =
    (Demo.chosen (lit " 2024-01-05"),
     Some (Demo.chosen_query (Some (lit "2024-01-05")))).
Proof.
  split; [repeat split|]. split; [discriminate|]. split; [|reflexivity].
  intros H. apply date_re_spec in H. discriminate H.
Qed.

(** C3, amended.  When the three selections are given and something is
    left of the date input once trimmed, validation succeeds if and only
    if the trimmed input matches four digits, hyphen, two digits, hyphen,
    two digits; no calendar check is made.  A matching date goes into the
    body of the prediction request as it is, and a date that does not
    match raises the toast and ends the click without a request.
    "2024-13-40" matches and "2024-1-5" does not. *)
Theorem date_check_is_pattern_on_trimmed_input (p : page) :
  selections_present p -> given (dateInp p) = true ->
  ((exists q, snd (validate p) = Some q) <-> DatePattern (trim (dateInp p))) /\
  (DatePattern (trim (dateInp p)) ->
   q_date (normalized p) = Some (trim (dateInp p)) /\
   exists p',
     predictBtn_click p =
       (p', Await (predict_request (normalized p)) (predict_resume (normalized p))) /\
     rq_body (predict_request (normalized p)) =
       ContextBody (trim (value (commodity p))) (trim (value (stateSel p)))
                   (trim (value (marketSel p))) (Some (trim (dateInp p)))) /\
  (~ DatePattern (trim (dateInp p)) ->
   predictBtn_click p = (toast (report NeedDate) true p, Fin)) /\
  (DatePattern (lit "2024-13-40") /\ ~ DatePattern (lit "2024-1-5")).
Proof.
  intros Hsel Hd.
  pose proof (validate_with_date p Hsel Hd) as Hv.
  pose proof (date_re_spec (trim (dateInp p))) as Hre.
  repeat split.
  - intros [q Hq]. apply Hre. rewrite Hv in Hq.
    destruct (test date_re (trim (dateInp p))); [reflexivity | discriminate].
  - intros Hp. apply Hre in Hp. rewrite Hv, Hp. eexists; reflexivity.
  - unfold normalized; simpl. now rewrite Hd.
  - apply Hre in H. unfold predictBtn_click. rewrite Hv, H.
    eexists; split; [reflexivity|].
    unfold predict_request, normalized; simpl. now rewrite Hd.
  - intros Hn. unfold predictBtn_click. rewrite Hv.
    destruct (test date_re (trim (dateInp p))) eqn:E; [|reflexivity].
    exfalso. apply Hn, Hre. reflexivity.
  - apply date_re_spec. reflexivity.
  - intros H. apply date_re_spec in H. discriminate H.
Qed.

Lemma date_check_is_pattern_on_trimmed_input_witness :
  (exists p',
     predictBtn_click (Demo.chosen (lit "2024-13-40")) =
       (p', Await (predict_request (Demo.chosen_query (Some (lit "2024-13-40"))))
                  (predict_resume (Demo.chosen_query (Some (lit "2024-13-40")))))) /\
  predictBtn_click (Demo.chosen (lit "2024-1-5")) =
    (toast (report NeedDate) true (Demo.chosen (lit "2024-1-5")), Fin).
Proof.
  split.
  - assert (Hsel : selections_present (Demo.chosen (lit "2024-13-40")))
      by (repeat split).
    destruct (date_check_is_pattern_on_trimmed_input
                (Demo.chosen (lit "2024-13-40")) Hsel eq_refl)
      as (_ & Hyes & _ & Hpat & _).
    destruct (Hyes Hpat) as (_ & p' & Hclick & _).
    exists p'. exact Hclick.
  - assert (Hsel : selections_present (Demo.chosen (lit "2024-1-5")))
      by (repeat split).
    destruct (date_check_is_pattern_on_trimmed_input
                (Demo.chosen (lit "2024-1-5")) Hsel eq_refl)
      as (_ & _ & Hno & _ & Hnot).
    exact (Hno Hnot).
Defined.

(** *** Clearing the commodity *)

Lemma index_of_value (v : jsstring) (opts : list option_el) (i : nat) :
  index_of v opts = Some i ->
  exists o, nth_error opts i = Some o /\ o_value o = v.
Proof.
  revert i; induction opts as [|o r IH]; simpl; [discriminate|].
  intros i. destruct (Js.eqb (o_value o) v) eqn:E.
  - intros H; injection H as <-. exists o; split; [reflexivity | now apply eqb_eq].
  - destruct (index_of v r) as [j|]; simpl; [|discriminate].
    intros H; injection H as <-. exact (IH j eq_refl).
Qed.

Lemma value_set_value (v : jsstring) (sel : select) :
  value (set_value v sel) = v \/ value (set_value v sel) = [].
Proof.
  unfold value, set_value; simpl.
  destruct (index_of v (options sel)) as [i|] eqn:E; [|now right].
  destruct (index_of_value _ _ _ E) as (o & -> & Ho). now left.
Qed.

Lemma cleared_setDisabled (label : jsstring) (sel : select) :
  cleared (setDisabled true (Some label) sel).
Proof. split; reflexivity. Qed.

Lemma commodity_change_cleared {browser : Browser} (p : page) :
  is_empty (trim (value (commodity p))) = true ->
  snd (commodity_change p) = Fin /\
  cleared (stateSel (fst (commodity_change p))) /\
  cleared (marketSel (fst (commodity_change p))).
Proof.
  intros H. unfold commodity_change. cbn [commodity with_marketSel].
  rewrite H. repeat split.
Qed.

Lemma clearBtn_click_cleared (p : page) :
  snd (clearBtn_click p) = Fin /\
  value (commodity (fst (clearBtn_click p))) = [] /\
  cleared (stateSel (fst (clearBtn_click p))) /\
  cleared (marketSel (fst (clearBtn_click p))).
Proof.
  unfold clearBtn_click, resetChart. cbn.
  destruct (chart p); cbn; repeat split;
    destruct (value_set_value [] (commodity p)) as [E | E]; exact E.
Qed.

(** *** An empty list of states *)

(** C7 as stated fails on the select-based page: when the call for the
    states succeeds with zero results, the state select is disabled under
    its ordinary placeholder and no toast is raised. *)
Lemma empty_states_raise_no_toast :
  empty_success states (Demo.ok_json (Demo.with_states [])) /\
  inflight (run (browser := Demo.browser) Demo.select_world
              [PickCommodity 1; Settle 0 (Demo.ok_json (Demo.with_states []))]) = [] /\
  toaster (pg (run (browser := Demo.browser) Demo.select_world
                 [PickCommodity 1; Settle 0 (Demo.ok_json (Demo.with_states []))])) = [] /\
  stateSel (pg (run (browser := Demo.browser) Demo.select_world
                  [PickCommodity 1; Settle 0 (Demo.ok_json (Demo.with_states []))])) =
    mkSelect true [placeholder select_a_state] (Some 0).
Proof.
  split; [|repeat split].
  eexists _, _; repeat split.
Qed.

(** On this page a call that succeeds with zero results leaves its select
    disabled under the ordinary placeholder, which is not the placeholder
    of a failed call, and raises nothing. *)
Lemma empty_results_on_select_page {browser : Browser} (o : outcome) (p : page) :
  (empty_success states o ->
   commodity_change_resume o p =
     (with_stateSel (mkSelect true [placeholder select_a_state] (Some 0)) p, Fin)) /\
  (empty_success markets o ->
   state_change_resume o p =
     (with_marketSel (mkSelect true [placeholder select_a_market] (Some 0)) p, Fin)).
Proof.
  split; intros (r & b & -> & Hok & Hb & He);
    [unfold commodity_change_resume | unfold state_change_resume];
    unfold apiGet, json, bind_result, obj, fillSelect;
    rewrite Hok, Hb; cbn [negb]; rewrite He; reflexivity.
Qed.

(** *** The chart *)

Lemma drawSeries_catch_run (q : query) (resp : jsobj) (p : page) (ch : chart_data) :
  chart p = Some ch ->
  drawSeries_catch q resp p =
    (with_chartNote
       (plain "History endpoint not available; showing predicted point only.")
       (with_chart
          (Some (mkChart [date_or_today q p] [] [predicted_next_price resp])) p),
     Ok tt).
Proof.
  intros H. unfold drawSeries_catch, bind, gets, the_chart, modify.
  rewrite H. reflexivity.
Qed.

(** When the history is not available the [try] of [drawSeries] throws,
    having touched nothing but the chart. *)
Lemma drawSeries_try_throws (q : query) (resp : jsobj) (o : outcome) (p : page)
    (ch : chart_data) :
  history_unavailable o -> chart p = Some ch ->
  exists ch1 e,
    drawSeries_try q resp o p = (with_chart (Some ch1) p, Throw e).
Proof.
  intros Hu Hch.
  assert (Hp : p = with_chart (Some ch) p) by (destruct p; simpl in *; now subst).
  unfold drawSeries_try, bind, lift, gets, the_chart, modify, throw, ret,
    some_or_TypeError, json, obj.
  destruct o as [|r]; [exists ch; eexists; rewrite <- Hp; reflexivity|].
  simpl in Hu.
  destruct (ok r); cbn [negb];
    [|exists ch; eexists; rewrite <- Hp; reflexivity].
  destruct Hu as [Hu | Hu]; [discriminate|].
  destruct (body_json r) as [| |b];
    try (exists ch; eexists; rewrite <- Hp; reflexivity).
  destruct (dates b) as [ds|]; [|exists ch; eexists; rewrite <- Hp; reflexivity].
  destruct (prices b) as [ps|]; [|exists ch; eexists; rewrite <- Hp; reflexivity].
  destruct Hu as [Hu | [Hu | Hu]]; try discriminate.
  injection Hu as ->. cbn. rewrite Hch. cbn.
  eexists; eexists; reflexivity.
Qed.

Lemma drawSeries_degraded (q : query) (resp : jsobj) (o : outcome) (p : page) :
  history_unavailable o -> chart p <> None ->
  drawSeries q resp o p =
    (with_chartNote
       (plain "History endpoint not available; showing predicted point only.")
       (with_chart
          (Some (mkChart [date_or_today q p] [] [predicted_next_price resp])) p),
     Ok tt).
Proof.
  intros Hu Hch. destruct (chart p) as [ch|] eqn:E; [|congruence].
  destruct (drawSeries_try_throws q resp o p ch Hu E) as (ch1 & e & Htry).
  unfold drawSeries, try_catch. rewrite Htry.
  rewrite (drawSeries_catch_run q resp (with_chart (Some ch1) p) ch1 eq_refl).
  reflexivity.
Qed.

(** When the history arrives with at least one price, [drawSeries] gives
    the chart one label more than the series has points. *)
Lemma drawSeries_with_history (q : query) (resp : jsobj) (r : response)
    (b : jsobj) (ds : list jsstring) (x : jsval) (ps : list jsval) (p : page)
    (ch : chart_data) :
  ok r = true -> body_json r = JsonObj b ->
  dates b = Some ds -> prices b = Some (x :: ps) -> chart p = Some ch ->
  drawSeries q resp (Responded r) p =
    (with_chartNote []
       (with_chart
          (Some (mkChart (ds ++ [date_or_today q p]) (x :: ps)
                         (repeat Null (length ps) ++ [predicted_next_price resp])))
          p),
     Ok tt).
Proof.
  intros Hok Hb Hd Hp Hch.
  unfold drawSeries, try_catch, drawSeries_try, bind, lift, gets, the_chart,
    modify, throw, ret, some_or_TypeError, json, obj.
  rewrite Hok, Hb. cbn. rewrite Hd, Hp. cbn. rewrite Hch. reflexivity.
Qed.

(** C9 fails on the select-based page.  With three days of history and a
    query for 2024-01-04, the chart gets four labels, and the series of
    the predicted value has three entries: the prediction sits at index
    2, under the label of the last observed day, and the final label,
    2024-01-04 at index 3, has no entry. *)
Lemma drawSeries_misplaces_prediction :
  chart (fst (drawSeries (Demo.chosen_query (Some Demo.day4)) (Demo.prediction 3)
                         Demo.history3 Demo.select_page)) =
    Some (mkChart [Demo.day1; Demo.day2; Demo.day3; Demo.day4]
                  [Num 10; Num 11; Num 12]
                  [Null; Null; Num 13]) /\
  nth_error [Demo.day1; Demo.day2; Demo.day3; Demo.day4] 3 = Some Demo.day4 /\
  nth_error [Null; Null; Num 13] 3 = None /\
  nth_error [Null; Null; Num 13] 2 = Some (Num 13).
Proof. repeat split. Qed.

(** *** The predict button *)

Lemma predict_resume_cases (q : query) (o : outcome) (p : page) :
  (exists resp p',
     predict_resume q o p =
       (p', Await (seriesEndpoint q) (predict_resume_history q resp)) /\
     predictBtn p' = predictBtn p /\ toaster p' = toaster p /\
     apiPost o = Ok (JsonObj resp)) \/
  (exists e,
     predict_resume q o p = (predict_end (p, Throw e), Fin) /\
     (apiPost o = Throw e \/ apiPost o = Ok JsonNull)).
Proof.
  unfold predict_resume, bind, lift, show_prediction, bind, lift, modify, ret, obj.
  destruct (apiPost o) as [[| |resp]|e] eqn:E.
  - exfalso. unfold apiPost in E. destruct o as [|r]; [discriminate|].
    destruct (ok r); cbn in E; [|discriminate].
    destruct (body_json r); discriminate.
  - right. eexists; split; [reflexivity | now right].
  - left. eexists _, _. split; [reflexivity|]. repeat split.
  - right. eexists; split; [reflexivity | now left].
Qed.

Lemma predictBtn_predict_end (r : page * result unit) :
  predictBtn (predict_end r) = false.
Proof. reflexivity. Qed.

(** The history fails after a prediction that succeeded. *)
Lemma predict_history_degraded (q : query) (resp : jsobj) (o1 o2 : outcome)
    (p1 p2 : page) :
  apiPost o1 = Ok (JsonObj resp) ->
  history_unavailable o2 ->
  chart p2 <> None ->
  (exists p1',
     predict_resume q o1 p1 =
       (p1', Await (seriesEndpoint q) (predict_resume_history q resp)) /\
     toaster p1' = toaster p1) /\
  snd (drawSeries q resp o2 p2) = Ok tt /\
  exists p2',
    predict_resume_history q resp o2 p2 = (p2', Fin) /\
    chart p2' =
      Some (mkChart [date_or_today q p2] [] [predicted_next_price resp]) /\
    chartNote p2' =
      plain "History endpoint not available; showing predicted point only." /\
    toaster p2' = toaster p2 /\
    predictBtn p2' = false.
Proof.
  intros H1 H2 Hch. split; [|split].
  - destruct (predict_resume_cases q o1 p1)
      as [(resp' & p' & E & _ & Ht & Hr) | (e & _ & [Hr | Hr])];
      try congruence.
    rewrite H1 in Hr. injection Hr as <-. exists p'. now split.
  - now rewrite drawSeries_degraded.
  - unfold predict_resume_history. rewrite (drawSeries_degraded q resp o2 p2 H2 Hch).
    eexists; split; [reflexivity|]. repeat split.
Qed.

Lemma guarded_spawn_fin {browser : Browser}
    (p : page) (rest : list (request * cont page)) (b : bool) :
  Forall task rest ->
  length (filter prediction_call rest) = (if b then 1 else 0) ->
  predictBtn p = b ->
  guarded (spawn (p, Fin) rest).
Proof. intros Ht Hn Hb. split; [exact Ht|]. unfold prediction_calls; simpl. now rewrite Hb. Qed.

Lemma guarded_fire_cascade {browser : Browser} (h : handler page) (w : world page) :
  guarded w ->
  (forall p, predictBtn (fst (h p)) = predictBtn p) ->
  (forall p, snd (h p) = Fin \/
             exists rq k, snd (h p) = Await rq k /\ task (rq, k) /\
                          prediction_call (rq, k) = false) ->
  guarded (fire h w).
Proof.
  intros [Ht Hn] Hbtn Hproc. unfold fire, spawn, guarded, prediction_calls in *.
  specialize (Hbtn (pg w)).
  destruct (Hproc (pg w)) as [E | (rq & k & E & Htask & Hcall)]; rewrite E; simpl.
  - rewrite Hbtn. now split.
  - rewrite Hbtn. split.
    + apply Forall_app; split; [exact Ht | now constructor].
    + rewrite AsyncFacts.filter_snoc_length, Hcall, Hn. lia.
Qed.

Lemma commodity_change_proc {browser : Browser} (p : page) :
  predictBtn (fst (commodity_change p)) = predictBtn p /\
  (snd (commodity_change p) = Fin \/
   exists rq k, snd (commodity_change p) = Await rq k /\ task (rq, k) /\
                prediction_call (rq, k) = false).
Proof.
  unfold commodity_change, encodeURIComponent.
  destruct (is_empty (trim (value (commodity p)))); simpl; [split; auto|].
  destruct (isWellFormed (trim (value (commodity p)))); simpl; split; auto.
  right. eexists _, _. split; [reflexivity|]. split; [constructor | reflexivity].
Qed.

Lemma state_change_proc {browser : Browser} (p : page) :
  predictBtn (fst (state_change p)) = predictBtn p /\
  (snd (state_change p) = Fin \/
   exists rq k, snd (state_change p) = Await rq k /\ task (rq, k) /\
                prediction_call (rq, k) = false).
Proof.
  unfold state_change, encodeURIComponent.
  destruct (is_empty (trim (value (commodity p))) || is_empty (trim (value (stateSel p))));
    simpl; [split; auto|].
  destruct (isWellFormed (trim (value (commodity p)))); simpl; [|split; auto].
  destruct (isWellFormed (trim (value (stateSel p)))); simpl; split; auto.
  right. eexists _, _. split; [reflexivity|]. split; [constructor | reflexivity].
Qed.

Lemma clearBtn_click_proc (p : page) :
  predictBtn (fst (clearBtn_click p)) = predictBtn p /\
  snd (clearBtn_click p) = Fin.
Proof.
  unfold clearBtn_click, resetChart. cbn. destruct (chart p); split; reflexivity.
Qed.

Lemma predictBtn_click_proc (p : page) :
  (predictBtn (fst (predictBtn_click p)) = predictBtn p /\
   snd (predictBtn_click p) = Fin) \/
  (exists q,
     predictBtn (fst (predictBtn_click p)) = true /\
     snd (predictBtn_click p) = Await (predict_request q) (predict_resume q)).
Proof.
  unfold predictBtn_click. rewrite validate_cases.
  destruct (met p NeedCommodity), (met p NeedState), (met p NeedMarket),
           (met p NeedDate); cbn [negb]; try (left; split; reflexivity).
  right. exists (normalized p). unfold resetChart. cbn.
  destruct (chart p); split; reflexivity.
Qed.

Lemma cascade_resume_proc {browser : Browser} (o : outcome) (p : page) :
  (predictBtn (fst (commodity_change_resume o p)) = predictBtn p /\
   snd (commodity_change_resume o p) = Fin) /\
  (predictBtn (fst (state_change_resume o p)) = predictBtn p /\
   snd (state_change_resume o p) = Fin).
Proof.
  unfold commodity_change_resume, state_change_resume.
  destruct (bind_result (apiGet o) obj); repeat split.
Qed.

(** Every event keeps the button and the calls in flight in step. *)
Lemma guarded_step {browser : Browser}
    (w : world page) (e : event) : guarded w -> guarded (step w e).
Proof.
  intros G. destruct e as [i|i|i| | |n o]; simpl.
  - destruct (pick i (commodity (pg w))) as [sel|]; [|exact G].
    apply guarded_fire_cascade; [exact G | |]; intros p; apply commodity_change_proc.
  - destruct (pick i (stateSel (pg w))) as [sel|]; [|exact G].
    apply guarded_fire_cascade; [exact G | |]; intros p; apply state_change_proc.
  - destruct (pick i (marketSel (pg w))) as [sel|]; exact G.
  - destruct (predictBtn (pg w)) eqn:Hb; [exact G|].
    destruct G as [Ht Hn]. rewrite Hb in Hn.
    unfold fire, spawn, guarded, prediction_calls in *.
    destruct (predictBtn_click_proc (pg w)) as [[Hp E] | (q & Hp & E)];
      rewrite E; simpl; rewrite Hp.
    + rewrite Hb. now split.
    + split; [apply Forall_app; split; [exact Ht | repeat constructor]|].
      rewrite AsyncFacts.filter_snoc_length, Hn. reflexivity.
  - apply guarded_fire_cascade; [exact G | |]; intros p.
    + apply clearBtn_click_proc.
    + left. apply clearBtn_click_proc.
  - unfold deliver. destruct (nth_error (inflight w) n) as [[rq k]|] eqn:E; [|exact G].
    destruct G as [Ht Hn]. unfold prediction_calls in Hn.
    pose proof (AsyncFacts.nth_error_Forall _ _ _ _ Ht E) as Hk.
    pose proof (AsyncFacts.remove_nth_Forall _ n _ Ht) as Hrest.
    rewrite (AsyncFacts.filter_remove_nth prediction_call n _ _ E) in Hn.
    inversion Hk as [c Hrq | c s Hrq | q Hrq | q resp Hrq]; subst rq k.
    + destruct (cascade_resume_proc o (pg w)) as [[Hp Hf] _].
      destruct (commodity_change_resume o (pg w)) as [p' pr]; simpl in *; subst pr.
      apply (guarded_spawn_fin _ _ (predictBtn (pg w))); auto.
      cbn in Hn. lia.
    + destruct (cascade_resume_proc o (pg w)) as [_ [Hp Hf]].
      destruct (state_change_resume o (pg w)) as [p' pr]; simpl in *; subst pr.
      apply (guarded_spawn_fin _ _ (predictBtn (pg w))); auto.
      cbn in Hn. lia.
    + cbn in Hn.
      assert (Hb : predictBtn (pg w) = true)
        by (destruct (predictBtn (pg w)); [reflexivity | lia]).
      rewrite Hb in Hn.
      destruct (predict_resume_cases q o (pg w))
        as [(resp & p' & Hr & Hp & _) | (e & Hr & _)]; rewrite Hr.
      * unfold spawn, guarded, prediction_calls; simpl. split.
        -- apply Forall_app; split; [exact Hrest | repeat constructor].
        -- rewrite AsyncFacts.filter_snoc_length, Hp, Hb. cbn. lia.
      * apply (guarded_spawn_fin _ _ false); auto. lia.
    + cbn in Hn.
      assert (Hb : predictBtn (pg w) = true)
        by (destruct (predictBtn (pg w)); [reflexivity | lia]).
      rewrite Hb in Hn.
      unfold predict_resume_history.
      apply (guarded_spawn_fin _ _ false); auto. lia.
Qed.

Lemma guarded_run {browser : Browser} (w : world page) (es : list event) :
  guarded w -> guarded (run w es).
Proof. apply AsyncFacts.fold_left_invariant. intros; now apply guarded_step. Qed.

(** The predict button is disabled exactly while a call of its listener is
    in flight: at most one such call is in flight at any time, whatever
    the events and however the calls end. *)
Lemma predictBtn_guards_its_call {browser : Browser}
    (w0 : world page) (es : list event) :
  predictBtn (pg w0) = false -> inflight w0 = [] ->
  prediction_calls (run w0 es) <= 1 /\
  (predictBtn (pg (run w0 es)) = true <-> prediction_calls (run w0 es) = 1).
Proof.
  intros Hb Hi.
  assert (G : guarded w0).
  { split; [rewrite Hi; constructor|].
    unfold prediction_calls. now rewrite Hi, Hb. }
  destruct (guarded_run w0 es G) as [_ Hn]. rewrite Hn.
  destruct (predictBtn (pg (run w0 es))); split; try lia; split; auto; discriminate.
Qed.

(** *** Fresh options *)

(** C1 as stated fails on the select-based page.  Rice is chosen, then
    Wheat; the two calls are in flight together; the answer for Wheat
    arrives first and the answer for Rice second.  No call is left, Wheat
    is the selection, and the state select offers the states of Rice. *)
Lemma stale_states_overwrite_fresh_ones :
  map fst (inflight Demo.two_picks) =
    [states_request Demo.Rice; states_request Demo.Wheat] /\
  inflight Demo.late_rice = [] /\
  value (commodity (pg Demo.late_rice)) = Demo.Wheat /\
  offered (stateSel (pg Demo.late_rice)) = [Demo.Punjab] /\
  states_for Demo.srv Demo.Wheat = [Demo.Bihar] /\
  ~ fresh Demo.srv (pg Demo.late_rice).
Proof.
  repeat split. intros [H _]. discriminate H.
Qed.

Lemma apiGet_listed (field : jsobj -> option (list jsstring)) (o : outcome) :
  (exists res, bind_result (apiGet o) obj = Ok res /\
               listed field o = or_empty (field res)) \/
  (exists e, bind_result (apiGet o) obj = Throw e /\ listed field o = []).
Proof.
  destruct o as [|r]; simpl; [right; eexists; split; reflexivity|].
  unfold json. destruct (ok r); simpl; [|right; eexists; split; reflexivity].
  destruct (body_json r); simpl;
    [right; eexists; split; reflexivity | right; eexists; split; reflexivity |].
  left; eexists; split; reflexivity.
Qed.

Lemma plain_names_forallb (l : list jsstring) :
  plain_names l -> forallb isPlainText l = true.
Proof.
  unfold plain_names. rewrite Forall_forall, forallb_forall. auto.
Qed.

(** A select filled with plain names offers each name with its white
    space stripped and collapsed, and has no value. *)
Lemma offered_fillSelect {browser : Browser} (items : list jsstring) (first : jsstring)
    (sel : select) :
  isPlainText first = true -> plain_names items ->
  offered (fillSelect items first sel) = map stripAndCollapse items /\
  value (fillSelect items first sel) = [].
Proof.
  intros Hf Hi. unfold offered, fillSelect, written_options.
  cbn [forallb]. rewrite Hf, (plain_names_forallb items Hi). cbn.
  split; [|reflexivity].
  rewrite map_map. reflexivity.
Qed.

(** A name that the server lists with blanks around it, or with two
    blanks inside it, is offered without the first and with one of the
    second, for every host. *)
Lemma padded_names_are_offered_collapsed {browser : Browser} (sel : select) :
  offered (fillSelect [lit " Goa "; lit "Tamil  Nadu"] select_a_state sel) =
    [lit "Goa"; lit "Tamil Nadu"].
Proof. reflexivity. Qed.

(** The answer of a call replaces the options of its level, whatever the
    page is by then. *)
Lemma answer_replaces_options {browser : Browser} (o : outcome) (p : page) :
  (plain_names (listed states o) ->
   offered (stateSel (fst (commodity_change_resume o p))) =
     map stripAndCollapse (listed states o)) /\
  (plain_names (listed markets o) ->
   offered (marketSel (fst (state_change_resume o p))) =
     map stripAndCollapse (listed markets o)).
Proof.
  unfold commodity_change_resume, state_change_resume.
  destruct (apiGet_listed states o) as [(r1 & E1 & L1) | (e1 & E1 & L1)];
    destruct (apiGet_listed markets o) as [(r2 & E2 & L2) | (e2 & E2 & L2)];
    rewrite E1 in *; try discriminate; rewrite L1, L2; cbn [fst].
  - injection E2 as <-. split; intros H.
    + apply (offered_fillSelect _ select_a_state _ eq_refl H).
    + apply (offered_fillSelect _ select_a_market _ eq_refl H).
  - split; reflexivity.
Qed.

(** The server of the examples lists plain names. *)
Lemma demo_server_plain : plain_server Demo.srv.
Proof.
  intros rq. unfold Demo.srv.
  repeat match goal with
         | |- context [Js.eqb ?a ?b] => destruct (Js.eqb a b)
         end; split; repeat constructor.
Qed.

(** The states settle: after the change of the commodity and the answer
    to its call, both selects are fresh. *)
Lemma commodity_change_settles {browser : Browser}
    (srv : request -> outcome) (p : page) :
  plain_server srv ->
  settled srv (resolve srv 0 (fire commodity_change (mkWorld p []))).
Proof.
  intros Hsrv.
  unfold fire, commodity_change, encodeURIComponent, spawn.
  cbn [pg inflight commodity with_marketSel].
  destruct (is_empty (trim (value (commodity p)))) eqn:Ec; cbn [snd fst app].
  - rewrite resolve_idle. split; [reflexivity|].
    unfold fresh. cbn. rewrite Ec. split; reflexivity.
  - destruct (isWellFormed (trim (value (commodity p)))) eqn:Ew; cbn [snd fst app].
    + rewrite resolve_single. unfold commodity_change_resume.
      destruct (apiGet_listed states (srv (states_request (trim (value (commodity p))))))
        as [(res & E & L) | (e & E & L)]; rewrite E; unfold spawn; cbn [snd fst].
      * split; [reflexivity|]. unfold fresh.
        cbn [pg commodity stateSel marketSel with_stateSel with_marketSel].
        destruct (offered_fillSelect (or_empty (states res)) select_a_state
                    (setDisabled true (Some loading_states) (stateSel p)) eq_refl)
          as [Ho Hv].
        { rewrite <- L. apply Hsrv. }
        rewrite Ho, Hv, Ec. unfold states_for. rewrite Ew, L. split; reflexivity.
      * split; [reflexivity|]. unfold fresh. cbn. rewrite Ec.
        unfold states_for. rewrite Ew, L. split; reflexivity.
    + rewrite resolve_idle. split; [reflexivity|].
      unfold fresh. cbn. rewrite Ec. unfold states_for. rewrite Ew.
      split; reflexivity.
Qed.

(** The markets settle likewise, and the state select keeps what it
    offers. *)
Lemma state_change_settles {browser : Browser} (srv : request -> outcome) (p : page) :
  plain_server srv ->
  offered (stateSel p) =
    (if is_empty (trim (value (commodity p))) then []
     else map stripAndCollapse (states_for srv (trim (value (commodity p))))) ->
  settled srv (resolve srv 0 (fire state_change (mkWorld p []))).
Proof.
  intros Hsrv Hs.
  unfold fire, state_change, encodeURIComponent, spawn.
  cbn [pg inflight commodity stateSel with_marketSel].
  destruct (is_empty (trim (value (commodity p))) || is_empty (trim (value (stateSel p))))
    eqn:Ecs; cbn [snd fst app].
  - rewrite resolve_idle. split; [reflexivity|].
    unfold fresh. cbn. rewrite Ecs. split; [exact Hs | reflexivity].
  - destruct (isWellFormed (trim (value (commodity p)))) eqn:Ewc; cbn [bind_result];
      [destruct (isWellFormed (trim (value (stateSel p)))) eqn:Ews; cbn [bind_result]|];
      cbn [snd fst app].
    + rewrite resolve_single. unfold state_change_resume.
      destruct (apiGet_listed markets
                  (srv (markets_request (trim (value (commodity p)))
                                        (trim (value (stateSel p))))))
        as [(res & E & L) | (e & E & L)]; rewrite E; unfold spawn; cbn [snd fst].
      * split; [reflexivity|]. unfold fresh.
        cbn [pg commodity stateSel marketSel with_stateSel with_marketSel].
        destruct (offered_fillSelect (or_empty (markets res)) select_a_market
                    (setDisabled true (Some loading_markets) (marketSel p)) eq_refl)
          as [Ho _].
        { rewrite <- L. apply Hsrv. }
        rewrite Ho, Ecs. unfold markets_for. rewrite Ewc, Ews, L.
        split; [exact Hs | reflexivity].
      * split; [reflexivity|]. unfold fresh. cbn. rewrite Ecs.
        unfold markets_for. rewrite Ewc, Ews, L. split; [exact Hs | reflexivity].
    + rewrite resolve_idle. split; [reflexivity|].
      unfold fresh. cbn. rewrite Ecs. unfold markets_for. rewrite Ewc, Ews.
      split; [exact Hs | reflexivity].
    + rewrite resolve_idle. split; [reflexivity|].
      unfold fresh. cbn. rewrite Ecs. unfold markets_for. rewrite Ewc.
      split; [exact Hs | reflexivity].
Qed.

Lemma value_set_value_empty (sel : select) : value (set_value [] sel) = [].
Proof. destruct (value_set_value [] sel) as [E | E]; exact E. Qed.

Lemma clearBtn_click_fresh (srv : request -> outcome) (p : page) :
  fresh srv (fst (clearBtn_click p)).
Proof.
  unfold clearBtn_click, resetChart. cbn.
  destruct (chart p); unfold fresh; cbn; rewrite value_set_value_empty;
    split; reflexivity.
Qed.

Lemma settled_step {browser : Browser} (srv : request -> outcome) (w : world page)
    (e : event) :
  plain_server srv ->
  cascading e = true -> settled srv w -> settled srv (resolve srv 0 (step w e)).
Proof.
  intros Hsrv He [Hi [Hs Hm]]. destruct w as [p fl]; simpl in Hi; subst fl.
  cbn [pg] in Hs, Hm.
  destruct e as [i|i|i| | |n o]; try discriminate; cbn [step pg inflight].
  - destruct (pick i (commodity p)) as [sel|].
    + now apply commodity_change_settles.
    + rewrite resolve_idle. split; [reflexivity | now split].
  - destruct (pick i (stateSel p)) as [sel|] eqn:E.
    + apply state_change_settles; [exact Hsrv|]. cbn.
      unfold offered. rewrite (pick_options _ _ _ E). exact Hs.
    + rewrite resolve_idle. split; [reflexivity | now split].
  - destruct (pick i (marketSel p)) as [sel|] eqn:E;
      rewrite resolve_idle; (split; [reflexivity|]); [|now split].
    unfold fresh. cbn. split; [exact Hs|].
    unfold offered. rewrite (pick_options _ _ _ E). exact Hm.
  - unfold fire, spawn. cbn [pg inflight].
    rewrite (proj2 (clearBtn_click_proc p)), resolve_idle.
    split; [reflexivity | apply clearBtn_click_fresh].
Qed.

(** When every call is answered before the next event, the options on
    display stay fresh. *)
Lemma in_turn_settled {browser : Browser} (srv : request -> outcome) (w : world page)
    (es : list event) :
  plain_server srv ->
  forallb cascading es = true -> settled srv w -> settled srv (in_turn srv w es).
Proof.
  intros Hsrv. unfold in_turn.
  apply (AsyncFacts.fold_left_invariant_on
           (fun w e => resolve srv 0 (step w e)) (settled srv) cascading).
  intros w' e He Hw. now apply settled_step.
Qed.

End SelectFacts.

(** ** price_app.js *)

Module PriceFacts.
Import PriceApp PriceSpec JsFacts AsyncFacts.

(** *** Clearing the commodity *)

Lemma onCommodityChange_cleared (p : page) :
  is_empty (value (pp_commodity p)) = true ->
  snd (onCommodityChange p) = Fin /\
  cleared (pp_state (fst (onCommodityChange p))) /\
  cleared (pp_market (fst (onCommodityChange p))).
Proof.
  intros H. unfold onCommodityChange. cbn. rewrite H. repeat split.
Qed.

Lemma clearForm_cleared (p : page) :
  snd (clearForm p) = Fin /\
  cleared (pp_state (fst (clearForm p))) /\
  cleared (pp_market (fst (clearForm p))).
Proof. repeat split. Qed.

(** *** An empty list of states or markets *)

Lemma or_empty_length {A : Type} (x : option (list A)) :
  or_empty x = [] -> Nat.eqb (length (or_empty x)) 0 = true.
Proof. intros ->. reflexivity. Qed.

(** A call that succeeds with zero results puts the select under a
    placeholder of its own, which is not the placeholder of a failed call,
    and raises a toast. *)
Lemma empty_results_on_price_page (o : outcome) (p : page) :
  (empty_success states o ->
   onCommodityChange_resume o p =
     (showToast (plain "No states found for this commodity in DB.") true
        (with_state (set_innerHTML [placeholder no_states_found] (pp_state p)) p),
      Fin)) /\
  (empty_success markets o ->
   onStateChange_resume o p =
     (showToast (plain "No markets found for this state.") true
        (with_market (set_innerHTML [placeholder no_markets_found] (pp_market p)) p),
      Fin)) /\
  (bind_result (fetchJSON o) obj = Throw (Host FetchFailed) ->
   onCommodityChange_resume o p =
     (showToast (plain "Failed to load states.") true
        (with_state (set_innerHTML [placeholder error_loading_states] (pp_state p)) p),
      Fin) /\
   onStateChange_resume o p =
     (showToast (plain "Failed to load markets.") true
        (with_market (set_innerHTML [placeholder error_loading_markets] (pp_market p)) p),
      Fin)) /\
  no_states_found <> error_loading_states /\
  no_markets_found <> error_loading_markets.
Proof.
  split; [|split; [|split; [|split; discriminate]]].
  - intros (r & b & -> & Hok & Hb & He).
    unfold onCommodityChange_resume, fetchJSON, json, bind_result, obj.
    rewrite Hok, Hb. cbn [negb]. now rewrite (or_empty_length _ He).
  - intros (r & b & -> & Hok & Hb & He).
    unfold onStateChange_resume, fetchJSON, json, bind_result, obj.
    rewrite Hok, Hb. cbn [negb]. now rewrite (or_empty_length _ He).
  - intros H. unfold onCommodityChange_resume, onStateChange_resume.
    rewrite H. split; reflexivity.
Qed.

(** *** The history and the chart *)

(** When the history lookup fails, [loadHistory] raises an error toast
    and leaves the chart as it is. *)
Lemma loadHistory_failure (plotOnly : bool) (o : outcome) (p : page) :
  history_fails o ->
  loadHistory plotOnly o p =
    (showToast
       (plain "Could not load history. Maybe DB has no data for this context.")
       true p,
     Ok tt).
Proof.
  unfold history_fails, loadHistory, try_catch, loadHistory_try, bind, lift,
    bind_result, modify.
  destruct (fetchJSON o) as [j|e]; [|reflexivity].
  destruct (obj j); [contradiction | reflexivity].
Qed.

(** C6 as stated fails on the page of price_app.js.  The selections are
    made and no chart has been drawn; the history call fails and the
    prediction call succeeds with no point used.  An error toast is
    raised for the history, and there is no chart, hence no point. *)
Lemma history_failure_raises_error_toast :
  history_fails Demo.not_found /\
  inflight Demo.price_predicted = [] /\
  toasts (pg Demo.price_predicted) =
    [(plain "Could not load history. Maybe DB has no data for this context.", true);
     (plain "Prediction successful.", false)] /\
  alerts (pg Demo.price_predicted) = [] /\
  priceChart (pg Demo.price_predicted) = None.
Proof. repeat split. Qed.

(** [doPrediction] marks the prediction under the last label of the chart
    that [renderChart] drew. *)
Lemma mark_prediction_last_label (out : jsobj) (p : page) (l : jsstring)
    (ls : list jsstring) (x : jsval) (xs : list jsval) (s : option (list jsval)) :
  priceChart p = Some (mkChart (l :: ls) (x :: xs) s) ->
  mark_prediction out p =
    (with_priceChart
       (Some (mkChart (l :: ls) (x :: xs)
                      (Some (repeat Null (length xs) ++ [predicted_next_price out]))))
       p,
     Ok tt).
Proof.
  intros H. unfold mark_prediction, bind, gets, lift, modify. rewrite H.
  reflexivity.
Qed.

(** *** The predict button *)

Lemma price_quiet_bind {A B : Type} (m : M A) (f : A -> M B) :
  quiet m -> (forall a, quiet (f a)) -> quiet (bind m f).
Proof.
  intros Hm Hf p. unfold bind. specialize (Hm p).
  destruct (m p) as [p' [a|e]]; cbn [fst] in *; [|exact Hm].
  now rewrite Hf.
Qed.

Lemma price_quiet_try_catch {A : Type} (m : M A) (h : exn -> M A) :
  quiet m -> (forall e, quiet (h e)) -> quiet (try_catch m h).
Proof.
  intros Hm Hh p. unfold try_catch. specialize (Hm p).
  destruct (m p) as [p' [a|e]]; cbn [fst] in *; [exact Hm|].
  now rewrite Hh.
Qed.

Lemma price_quiet_lift {A : Type} (r : result A) : quiet (lift r).
Proof. intros p; reflexivity. Qed.

Lemma price_quiet_ret {A : Type} (a : A) : quiet (ret a).
Proof. intros p; reflexivity. Qed.

Lemma price_quiet_throw {A : Type} (e : exn) : quiet (@throw A e).
Proof. intros p; reflexivity. Qed.

Lemma price_quiet_gets {A : Type} (f : page -> A) : quiet (gets f).
Proof. intros p; reflexivity. Qed.

Lemma price_quiet_modify (f : page -> page) :
  (forall p, pp_predictBtn (f p) = pp_predictBtn p) -> quiet (modify f).
Proof. intros H p; apply H. Qed.

Ltac price_quiet_step :=
  first
    [ apply price_quiet_lift | apply price_quiet_ret | apply price_quiet_throw | apply price_quiet_gets
    | apply price_quiet_modify; intros; reflexivity
    | apply price_quiet_bind; [|intros]
    | apply price_quiet_try_catch; [|intros] ].

Ltac price_quiet := repeat price_quiet_step.

Lemma price_quiet_loadHistory (plotOnly : bool) (o : outcome) : quiet (loadHistory plotOnly o).
Proof.
  unfold loadHistory, loadHistory_try. price_quiet.
  destruct plotOnly; price_quiet.
  unfold some_or_TypeError. destruct (prices a0); price_quiet.
Qed.

Lemma price_quiet_mark_prediction (out : jsobj) : quiet (mark_prediction out).
Proof.
  unfold mark_prediction. price_quiet.
  destruct a as [ch|]; price_quiet.
  destruct (Nat.ltb 0 (length (labels ch))); price_quiet.
Qed.

Lemma pp_predictBtn_doPrediction_resume (c s m : jsstring) (o : outcome) (p : page) :
  pp_predictBtn (fst (doPrediction_resume c s m o p)) = pp_predictBtn p /\
  snd (doPrediction_resume c s m o p) = Fin.
Proof.
  split; [|reflexivity].
  unfold doPrediction_resume. cbn [fst].
  revert p. change (quiet (try_catch (doPrediction_try c s m o)
    (fun e => modify (alert (T (lit "Prediction failed: ") :: message e))))).
  unfold doPrediction_try.
  repeat first [apply price_quiet_mark_prediction | price_quiet_step].
Qed.

(** Neither [onPredictClick] nor anything that follows it touches the
    disabled flag of the predict button. *)
Lemma onPredictClick_keeps_button : handler_keeps pp_predictBtn onPredictClick.
Proof.
  intros p. unfold onPredictClick, validateContext.
  destruct (negb (is_empty (value (pp_commodity p))) &&
            negb (is_empty (value (pp_state p))) &&
            negb (is_empty (value (pp_market p)))); cbn [fst snd].
  - split; [reflexivity|]. apply keeps_await.
    + intros o q. unfold onPredictClick_resume, doPrediction. cbn [fst].
      apply price_quiet_loadHistory.
    + intros o q. unfold onPredictClick_resume, doPrediction. cbn [snd].
      apply keeps_await.
      * intros o' q'. apply pp_predictBtn_doPrediction_resume.
      * intros o' q'. rewrite (proj2 (pp_predictBtn_doPrediction_resume _ _ _ o' q')).
        apply keeps_fin.
  - split; [reflexivity | apply keeps_fin].
Qed.

(** *** Fresh options *)

Lemma fetchJSON_listed (field : jsobj -> option (list jsstring)) (o : outcome) :
  (exists res, bind_result (fetchJSON o) obj = Ok res /\
               listed field o = or_empty (field res)) \/
  (exists e, bind_result (fetchJSON o) obj = Throw e /\ listed field o = []).
Proof.
  destruct o as [|r]; simpl; [right; eexists; split; reflexivity|].
  unfold json. destruct (ok r); simpl; [|right; eexists; split; reflexivity].
  destruct (body_json r); simpl;
    [right; eexists; split; reflexivity | right; eexists; split; reflexivity |].
  left; eexists; split; reflexivity.
Qed.

Lemma offered_fill (first : jsstring) (items : list jsstring) (sel : select) :
  offered (fill first items sel) = items /\ value (fill first items sel) = [].
Proof.
  unfold offered, fill; simpl. split; [|reflexivity].
  rewrite map_map. simpl. apply map_id.
Qed.

Lemma eqb_length_nil {A : Type} (l : list A) :
  Nat.eqb (length l) 0 = true -> l = [].
Proof. destruct l; [reflexivity | discriminate]. Qed.

(** The answer of a call replaces the options of its level, whatever the
    page is by then. *)
Lemma price_answer_replaces_options (o : outcome) (p : page) :
  offered (pp_state (fst (onCommodityChange_resume o p))) = listed states o /\
  offered (pp_market (fst (onStateChange_resume o p))) = listed markets o.
Proof.
  unfold onCommodityChange_resume, onStateChange_resume.
  destruct (fetchJSON_listed states o) as [(r1 & E1 & L1) | (e1 & E1 & L1)];
    destruct (fetchJSON_listed markets o) as [(r2 & E2 & L2) | (e2 & E2 & L2)];
    rewrite E1 in *; try discriminate; rewrite L1, L2; cbn [fst].
  - injection E2 as <-. split.
    + destruct (Nat.eqb (length (or_empty (states r1))) 0) eqn:El; cbn.
      * apply eqb_length_nil in El. now rewrite El.
      * rewrite map_map. cbn. now rewrite map_id.
    + destruct (Nat.eqb (length (or_empty (markets r1))) 0) eqn:El; cbn.
      * apply eqb_length_nil in El. now rewrite El.
      * rewrite map_map. cbn. now rewrite map_id.
  - split; reflexivity.
Qed.

Lemma onCommodityChange_settles (srv : request -> outcome) (p : page) :
  placeholder_first (pp_commodity p) ->
  settled srv (resolve srv 0 (fire onCommodityChange (mkWorld p []))).
Proof.
  intros Hph.
  unfold fire, onCommodityChange, encodeURIComponent, spawn.
  cbn [pg inflight pp_commodity with_state with_market].
  destruct (is_empty (value (pp_commodity p))) eqn:Ec; cbn [snd fst app].
  - rewrite resolve_idle. split; [reflexivity|]. split; [exact Hph|].
    unfold fresh. cbn. rewrite Ec. split; reflexivity.
  - destruct (isWellFormed (value (pp_commodity p))) eqn:Ew; cbn [snd fst app].
    + rewrite resolve_single. unfold onCommodityChange_resume.
      destruct (fetchJSON_listed states (srv (states_request (value (pp_commodity p)))))
        as [(res & E & L) | (e & E & L)]; rewrite E.
      * destruct (Nat.eqb (length (or_empty (states res))) 0) eqn:El;
          unfold spawn; cbn [snd fst]; (split; [reflexivity|]); (split; [exact Hph|]).
        -- apply eqb_length_nil in El. unfold fresh. cbn. rewrite Ec.
           unfold states_for. rewrite Ew, L, El. split; reflexivity.
        -- unfold fresh.
           cbn [pg pp_commodity pp_state pp_market with_state with_market showToast
                with_toasts].
           match goal with
           | |- context [fill ?f ?i ?sel] =>
               destruct (offered_fill f i sel) as [Ho Hv]
           end.
           rewrite Ho, Hv, Ec. unfold states_for. rewrite Ew, L. split; reflexivity.
      * unfold spawn; cbn [snd fst]. split; [reflexivity|]. split; [exact Hph|].
        unfold fresh. cbn. rewrite Ec. unfold states_for. rewrite Ew, L.
        split; reflexivity.
    + rewrite resolve_idle. split; [reflexivity|]. split; [exact Hph|].
      unfold fresh. cbn. rewrite Ec. unfold states_for. rewrite Ew.
      split; reflexivity.
Qed.

Lemma onStateChange_settles (srv : request -> outcome) (p : page) :
  placeholder_first (pp_commodity p) ->
  offered (pp_state p) =
    (if is_empty (value (pp_commodity p)) then []
     else states_for srv (value (pp_commodity p))) ->
  settled srv (resolve srv 0 (fire onStateChange (mkWorld p []))).
Proof.
  intros Hph Hs.
  unfold fire, onStateChange, encodeURIComponent, spawn.
  cbn [pg inflight pp_commodity pp_state with_state with_market].
  destruct (is_empty (value (pp_commodity p)) || is_empty (value (pp_state p)))
    eqn:Ecs; cbn [snd fst app].
  - rewrite resolve_idle. split; [reflexivity|]. split; [exact Hph|].
    unfold fresh. cbn. rewrite Ecs. split; [exact Hs | reflexivity].
  - destruct (isWellFormed (value (pp_commodity p))) eqn:Ewc; cbn [bind_result];
      [destruct (isWellFormed (value (pp_state p))) eqn:Ews; cbn [bind_result]|];
      cbn [snd fst app].
    + rewrite resolve_single. unfold onStateChange_resume.
      destruct (fetchJSON_listed markets
                  (srv (markets_request (value (pp_commodity p)) (value (pp_state p)))))
        as [(res & E & L) | (e & E & L)]; rewrite E.
      * destruct (Nat.eqb (length (or_empty (markets res))) 0) eqn:El;
          unfold spawn; cbn [snd fst]; (split; [reflexivity|]); (split; [exact Hph|]).
        -- apply eqb_length_nil in El. unfold fresh. cbn. rewrite Ecs.
           unfold markets_for. rewrite Ewc, Ews, L, El. split; [exact Hs | reflexivity].
        -- unfold fresh.
           cbn [pg pp_commodity pp_state pp_market with_state with_market showToast
                with_toasts].
           match goal with
           | |- context [fill ?f ?i ?sel] =>
               destruct (offered_fill f i sel) as [Ho _]
           end.
           rewrite Ho, Ecs. unfold markets_for. rewrite Ewc, Ews, L.
           split; [exact Hs | reflexivity].
      * unfold spawn; cbn [snd fst]. split; [reflexivity|]. split; [exact Hph|].
        unfold fresh. cbn. rewrite Ecs. unfold markets_for. rewrite Ewc, Ews, L.
        split; [exact Hs | reflexivity].
    + rewrite resolve_idle. split; [reflexivity|]. split; [exact Hph|].
      unfold fresh. cbn. rewrite Ecs. unfold markets_for. rewrite Ewc, Ews.
      split; [exact Hs | reflexivity].
    + rewrite resolve_idle. split; [reflexivity|]. split; [exact Hph|].
      unfold fresh. cbn. rewrite Ecs. unfold markets_for. rewrite Ewc.
      split; [exact Hs | reflexivity].
Qed.

Lemma placeholder_first_pick (i : nat) (sel sel' : select) :
  pick i sel = Some sel' -> placeholder_first sel -> placeholder_first sel'.
Proof.
  intros E (o & rest & Ho & Hv). exists o, rest.
  rewrite (pick_options _ _ _ E). now split.
Qed.

Lemma clearForm_settled (srv : request -> outcome) (p : page) :
  placeholder_first (pp_commodity p) ->
  placeholder_first (pp_commodity (fst (clearForm p))) /\
  fresh srv (fst (clearForm p)).
Proof.
  intros (o & rest & Ho & Hv). split.
  - exists o, rest. cbn. now split.
  - unfold fresh. cbn. unfold value, set_selectedIndex. cbn.
    rewrite Ho. cbn. rewrite Hv. split; reflexivity.
Qed.

Lemma price_settled_step (srv : request -> outcome) (w : world page) (e : event) :
  cascading e = true -> settled srv w -> settled srv (resolve srv 0 (step w e)).
Proof.
  intros He (Hi & Hph & Hs & Hm). destruct w as [p fl]; simpl in Hi; subst fl.
  cbn [pg] in Hph, Hs, Hm.
  destruct e as [i|i|i| | | |n o]; try discriminate; cbn [step pg inflight].
  - destruct (pick i (pp_commodity p)) as [sel|] eqn:E.
    + apply onCommodityChange_settles. cbn.
      exact (placeholder_first_pick _ _ _ E Hph).
    + rewrite resolve_idle. split; [reflexivity | now repeat split].
  - destruct (pick i (pp_state p)) as [sel|] eqn:E.
    + apply onStateChange_settles; cbn; [exact Hph|].
      unfold offered. rewrite (pick_options _ _ _ E). exact Hs.
    + rewrite resolve_idle. split; [reflexivity | now repeat split].
  - destruct (pick i (pp_market p)) as [sel|] eqn:E;
      rewrite resolve_idle; (split; [reflexivity|]); (split; [exact Hph|]);
      [|now split].
    unfold fresh. cbn. split; [exact Hs|].
    unfold offered. rewrite (pick_options _ _ _ E). exact Hm.
  - unfold fire, spawn, clearForm. cbn [pg inflight snd fst]. rewrite resolve_idle.
    split; [reflexivity | exact (clearForm_settled srv p Hph)].
Qed.

Lemma price_in_turn_settled (srv : request -> outcome) (w : world page) (es : list event) :
  forallb cascading es = true -> settled srv w -> settled srv (in_turn srv w es).
Proof.
  unfold in_turn.
  apply (AsyncFacts.fold_left_invariant_on
           (fun w e => resolve srv 0 (step w e)) (settled srv) cascading).
  intros w' e He Hw. now apply price_settled_step.
Qed.

End PriceFacts.

(** ** crop_app.js *)

Module CropFacts.
Import CropApp CropSpec JsFacts.

Lemma same_form_refl (p : page) : same_form p p.
Proof. repeat split. Qed.

Lemma same_form_set_error (p p' : page) (f : field) (b : bool) :
  same_form p p' -> same_form p (set_error f b p').
Proof.
  intros (Hv & Hb & Hr & Ht & Ha). repeat split; try assumption.
  intros g. unfold set_error, with_input. cbn.
  destruct (field_eqb g f) eqn:E; [|apply Hv].
  cbn. destruct g, f; try discriminate; apply Hv.
Qed.

Lemma accepted_same_form (Number : jsstring -> number) (p p' : page) (f : field) :
  same_form p p' -> accepted Number p' f = accepted Number p f.
Proof.
  intros (Hv & _). unfold accepted, entered. now rewrite Hv.
Qed.

Lemma field_eqb_refl (f : field) : field_eqb f f = true.
Proof. destruct f; reflexivity. Qed.

(** [getNumber] returns the number of an accepted input and throws for
    any other, and writes nothing but the error mark of the input. *)
Lemma getNumber_cases (Number : jsstring -> number) (f : field) (p p0 : page) :
  same_form p p0 ->
  (exists v p1,
     accepted Number p f = Some v /\
     getNumber Number f (fst (bounds f)) (snd (bounds f)) p0 = (p1, Ok v) /\
     same_form p p1) \/
  (accepted Number p f = None /\
   exists p1 e,
     getNumber Number f (fst (bounds f)) (snd (bounds f)) p0 = (p1, Throw e) /\
     same_form p p1).
Proof.
  intros Hs. rewrite <- (accepted_same_form Number p p0 f Hs).
  pose proof (same_form_set_error p p0 f false Hs) as Hs1.
  pose proof (same_form_set_error p _ f true Hs1) as Hs2.
  unfold accepted, entered, getNumber, within, Qltb.
  assert (Hval : i_value (inputs (set_error f false p0) f) = i_value (inputs p0 f)).
  { unfold set_error, with_input. cbn. now rewrite field_eqb_refl. }
  rewrite Hval.
  destruct (is_empty (trim (i_value (inputs p0 f)))).
  { right. split; [reflexivity|]. eexists _, _. split; [reflexivity | exact Hs2]. }
  destruct (Number (trim (i_value (inputs p0 f)))) as [|v|neg].
  - right. split; [reflexivity|]. eexists _, _. split; [reflexivity | exact Hs2].
  - destruct (Qle_bool (fst (bounds f)) v); cbn [negb orb andb].
    + destruct (Qle_bool v (snd (bounds f))); cbn [negb].
      * left. eexists _, _. split; [reflexivity|]. split; [reflexivity | exact Hs1].
      * right. split; [reflexivity|]. eexists _, _. split; [reflexivity | exact Hs2].
    + right. split; [reflexivity|]. eexists _, _. split; [reflexivity | exact Hs2].
  - right. split; [reflexivity|]. eexists _, _. split; [reflexivity | exact Hs2].
Qed.

Ltac next_field Number f p Hs :=
  let v := fresh "v" in
  let p1 := fresh "p" in
  let e := fresh "e" in
  let Ha := fresh "Ha" in
  let Hg := fresh "Hg" in
  let Hs' := fresh "Hs" in
  destruct (getNumber_cases Number f p _ Hs)
    as [(v & p1 & Ha & Hg & Hs') | (Ha & p1 & e & Hg & Hs')];
  cbn [bounds fst snd] in Hg; rewrite Hg, Ha; clear Hg;
  [ | exists p1; right; exists e;
      split; [reflexivity | split; [reflexivity | exact Hs']] ].

(** [read_form] gives the payload of a form whose seven inputs are
    accepted, and throws for any other form. *)
Lemma read_form_cases (Number : jsstring -> number) (p : page) :
  exists p',
    (exists x, form_payload Number p = Some x /\
               read_form Number p = (p', Ok x) /\ same_form p p') \/
    (exists e, form_payload Number p = None /\
               read_form Number p = (p', Throw e) /\ same_form p p').
Proof.
  unfold read_form, form_payload, bind.
  pose proof (same_form_refl p) as Hs0.
  next_field Number id_N p Hs0.
  next_field Number id_P p Hs.
  next_field Number id_K p Hs1.
  next_field Number id_temperature p Hs2.
  next_field Number id_humidity p Hs3.
  next_field Number id_ph p Hs4.
  next_field Number id_rainfall p Hs5.
  exists p6. left. eexists. split; [reflexivity|]. split; [reflexivity | exact Hs6].
Qed.

Lemma form_payload_accepted (Number : jsstring -> number) (p : page) (x : payload) :
  form_payload Number p = Some x ->
  forall f, accepted Number p f = Some (get f x).
Proof.
  unfold form_payload.
  destruct (accepted Number p id_N) eqn:E1; [|discriminate].
  destruct (accepted Number p id_P) eqn:E2; [|discriminate].
  destruct (accepted Number p id_K) eqn:E3; [|discriminate].
  destruct (accepted Number p id_temperature) eqn:E4; [|discriminate].
  destruct (accepted Number p id_humidity) eqn:E5; [|discriminate].
  destruct (accepted Number p id_ph) eqn:E6; [|discriminate].
  destruct (accepted Number p id_rainfall) eqn:E7; [|discriminate].
  intros H; injection H as <-. intros []; assumption.
Qed.

Lemma accepted_entered (Number : jsstring -> number) (p : page) (f : field) (v : Q) :
  accepted Number p f = Some v -> entered Number p f = Some v /\ within f v = true.
Proof.
  unfold accepted. destruct (entered Number p f) as [u|]; [|discriminate].
  destruct (within f u) eqn:E; [|discriminate].
  intros H; injection H as <-. now split.
Qed.

(** C4.  Whatever the host's conversion of strings to numbers, an input
    that is empty, not a number or outside its bounds ends the click with
    one alert and no request; in particular a number outside its bounds
    is never accepted.  When the seven inputs are accepted the click
    issues the POST request whose body carries, input by input, exactly
    the number that was entered. *)
Theorem recommend_checks_bounds_before_request
    (Number : jsstring -> number) (p : page) :
  (forall f, accepted Number p f = None ->
     exists p' msg,
       onRecommendClick Number p = (p', Fin) /\ alerts p' = alerts p ++ [msg]) /\
  (forall f v, entered Number p f = Some v -> within f v = false ->
     accepted Number p f = None) /\
  (forall x, form_payload Number p = Some x ->
     (exists p',
        onRecommendClick Number p =
          (p', Await (recommend_request x) (onRecommendClick_resume x)) /\
        alerts p' = alerts p) /\
     rq_body (recommend_request x) =
       SoilBody (get id_N x) (get id_P x) (get id_K x) (get id_temperature x)
                (get id_humidity x) (get id_ph x) (get id_rainfall x) /\
     forall f, entered Number p f = Some (get f x)).
Proof.
  destruct (read_form_cases Number p)
    as (p' & [(x & Hx & Hr & Hs) | (e & Hx & Hr & Hs)]).
  - split; [|split].
    + intros f Hf. rewrite (form_payload_accepted Number p x Hx f) in Hf.
      discriminate.
    + intros f v He Hw. unfold accepted. now rewrite He, Hw.
    + intros y Hy. rewrite Hx in Hy. injection Hy as <-. split; [|split].
      * exists p'. unfold onRecommendClick. rewrite Hr. split; [reflexivity|].
        apply Hs.
      * reflexivity.
      * intros f. apply accepted_entered, (form_payload_accepted Number p x Hx).
  - split; [|split].
    + intros f _. unfold onRecommendClick. rewrite Hr.
      eexists _, _. split; [reflexivity|].
      unfold recommend_catch; cbn. f_equal. apply Hs.
    + intros f v He Hw. unfold accepted. now rewrite He, Hw.
    + intros y Hy. congruence.
Qed.

Lemma recommend_checks_bounds_before_request_witness :
  (exists p',
     onRecommendClick Demo.decimal (Demo.soil_form (lit "150")) =
       (p', Await (recommend_request Demo.soil_payload)
                  (onRecommendClick_resume Demo.soil_payload))) /\
  (exists p' msg,
     onRecommendClick Demo.decimal (Demo.soil_form (lit "250")) = (p', Fin) /\
     alerts p' = [msg]).
Proof.
  split.
  - destruct (recommend_checks_bounds_before_request
                Demo.decimal (Demo.soil_form (lit "150"))) as (_ & _ & H).
    destruct (H Demo.soil_payload eq_refl) as ((p' & Hp & _) & _).
    exists p'. exact Hp.
  - destruct (recommend_checks_bounds_before_request
                Demo.decimal (Demo.soil_form (lit "250"))) as (H & _).
    exact (H id_N eq_refl).
Defined.

(** With 250 typed for N the alert names the input and its bounds, and the
    input is marked. *)
Lemma N_250_is_rejected :
  onRecommendClick Demo.decimal (Demo.soil_form (lit "250")) =
    (alert [T (lit "N"); T (lit " should be between "); V (Num 0); T (lit " and ");
            V (Num 200); T (lit ".")]
       (set_error id_N true (set_error id_N false (Demo.soil_form (lit "250")))),
     Fin).
Proof. reflexivity. Qed.

(** *** The recommend button *)

Lemma crop_quiet_bind {A B : Type} (m : M A) (f : A -> M B) :
  quiet m -> (forall a, quiet (f a)) -> quiet (bind m f).
Proof.
  intros Hm Hf p. unfold bind. specialize (Hm p).
  destruct (m p) as [p' [a|e]]; cbn [fst] in *; [|exact Hm].
  now rewrite Hf.
Qed.

Lemma crop_quiet_lift {A : Type} (r : result A) : quiet (lift r).
Proof. intros p; reflexivity. Qed.

Lemma crop_quiet_ret {A : Type} (a : A) : quiet (ret a).
Proof. intros p; reflexivity. Qed.

Lemma crop_quiet_throw {A : Type} (e : exn) : quiet (@throw A e).
Proof. intros p; reflexivity. Qed.

Lemma crop_quiet_modify (f : page -> page) :
  (forall p, cr_recoBtn (f p) = cr_recoBtn p) -> quiet (modify f).
Proof. intros H p; apply H. Qed.

Ltac crop_quiet_step :=
  first
    [ apply crop_quiet_lift | apply crop_quiet_ret | apply crop_quiet_throw
    | apply crop_quiet_modify; intros; reflexivity
    | apply crop_quiet_bind; [|intros] ].

Lemma crop_quiet_renderResult (data : parsed) (x : payload) : quiet (renderResult data x).
Proof.
  unfold renderResult. repeat crop_quiet_step.
  destruct (alternatives a) as [[|alt l]|]; repeat crop_quiet_step.
Qed.

Lemma crop_quiet_recommend_try (x : payload) (o : outcome) : quiet (recommend_try x o).
Proof.
  unfold recommend_try.
  repeat first [apply crop_quiet_renderResult | crop_quiet_step].
  destruct (negb (ok a)); repeat crop_quiet_step.
Qed.

Lemma cr_recoBtn_recommend_catch (r : page * result unit) :
  cr_recoBtn (recommend_catch r) = cr_recoBtn (fst r).
Proof. unfold recommend_catch. destruct (snd r); reflexivity. Qed.

(** Neither [onRecommendClick] nor what follows it touches the disabled
    flag of the recommend button. *)
Lemma onRecommendClick_keeps_button (Number : jsstring -> number) :
  handler_keeps cr_recoBtn (onRecommendClick Number).
Proof.
  intros p. unfold onRecommendClick.
  destruct (read_form_cases Number p)
    as (p' & [(x & _ & Hr & Hs) | (e & _ & Hr & Hs)]); rewrite Hr; cbn [fst snd].
  - split; [apply Hs|]. apply keeps_await.
    + intros o q. unfold onRecommendClick_resume. cbn [fst].
      rewrite cr_recoBtn_recommend_catch. apply crop_quiet_recommend_try.
    + intros o q. apply keeps_fin.
  - split; [|apply keeps_fin].
    rewrite cr_recoBtn_recommend_catch. apply Hs.
Qed.

(** C5 as stated fails on the page of crop_app.js: while the request of a
    click is in flight the recommend button is still enabled, and a
    second click puts a second request in flight. *)
Lemma recommend_button_enabled_during_call :
  map fst (inflight (fire (onRecommendClick Demo.decimal)
                          (mkWorld (Demo.soil_form (lit "150")) []))) =
    [recommend_request Demo.soil_payload] /\
  cr_recoBtn (pg (fire (onRecommendClick Demo.decimal)
                       (mkWorld (Demo.soil_form (lit "150")) []))) = false /\
  map fst (inflight (fire (onRecommendClick Demo.decimal)
                       (fire (onRecommendClick Demo.decimal)
                          (mkWorld (Demo.soil_form (lit "150")) [])))) =
    [recommend_request Demo.soil_payload; recommend_request Demo.soil_payload].
Proof. repeat split. Qed.

End CropFacts.

(** ** The pages together *)

Module Site.

(** C1, amended.  The scripts keep no record of which selection a call
    was made for: when the answer of a call arrives, the select of its
    level shows what that answer lists, whatever the selection is by
    then.  On the select-based page, where the names are written as
    markup, this is so for names that are plain text, and each option
    takes its name with the white space stripped and collapsed as its
    value; on the page of price_app.js the options are the names as they
    are.  When every call is answered before the next event of the
    cascading controls, the options on display correspond to the latest
    selection after every event, on both pages; a selection that has no
    URL encoding is shown no option, since no call is made for it. *)
Theorem options_fresh_when_calls_end_in_turn {browser : Browser}
    (srv : request -> outcome) :
  (forall o p,
     (SelectSpec.plain_names (listed states o) ->
      offered (SelectPage.stateSel (fst (SelectPage.commodity_change_resume o p))) =
        map stripAndCollapse (listed states o)) /\
     (SelectSpec.plain_names (listed markets o) ->
      offered (SelectPage.marketSel (fst (SelectPage.state_change_resume o p))) =
        map stripAndCollapse (listed markets o))) /\
  (forall o p,
     offered (PriceApp.pp_state (fst (PriceApp.onCommodityChange_resume o p))) =
       listed states o /\
     offered (PriceApp.pp_market (fst (PriceApp.onStateChange_resume o p))) =
       listed markets o) /\
  (forall w es,
     SelectSpec.plain_server srv ->
     forallb SelectSpec.cascading es = true ->
     SelectSpec.settled srv w ->
     SelectSpec.settled srv (SelectSpec.in_turn srv w es)) /\
  (forall w es,
     forallb PriceSpec.cascading es = true ->
     PriceSpec.settled srv w ->
     PriceSpec.settled srv (PriceSpec.in_turn srv w es)).
Proof.
  split; [|split; [|split]].
  - apply SelectFacts.answer_replaces_options.
  - apply PriceFacts.price_answer_replaces_options.
  - intros w es Hsrv. now apply SelectFacts.in_turn_settled.
  - apply PriceFacts.price_in_turn_settled.
Qed.

Lemma options_fresh_when_calls_end_in_turn_witness :
  offered
    (SelectPage.stateSel
       (fst (SelectPage.commodity_change_resume (browser := Demo.browser)
               (Demo.ok_json (Demo.with_states [lit " Goa "; lit "Tamil  Nadu"]))
               Demo.select_page))) =
    [lit "Goa"; lit "Tamil Nadu"] /\
  SelectSpec.settled Demo.srv
    (SelectSpec.in_turn (browser := Demo.browser) Demo.srv Demo.select_world
       [SelectPage.PickCommodity 1; SelectPage.PickState 1;
        SelectPage.PickCommodity 2]) /\
  PriceSpec.settled Demo.srv
    (PriceSpec.in_turn Demo.srv Demo.price_world
       [PriceApp.PickCommodity 1; PriceApp.PickState 1; PriceApp.ClickClear]).
Proof.
  destruct (options_fresh_when_calls_end_in_turn (browser := Demo.browser) Demo.srv)
    as (Ho & _ & Hs & Hp).
  split; [|split].
  - apply (proj1 (Ho (Demo.ok_json (Demo.with_states [lit " Goa "; lit "Tamil  Nadu"]))
                     Demo.select_page)).
    repeat constructor.
  - apply Hs; [exact SelectFacts.demo_server_plain | reflexivity|].
    split; [reflexivity|]. split; reflexivity.
  - apply Hp; [reflexivity|]. split; [reflexivity|]. split.
    + eexists _, _. split; reflexivity.
    + split; reflexivity.
Defined.

(** C5, amended.  On the select-based page the predict button is
    disabled exactly while a call of its listener is in flight, whatever
    the events and however the calls end: at most one such call is in
    flight, and the button is enabled again once none is.  Step by step:
    a click that issues the request disables the button, the listener
    leaves it disabled while it goes on to the history call, and every
    end of the listener, after either call and whether or not something
    was thrown, enables it.  The listeners of crop_app.js and
    price_app.js never write the disabled flag of the button that
    triggers them. *)
Theorem predict_button_guards_its_call {browser : Browser} :
  (forall w0 es,
     SelectPage.predictBtn (pg w0) = false -> inflight w0 = [] ->
     SelectSpec.prediction_calls (SelectPage.run w0 es) <= 1 /\
     (SelectPage.predictBtn (pg (SelectPage.run w0 es)) = true <->
      SelectSpec.prediction_calls (SelectPage.run w0 es) = 1)) /\
  (forall p,
     match snd (SelectPage.predictBtn_click p) with
     | Await _ _ => SelectPage.predictBtn (fst (SelectPage.predictBtn_click p)) = true
     | Fin =>
         SelectPage.predictBtn (fst (SelectPage.predictBtn_click p)) =
           SelectPage.predictBtn p
     end) /\
  (forall q o p,
     match snd (SelectPage.predict_resume q o p) with
     | Await _ _ =>
         SelectPage.predictBtn (fst (SelectPage.predict_resume q o p)) =
           SelectPage.predictBtn p
     | Fin => SelectPage.predictBtn (fst (SelectPage.predict_resume q o p)) = false
     end) /\
  (forall q resp o p,
     snd (SelectPage.predict_resume_history q resp o p) = Fin /\
     SelectPage.predictBtn (fst (SelectPage.predict_resume_history q resp o p)) = false) /\
  (forall Number, handler_keeps CropApp.cr_recoBtn (CropApp.onRecommendClick Number)) /\
  handler_keeps PriceApp.pp_predictBtn PriceApp.onPredictClick.
Proof.
  split; [|split; [|split; [|split; [|split]]]].
  - apply SelectFacts.predictBtn_guards_its_call.
  - intros p.
    destruct (SelectFacts.predictBtn_click_proc p) as [[Hb E] | (q & Hb & E)];
      rewrite E; exact Hb.
  - intros q o p.
    destruct (SelectFacts.predict_resume_cases q o p)
      as [(resp & p' & E & Hb & _) | (e & E & _)]; rewrite E; cbn [fst snd].
    + exact Hb.
    + reflexivity.
  - intros q resp o p. split; reflexivity.
  - apply CropFacts.onRecommendClick_keeps_button.
  - apply PriceFacts.onPredictClick_keeps_button.
Qed.

Lemma predict_button_guards_its_call_witness :
  SelectSpec.prediction_calls
    (SelectPage.run (browser := Demo.browser) (mkWorld (Demo.chosen Demo.day4) [])
       [SelectPage.ClickPredict; SelectPage.ClickPredict;
        SelectPage.Settle 0 (Demo.ok_json (Demo.prediction 3))]) <= 1.
Proof.
  destruct (predict_button_guards_its_call (browser := Demo.browser)) as (H & _).
  exact (proj1 (H (mkWorld (Demo.chosen Demo.day4) []) _ eq_refl eq_refl)).
Defined.

(** C6, amended.  On the select-based page, whenever the prediction call
    succeeds and the history lookup fails while the chart exists, nothing
    is thrown out of [drawSeries], the chart is left with one label and
    one point, the predicted value, the note under the chart says that
    the history is not available, and no toast is raised.  On the page of
    price_app.js a failed history lookup raises an error toast and
    leaves the chart as it is. *)
Theorem history_failure_degrades_on_select_page :
  (forall q resp o1 o2 p1 p2,
     SelectPage.apiPost o1 = Ok (JsonObj resp) ->
     SelectSpec.history_unavailable o2 ->
     SelectPage.chart p2 <> None ->
     (exists p1',
        SelectPage.predict_resume q o1 p1 =
          (p1', Await (SelectPage.seriesEndpoint q)
                      (SelectPage.predict_resume_history q resp)) /\
        SelectPage.toaster p1' = SelectPage.toaster p1) /\
     snd (SelectPage.drawSeries q resp o2 p2) = Ok tt /\
     exists p2',
       SelectPage.predict_resume_history q resp o2 p2 = (p2', Fin) /\
       SelectPage.chart p2' =
         Some (SelectPage.mkChart [SelectPage.date_or_today q p2] []
                                  [predicted_next_price resp]) /\
       SelectPage.chartNote p2' =
         plain "History endpoint not available; showing predicted point only." /\
       SelectPage.toaster p2' = SelectPage.toaster p2 /\
       SelectPage.predictBtn p2' = false) /\
  (forall plotOnly o p,
     PriceSpec.history_fails o ->
     PriceApp.loadHistory plotOnly o p =
       (PriceApp.showToast
          (plain "Could not load history. Maybe DB has no data for this context.")
          true p,
        Ok tt)).
Proof.
  split.
  - intros. now apply SelectFacts.predict_history_degraded.
  - intros. now apply PriceFacts.loadHistory_failure.
Qed.

Lemma history_failure_degrades_on_select_page_witness :
  exists p2',
    SelectPage.predict_resume_history (Demo.chosen_query (Some Demo.day4))
      (Demo.prediction 0) Demo.not_found Demo.select_page = (p2', Fin) /\
    SelectPage.chart p2' = Some (SelectPage.mkChart [Demo.day4] [] [Num 13]) /\
    SelectPage.toaster p2' = [].
Proof.
  destruct history_failure_degrades_on_select_page as (H & _).
  destruct (H (Demo.chosen_query (Some Demo.day4)) (Demo.prediction 0)
              (Demo.ok_json (Demo.prediction 0)) Demo.not_found
              Demo.select_page Demo.select_page eq_refl)
    as (_ & _ & p2' & E & Hc & _ & Ht & _).
  - left. reflexivity.
  - discriminate.
  - exists p2'. split; [exact E|]. split; [exact Hc | exact Ht].
Defined.

(** C7, amended.  On the page of price_app.js a call for the states or
    the markets that succeeds with zero results puts the select under
    the placeholder "No states found" or "No markets found", which is not
    the placeholder of a failed call, and raises a toast.  On the
    select-based page such a call leaves the select disabled under its
    ordinary placeholder and raises nothing. *)
Theorem empty_results_have_their_own_state_on_price_page {browser : Browser}
    (o : outcome) :
  (forall p,
     (empty_success states o ->
      PriceApp.onCommodityChange_resume o p =
        (PriceApp.showToast (plain "No states found for this commodity in DB.") true
           (PriceApp.with_state
              (set_innerHTML [placeholder PriceApp.no_states_found]
                             (PriceApp.pp_state p)) p),
         Fin)) /\
     (empty_success markets o ->
      PriceApp.onStateChange_resume o p =
        (PriceApp.showToast (plain "No markets found for this state.") true
           (PriceApp.with_market
              (set_innerHTML [placeholder PriceApp.no_markets_found]
                             (PriceApp.pp_market p)) p),
         Fin))) /\
  PriceApp.no_states_found <> PriceApp.error_loading_states /\
  PriceApp.no_markets_found <> PriceApp.error_loading_markets /\
  (forall p,
     (empty_success states o ->
      SelectPage.commodity_change_resume o p =
        (SelectPage.with_stateSel
           (mkSelect true [placeholder SelectPage.select_a_state] (Some 0)) p,
         Fin)) /\
     (empty_success markets o ->
      SelectPage.state_change_resume o p =
        (SelectPage.with_marketSel
           (mkSelect true [placeholder SelectPage.select_a_market] (Some 0)) p,
         Fin))).
Proof.
  split; [|split; [|split]].
  - intros p.
    destruct (PriceFacts.empty_results_on_price_page o p) as (H1 & H2 & _).
    now split.
  - discriminate.
  - discriminate.
  - intros p. apply SelectFacts.empty_results_on_select_page.
Qed.

Lemma empty_results_have_their_own_state_on_price_page_witness :
  PriceApp.toasts
    (fst (PriceApp.onCommodityChange_resume (Demo.ok_json (Demo.with_states []))
            Demo.price_page)) =
    [(plain "No states found for this commodity in DB.", true)] /\
  SelectPage.toaster
    (fst (SelectPage.commodity_change_resume (browser := Demo.browser)
        (Demo.ok_json (Demo.with_states []))
            Demo.select_page)) = [].
Proof.
  destruct (empty_results_have_their_own_state_on_price_page (browser := Demo.browser)
              (Demo.ok_json (Demo.with_states []))) as (Hp & _ & _ & Hs).
  assert (He : empty_success states (Demo.ok_json (Demo.with_states [])))
    by (eexists _, _; repeat split).
  split.
  - rewrite (proj1 (Hp Demo.price_page) He). reflexivity.
  - rewrite (proj1 (Hs Demo.select_page) He). reflexivity.
Defined.

(** C8.  Whatever the page was, choosing the empty value of the commodity
    select, or pressing clear, leaves the state select and the market
    select disabled with no selected value, on both pages. *)
Theorem clearing_commodity_resets_state_and_market {browser : Browser} :
  (forall p : SelectPage.page,
     is_empty (trim (value (SelectPage.commodity p))) = true ->
     snd (SelectPage.commodity_change p) = Fin /\
     cleared (SelectPage.stateSel (fst (SelectPage.commodity_change p))) /\
     cleared (SelectPage.marketSel (fst (SelectPage.commodity_change p)))) /\
  (forall p : SelectPage.page,
     snd (SelectPage.clearBtn_click p) = Fin /\
     value (SelectPage.commodity (fst (SelectPage.clearBtn_click p))) = [] /\
     cleared (SelectPage.stateSel (fst (SelectPage.clearBtn_click p))) /\
     cleared (SelectPage.marketSel (fst (SelectPage.clearBtn_click p)))) /\
  (forall p : PriceApp.page,
     is_empty (value (PriceApp.pp_commodity p)) = true ->
     snd (PriceApp.onCommodityChange p) = Fin /\
     cleared (PriceApp.pp_state (fst (PriceApp.onCommodityChange p))) /\
     cleared (PriceApp.pp_market (fst (PriceApp.onCommodityChange p)))) /\
  (forall p : PriceApp.page,
     snd (PriceApp.clearForm p) = Fin /\
     cleared (PriceApp.pp_state (fst (PriceApp.clearForm p))) /\
     cleared (PriceApp.pp_market (fst (PriceApp.clearForm p)))).
Proof.
  split; [|split; [|split]].
  - apply SelectFacts.commodity_change_cleared.
  - apply SelectFacts.clearBtn_click_cleared.
  - apply PriceFacts.onCommodityChange_cleared.
  - apply PriceFacts.clearForm_cleared.
Qed.

Lemma clearing_commodity_resets_state_and_market_witness :
  cleared (SelectPage.stateSel
             (pg (SelectPage.run (browser := Demo.browser)
                 (mkWorld (Demo.chosen Demo.day4) [])
                    [SelectPage.PickCommodity 0]))) /\
  cleared (SelectPage.marketSel
             (pg (SelectPage.run (browser := Demo.browser)
                 (mkWorld (Demo.chosen Demo.day4) [])
                    [SelectPage.PickCommodity 0]))) /\
  cleared (PriceApp.pp_state
             (pg (PriceApp.run (mkWorld Demo.price_chosen [])
                    [PriceApp.PickCommodity 0]))) /\
  cleared (PriceApp.pp_market
             (pg (PriceApp.run (mkWorld Demo.price_chosen [])
                    [PriceApp.PickCommodity 0]))).
Proof.
  destruct (clearing_commodity_resets_state_and_market (browser := Demo.browser))
    as (Hs & _ & Hp & _).
  destruct (Hs (SelectPage.with_commodity
                  (mkSelect false (options Demo.commodities) (Some 0))
                  (Demo.chosen Demo.day4)) eq_refl) as (_ & H1 & H2).
  destruct (Hp (PriceApp.with_commodity
                  (mkSelect false (options Demo.price_commodities) (Some 0))
                  Demo.price_chosen) eq_refl) as (_ & H3 & H4).
  repeat split; first [apply H1 | apply H2 | apply H3 | apply H4].
Defined.

End Site.

(** ** The helpers that call the API *)

Module HelperFacts.

(** X1.  The four helpers reject a call that was rejected and throw an
    error on a status that is no success.  On a success they all return
    the parsed body when there is one; when the body is not JSON, [apiGet],
    [fetchJSON] and the [apiPost] of script.js throw, and the [apiPost] of
    the select-based page alone returns an object. *)
Theorem helpers_differ_on_unparsable_success_only (o : outcome) :
  match o with
  | Rejected =>
      SelectPage.apiGet o = Throw (Host FetchFailed) /\
      PriceApp.fetchJSON o = Throw (Host FetchFailed) /\
      Script.apiPost o = Throw (Host FetchFailed) /\
      SelectPage.apiPost o = Throw (Host FetchFailed)
  | Responded r =>
      if ok r
      then match body_json r with
           | NotJson =>
               SelectPage.apiGet o = Throw (Host SyntaxError) /\
               PriceApp.fetchJSON o = Throw (Host SyntaxError) /\
               Script.apiPost o = Throw (Host SyntaxError) /\
               SelectPage.apiPost o = Ok (JsonObj empty_obj)
           | j =>
               SelectPage.apiGet o = Ok j /\
               PriceApp.fetchJSON o = Ok j /\
               Script.apiPost o = Ok j /\
               SelectPage.apiPost o = Ok j
           end
      else
        SelectPage.apiGet o =
          Throw (Error [Code (status r); T (lit " "); T (statusText r)]) /\
        Script.apiPost o = Throw (Error [T (lit "API error: "); Code (status r)]) /\
        (exists m, PriceApp.fetchJSON o = Throw (Error m)) /\
        (exists m, SelectPage.apiPost o = Throw (Error m))
  end.
Proof.
  destruct o as [|r]; [repeat split|].
  unfold SelectPage.apiGet, PriceApp.fetchJSON, Script.apiPost, SelectPage.apiPost,
    json.
  destruct (ok r); cbn [negb].
  - destruct (body_json r); repeat split.
  - repeat split; eexists; reflexivity.
Qed.

End HelperFacts.

(** ** The select-based page, from a click to its end *)

Module SelectFlow.
Import SelectPage SelectSpec JsFacts AsyncFacts SelectFacts.

Lemma first_unmet_None (p : page) :
  first_unmet p = None ->
  met p NeedCommodity = true /\ met p NeedState = true /\
  met p NeedMarket = true /\ met p NeedDate = true.
Proof.
  unfold first_unmet, requirements, find.
  destruct (met p NeedCommodity), (met p NeedState), (met p NeedMarket),
           (met p NeedDate); cbn [negb]; intros H; try discriminate H;
    repeat split.
Qed.

Lemma first_unmet_Some (p : page) (r : requirement) :
  first_unmet p = Some r -> validate p = (toast (report r) true p, None).
Proof.
  rewrite validate_cases. unfold first_unmet, requirements, find.
  destruct (met p NeedCommodity), (met p NeedState), (met p NeedMarket),
           (met p NeedDate); cbn [negb]; intros H; try discriminate H;
    injection H as <-; reflexivity.
Qed.

(** A click on predict with a complete query: what it writes and what it
    sends. *)
Lemma predictBtn_click_valid (p : page) :
  first_unmet p = None ->
  predictBtn_click p =
    (resetChart
       (with_chartNote [] (blank_pills (with_resBox true [] (with_predictBtn true p)))),
     Await (predict_request (normalized p)) (predict_resume (normalized p))).
Proof.
  intros H. destruct (first_unmet_None p H) as (Hc & Hs & Hm & Hd).
  unfold predictBtn_click. rewrite validate_cases, Hc, Hs, Hm, Hd. reflexivity.
Qed.

Lemma predictBtn_click_unmet (p : page) (r : requirement) :
  first_unmet p = Some r ->
  predictBtn_click p = (toast (report r) true p, Fin).
Proof.
  intros H. unfold predictBtn_click. now rewrite (first_unmet_Some p r H).
Qed.

Lemma blank_after_click (p : page) :
  blank (resetChart
           (with_chartNote [] (blank_pills (with_resBox true [] (with_predictBtn true p))))).
Proof.
  unfold blank, resetChart. cbn.
  destruct (chart p) eqn:E; cbn; rewrite ?E; repeat split.
Qed.

Lemma predict_resume_error (q : query) (o : outcome) (p : page) (e : exn) :
  prediction_error o = Some e ->
  predict_resume q o p = (predict_end (p, Throw e), Fin).
Proof.
  unfold prediction_error, predict_resume, bind, lift, show_prediction, bind, lift,
    obj.
  destruct (apiPost o) as [[| |resp]|e'] eqn:E; intros H; try discriminate H;
    injection H as <-; reflexivity.
Qed.

(** X2.  A click on predict with a complete query empties the result
    area before it sends the request, and when the prediction call then
    fails (a rejected call, a status that is no success, a null body) the
    page ends with the result area still empty, one toast that carries
    the message of the error, the note "Chart not updated." and the
    button enabled. *)
Theorem failed_prediction_leaves_result_area_empty {browser : Browser}
    (p : page) (o : outcome)
    (e : exn) :
  first_unmet p = None -> predictBtn p = false -> prediction_error o = Some e ->
  (map fst (inflight (run (mkWorld p []) [ClickPredict])) =
     [predict_request (normalized p)] /\
   blank (pg (run (mkWorld p []) [ClickPredict])) /\
   predictBtn (pg (run (mkWorld p []) [ClickPredict])) = true) /\
  (inflight (run (mkWorld p []) [ClickPredict; Settle 0 o]) = [] /\
   blank (pg (run (mkWorld p []) [ClickPredict; Settle 0 o])) /\
   predictBtn (pg (run (mkWorld p []) [ClickPredict; Settle 0 o])) = false /\
   toaster (pg (run (mkWorld p []) [ClickPredict; Settle 0 o])) =
     toaster p ++ [(T (lit "Prediction failed: ") :: message e, true)] /\
   chartNote (pg (run (mkWorld p []) [ClickPredict; Settle 0 o])) =
     plain "Chart not updated.").
Proof.
  intros Hq Hb He.
  unfold run. cbn [fold_left step pg]. rewrite Hb.
  unfold fire. cbn [pg inflight]. rewrite (predictBtn_click_valid p Hq).
  unfold spawn. cbn [fst snd app]. split.
  - split; [reflexivity|]. split; [apply blank_after_click|].
    unfold resetChart. cbn. destruct (chart p); reflexivity.
  - unfold deliver. cbn [inflight nth_error pg].
    rewrite (predict_resume_error _ o _ e He). unfold spawn. cbn [fst snd remove_nth pg].
    unfold predict_end, predict_finally, predict_catch, blank, resetChart. cbn.
    destruct (chart p) eqn:E; cbn; rewrite ?E; repeat split.
Qed.

Lemma failed_prediction_leaves_result_area_empty_witness :
  toaster (pg (run (browser := Demo.browser) (mkWorld (Demo.chosen Demo.day4) [])
                 [ClickPredict; Settle 0 Demo.not_found])) =
    [(T (lit "Prediction failed: ") :: plain "Request failed", true)] /\
  blank (pg (run (browser := Demo.browser) (mkWorld (Demo.chosen Demo.day4) [])
               [ClickPredict; Settle 0 Demo.not_found])).
Proof.
  destruct (failed_prediction_leaves_result_area_empty (browser := Demo.browser)
              (Demo.chosen Demo.day4) Demo.not_found (Error (plain "Request failed"))
              eq_refl eq_refl eq_refl) as (_ & _ & Hblank & _ & Ht & _).
  split; [exact Ht | exact Hblank].
Defined.

Lemma drawSeries_without_chart (q : query) (resp : jsobj) (o : outcome) (p : page) :
  chart p = None -> drawSeries q resp o p = (p, Throw (Host TypeError)).
Proof.
  intros H.
  assert (Hc : drawSeries_catch q resp p = (p, Throw (Host TypeError))).
  { unfold drawSeries_catch, bind, gets, the_chart. now rewrite H. }
  unfold drawSeries, try_catch, drawSeries_try, bind, lift, gets, the_chart,
    throw, ret, some_or_TypeError, json, obj.
  destruct o as [|r]; [exact Hc|].
  destruct (ok r); cbn [negb]; [|exact Hc].
  destruct (body_json r) as [| |b]; try exact Hc.
  destruct (dates b); [|exact Hc].
  destruct (prices b); [|exact Hc].
  cbn. rewrite H. exact Hc.
Qed.

(** X3.  While the chart does not exist, [drawSeries] throws out of its
    own [catch] whatever the history call gave, so a prediction that
    succeeded ends with the toast "Prediction failed" and the note "Chart
    not updated.", with the predicted price left in the result box and
    the button enabled. *)
Theorem prediction_without_chart_ends_in_failure_toast (q : query) (resp : jsobj)
    (o : outcome) (p : page) :
  chart p = None ->
  predict_resume_history q resp o p =
    (with_predictBtn false
       (with_chartNote (plain "Chart not updated.")
          (toast [T (lit "Prediction failed: "); NativeMessage TypeError] true p)),
     Fin).
Proof.
  intros H. unfold predict_resume_history.
  rewrite (drawSeries_without_chart q resp o p H). reflexivity.
Qed.

Lemma prediction_without_chart_ends_in_failure_toast_witness :
  toaster (fst (predict_resume_history (Demo.chosen_query (Some Demo.day4))
                  (Demo.prediction 3) Demo.history3 Demo.chartless)) =
    [([T (lit "Prediction failed: "); NativeMessage TypeError], true)].
Proof.
  rewrite (prediction_without_chart_ends_in_failure_toast
             (Demo.chosen_query (Some Demo.day4)) (Demo.prediction 3)
             Demo.history3 Demo.chartless eq_refl).
  reflexivity.
Defined.

(** X4.  The two requests of one click carry the query validated at the
    click: the prediction request has it as its body, and the history
    request that follows a successful prediction names the same
    commodity, state, market and date, whatever the page has become while
    the prediction call was in flight. *)
Theorem both_requests_carry_the_clicked_query (p : page) :
  first_unmet p = None ->
  (exists p1,
     predictBtn_click p =
       (p1, Await (predict_request (normalized p)) (predict_resume (normalized p)))) /\
  rq_body (predict_request (normalized p)) =
    ContextBody (q_commodity (normalized p)) (q_state (normalized p))
                (q_market (normalized p)) (q_date (normalized p)) /\
  (forall o p',
     match snd (predict_resume (normalized p) o p') with
     | Await rq _ =>
         rq_path rq = lit "/series_by_context" /\
         rq_params rq =
           [(lit "commodity", q_commodity (normalized p));
            (lit "state", q_state (normalized p));
            (lit "market", q_market (normalized p))]
           ++ match q_date (normalized p) with
              | Some d => [(lit "date", d)]
              | None => []
              end
     | Fin => True
     end).
Proof.
  intros H. split; [|split].
  - rewrite (predictBtn_click_valid p H). eexists; reflexivity.
  - reflexivity.
  - intros o p'.
    destruct (predict_resume_cases (normalized p) o p')
      as [(resp & p1 & E & _) | (e & E & _)]; rewrite E; cbn [snd].
    + split; reflexivity.
    + exact I.
Qed.

Lemma both_requests_carry_the_clicked_query_witness :
  match snd (predict_resume (Demo.chosen_query (Some Demo.day4))
               (Demo.ok_json (Demo.prediction 3))
               (fst (predictBtn_click (Demo.chosen Demo.day4)))) with
  | Await rq _ =>
      rq_params rq =
        [(lit "commodity", Demo.Rice); (lit "state", Demo.Punjab);
         (lit "market", Demo.Ludhiana); (lit "date", Demo.day4)]
  | Fin => True
  end.
Proof.
  destruct (both_requests_carry_the_clicked_query (Demo.chosen Demo.day4) eq_refl)
    as (_ & _ & H).
  specialize (H (Demo.ok_json (Demo.prediction 3))
                (fst (predictBtn_click (Demo.chosen Demo.day4)))).
  change (normalized (Demo.chosen Demo.day4))
    with (Demo.chosen_query (Some Demo.day4)) in H.
  destruct (snd (predict_resume (Demo.chosen_query (Some Demo.day4))
                   (Demo.ok_json (Demo.prediction 3))
                   (fst (predictBtn_click (Demo.chosen Demo.day4)))));
    [exact I|].
  exact (proj2 H).
Defined.

(** After a click on clear the commodity select has no value. *)
Lemma clearBtn_click_unmet (p : page) :
  first_unmet (fst (clearBtn_click p)) = Some NeedCommodity.
Proof.
  unfold first_unmet, requirements, find, met, given.
  assert (H : value (commodity (fst (clearBtn_click p))) = [])
    by apply clearBtn_click_cleared.
  rewrite H. reflexivity.
Qed.

Lemma predict_after_clear (p : page) :
  predictBtn_click (fst (clearBtn_click p)) =
    (toast (plain "Select a commodity.") true (fst (clearBtn_click p)), Fin).
Proof. apply (predictBtn_click_unmet _ NeedCommodity), clearBtn_click_unmet. Qed.

(** A dependent select that was just rewritten has no value, so the
    query is not complete. *)
Lemma first_unmet_without_state (p : page) :
  value (stateSel p) = [] ->
  first_unmet p = Some NeedCommodity \/ first_unmet p = Some NeedState.
Proof.
  intros H. unfold first_unmet, requirements, find.
  assert (Hs : met p NeedState = false) by (unfold met, given; now rewrite H).
  rewrite Hs. destruct (met p NeedCommodity); cbn [negb]; auto.
Qed.

Lemma first_unmet_without_market (p : page) :
  value (marketSel p) = [] -> exists r, first_unmet p = Some r.
Proof.
  intros H. unfold first_unmet, requirements, find.
  assert (Hm : met p NeedMarket = false) by (unfold met, given; now rewrite H).
  rewrite Hm.
  destruct (met p NeedCommodity), (met p NeedState); cbn [negb]; eexists; reflexivity.
Qed.

Lemma value_after_commodity_change {browser : Browser} (p : page) :
  value (stateSel (fst (commodity_change p))) = [].
Proof.
  unfold commodity_change, encodeURIComponent.
  destruct (is_empty (trim (value (commodity p)))); [reflexivity|].
  destruct (isWellFormed (trim (value (commodity p)))); reflexivity.
Qed.

Lemma value_after_state_change {browser : Browser} (p : page) :
  value (marketSel (fst (state_change p))) = [].
Proof.
  unfold state_change, encodeURIComponent.
  destruct (is_empty (trim (value (commodity p))) || is_empty (trim (value (stateSel p))));
    [reflexivity|].
  destruct (isWellFormed (trim (value (commodity p)))); [|reflexivity].
  destruct (isWellFormed (trim (value (stateSel p)))); reflexivity.
Qed.

(** On the page as a change handler leaves it a click on predict sends
    nothing: it raises one toast and ends. *)
Lemma predict_while_loading {browser : Browser} (p : page) :
  (exists r,
     predictBtn_click (fst (commodity_change p)) =
       (toast (report r) true (fst (commodity_change p)), Fin)) /\
  (exists r,
     predictBtn_click (fst (state_change p)) =
       (toast (report r) true (fst (state_change p)), Fin)).
Proof.
  split.
  - destruct (first_unmet_without_state _ (value_after_commodity_change p)) as [H | H];
      eexists; apply predictBtn_click_unmet, H.
  - destruct (first_unmet_without_market _ (value_after_state_change p)) as [r H].
    exists r. apply predictBtn_click_unmet, H.
Qed.

(** Once the answer has arrived the select is enabled exactly when the
    answer lists something, and it offers what the answer lists. *)
Lemma select_enabled_iff_listed {browser : Browser} (o : outcome) (p : page) :
  (disabled (stateSel (fst (commodity_change_resume o p))) = false <->
   listed states o <> []) /\
  (disabled (marketSel (fst (state_change_resume o p))) = false <->
   listed markets o <> []).
Proof.
  unfold commodity_change_resume, state_change_resume.
  destruct (apiGet_listed states o) as [(r1 & E1 & L1) | (e1 & E1 & L1)];
    destruct (apiGet_listed markets o) as [(r2 & E2 & L2) | (e2 & E2 & L2)];
    rewrite E1 in *; try discriminate; rewrite L1, L2; cbn [fst].
  - injection E2 as <-. unfold fillSelect. cbn.
    destruct (or_empty (states r1)), (or_empty (markets r1)); cbn;
      split; split; congruence.
  - cbn. split; split; congruence.
Qed.

Lemma last_snoc {A : Type} (l : list A) (x d : A) : last (l ++ [x]) d = x.
Proof. apply last_last. Qed.

Lemma step_click {browser : Browser} (p : page) :
  first_unmet p = None -> predictBtn p = false ->
  step (mkWorld p []) ClickPredict =
    mkWorld (fst (predictBtn_click p))
            [(predict_request (normalized p), predict_resume (normalized p))].
Proof.
  intros Hq Hb. cbn [step pg]. rewrite Hb. unfold fire. cbn [pg inflight].
  rewrite (predictBtn_click_valid p Hq). reflexivity.
Qed.

Lemma step_settle_single {browser : Browser} (p : page) (rq : request)
    (k : outcome -> page -> page * proc page) (o : outcome) :
  step (mkWorld p [(rq, k)]) (Settle 0 o) = spawn (k o p) [].
Proof. reflexivity. Qed.

Lemma successful_prediction_run {browser : Browser}
    (p : page) (o1 : outcome) (resp : jsobj)
    (r : response) (b : jsobj) (ds : list jsstring) (x : jsval) (ps : list jsval) :
  first_unmet p = None -> predictBtn p = false -> chart p <> None ->
  apiPost o1 = Ok (JsonObj resp) ->
  ok r = true -> body_json r = JsonObj b ->
  dates b = Some ds -> prices b = Some (x :: ps) ->
  inflight (run (mkWorld p []) [ClickPredict; Settle 0 o1; Settle 0 (Responded r)]) = [] /\
  exists series,
    pg (run (mkWorld p []) [ClickPredict; Settle 0 o1; Settle 0 (Responded r)]) =
      with_predictBtn false
        (with_chartNote []
           (with_chart
              (Some (mkChart (ds ++ [date_or_today (normalized p) p]) (x :: ps) series))
              (fst (predict_resume (normalized p) o1 (fst (predictBtn_click p)))))) /\
    last series Null = predicted_next_price resp /\
    length series = length (x :: ps) /\
    toaster (fst (predict_resume (normalized p) o1 (fst (predictBtn_click p)))) =
      toaster p /\
    resBox_hide (fst (predict_resume (normalized p) o1 (fst (predictBtn_click p)))) =
      false.
Proof.
  intros Hq Hb Hch H1 Hok Hbody Hd Hp.
  unfold run. cbn [fold_left]. rewrite (step_click p Hq Hb).
  rewrite (predictBtn_click_valid p Hq). cbn [fst].
  set (p1 := resetChart
               (with_chartNote []
                  (blank_pills (with_resBox true [] (with_predictBtn true p))))).
  rewrite step_settle_single.
  destruct (predict_resume_cases (normalized p) o1 p1)
    as [(resp' & p2 & E & _ & Ht & Hr) | (e & _ & [Hr | Hr])]; try congruence.
  rewrite H1 in Hr. injection Hr as <-.
  rewrite E. unfold spawn. cbn [fst snd app].
  rewrite step_settle_single.
  unfold predict_resume_history.
  assert (Hch2 : exists ch, chart p2 = Some ch).
  { unfold predict_resume, bind, lift, show_prediction, bind, lift, modify, ret, obj
      in E. rewrite H1 in E. cbn in E. injection E as <-.
    subst p1. unfold resetChart. cbn.
    destruct (chart p) eqn:Ec; [|congruence]. cbn. eexists; reflexivity. }
  destruct Hch2 as [ch Hch2].
  rewrite (drawSeries_with_history (normalized p) resp r b ds x ps p2 ch
             Hok Hbody Hd Hp Hch2).
  unfold spawn. cbn [fst snd]. split; [reflexivity|].
  exists (repeat Null (length ps) ++ [predicted_next_price resp]).
  assert (Hdate : date_or_today (normalized p) p2 = date_or_today (normalized p) p).
  { unfold predict_resume, bind, lift, show_prediction, bind, lift, modify, ret, obj
      in E. rewrite H1 in E. cbn in E. injection E as <-.
    subst p1. unfold date_or_today, resetChart. cbn.
    destruct (chart p); reflexivity. }
  rewrite Hdate. split; [reflexivity|]. split; [apply last_snoc|].
  split; [rewrite length_app, repeat_length; simpl; lia|].
  split.
  - rewrite Ht. subst p1. unfold resetChart. cbn. destruct (chart p); reflexivity.
  - unfold predict_resume, bind, lift, show_prediction, bind, lift, modify, ret, obj
      in E. rewrite H1 in E. cbn in E. injection E as <-. reflexivity.
Qed.

(** X5.  On a page whose chart has been set up, a click on predict with
    a complete query, a prediction call that succeeds and a history call
    whose answer has its dates and at least one price: no call is left in
    flight, nothing was raised, the button is enabled, the result box is
    shown, the note is empty, and the chart has the dates of the history
    followed by the date of the query (or today), the prices of the
    history as observed series, and the predicted price as last entry of
    the predicted series. *)
Theorem successful_prediction_with_history {browser : Browser}
    (p : page) (o1 : outcome) (resp : jsobj)
    (r : response) (b : jsobj) (ds : list jsstring) (x : jsval) (ps : list jsval) :
  first_unmet p = None -> predictBtn p = false -> chart p <> None ->
  apiPost o1 = Ok (JsonObj resp) ->
  ok r = true -> body_json r = JsonObj b ->
  dates b = Some ds -> prices b = Some (x :: ps) ->
  inflight (run (mkWorld p []) [ClickPredict; Settle 0 o1; Settle 0 (Responded r)]) = [] /\
  predictBtn (pg (run (mkWorld p [])
                    [ClickPredict; Settle 0 o1; Settle 0 (Responded r)])) = false /\
  toaster (pg (run (mkWorld p [])
                 [ClickPredict; Settle 0 o1; Settle 0 (Responded r)])) = toaster p /\
  resBox_hide (pg (run (mkWorld p [])
                     [ClickPredict; Settle 0 o1; Settle 0 (Responded r)])) = false /\
  chartNote (pg (run (mkWorld p [])
                   [ClickPredict; Settle 0 o1; Settle 0 (Responded r)])) = [] /\
  exists series,
    chart (pg (run (mkWorld p [])
                 [ClickPredict; Settle 0 o1; Settle 0 (Responded r)])) =
      Some (mkChart (ds ++ [date_or_today (normalized p) p]) (x :: ps) series) /\
    last series Null = predicted_next_price resp /\
    length series = length (x :: ps).
Proof.
  intros Hq Hb Hch H1 Hok Hbody Hd Hp.
  destruct (successful_prediction_run p o1 resp r b ds x ps Hq Hb Hch H1 Hok Hbody
              Hd Hp) as (Hi & series & Hpg & Hlast & Hlen & Ht & Hr).
  rewrite Hpg. split; [exact Hi|]. repeat split; try assumption.
  exists series. repeat split; assumption.
Qed.

Lemma successful_prediction_with_history_witness :
  chart (pg (run (browser := Demo.browser) (mkWorld (Demo.chosen Demo.day4) [])
               [ClickPredict; Settle 0 (Demo.ok_json (Demo.prediction 3));
                Settle 0 Demo.history3])) =
    Some (mkChart [Demo.day1; Demo.day2; Demo.day3; Demo.day4]
                  [Num 10; Num 11; Num 12] [Null; Null; Num 13]) /\
  inflight (run (browser := Demo.browser) (mkWorld (Demo.chosen Demo.day4) [])
              [ClickPredict; Settle 0 (Demo.ok_json (Demo.prediction 3));
               Settle 0 Demo.history3]) = [].
Proof.
  destruct (successful_prediction_with_history (browser := Demo.browser)
      (Demo.chosen Demo.day4)
              (Demo.ok_json (Demo.prediction 3)) (Demo.prediction 3)
              (mkResponse true 200 (lit "OK") []
                 (JsonObj (Demo.with_series [Demo.day1; Demo.day2; Demo.day3]
                             [Num 10; Num 11; Num 12])))
              _ _ _ _ eq_refl eq_refl ltac:(discriminate) eq_refl eq_refl eq_refl
              eq_refl eq_refl) as (Hi & _).
  split; [reflexivity | exact Hi].
Defined.

End SelectFlow.

(** ** price_app.js, from a click to its end *)

Module PriceFlow.
Import PriceApp PriceSpec JsFacts AsyncFacts PriceFacts.

Lemma same_context_refl (p : page) : same_context p p.
Proof. repeat split. Qed.

Lemma same_context_trans (p q r : page) :
  same_context p q -> same_context q r -> same_context p r.
Proof.
  intros (a1 & a2 & a3 & a4) (b1 & b2 & b3 & b4).
  repeat split; congruence.
Qed.

Lemma kc_bind {A B : Type} (m : M A) (f : A -> M B) :
  keeps_context m -> (forall a, keeps_context (f a)) -> keeps_context (bind m f).
Proof.
  intros Hm Hf p. unfold bind. specialize (Hm p).
  destruct (m p) as [p' [a|e]]; cbn [fst] in *; [|exact Hm].
  exact (same_context_trans _ _ _ Hm (Hf a p')).
Qed.

Lemma kc_try_catch {A : Type} (m : M A) (h : exn -> M A) :
  keeps_context m -> (forall e, keeps_context (h e)) -> keeps_context (try_catch m h).
Proof.
  intros Hm Hh p. unfold try_catch. specialize (Hm p).
  destruct (m p) as [p' [a|e]]; cbn [fst] in *; [exact Hm|].
  exact (same_context_trans _ _ _ Hm (Hh e p')).
Qed.

Lemma kc_lift {A : Type} (r : result A) : keeps_context (lift r).
Proof. intros p; apply same_context_refl. Qed.

Lemma kc_ret {A : Type} (a : A) : keeps_context (ret a).
Proof. intros p; apply same_context_refl. Qed.

Lemma kc_throw {A : Type} (e : exn) : keeps_context (@throw A e).
Proof. intros p; apply same_context_refl. Qed.

Lemma kc_gets {A : Type} (f : page -> A) : keeps_context (gets f).
Proof. intros p; apply same_context_refl. Qed.

Lemma kc_modify (f : page -> page) :
  (forall p, same_context p (f p)) -> keeps_context (modify f).
Proof. intros H p; apply H. Qed.

Ltac kc_step :=
  match goal with
  | |- keeps_context (bind _ _) => apply kc_bind; [|intros]
  | |- keeps_context (try_catch _ _) => apply kc_try_catch; [|intros]
  | |- keeps_context (lift _) => apply kc_lift
  | |- keeps_context (ret _) => apply kc_ret
  | |- keeps_context (throw _) => apply kc_throw
  | |- keeps_context (gets _) => apply kc_gets
  | |- keeps_context (modify _) => apply kc_modify; intros; repeat split
  end.

Lemma kc_loadHistory (plotOnly : bool) (o : outcome) :
  keeps_context (loadHistory plotOnly o).
Proof.
  unfold loadHistory, loadHistory_try. repeat kc_step.
  destruct plotOnly; repeat kc_step.
  unfold some_or_TypeError. destruct (prices a0); repeat kc_step.
Qed.

(** X6.  In price_app.js the prediction request follows the history call
    whatever its outcome, and it is built from the selects and the date
    as they are when the history call ends, with no second validation:
    not from what they were at the click. *)
Theorem prediction_request_follows_any_history_outcome (o : outcome) (p : page) :
  exists p',
    onPredictClick_resume o p =
      (p', Await (predict_request (value (pp_commodity p)) (value (pp_state p))
                                  (value (pp_market p)) (pp_date p))
                 (doPrediction_resume (value (pp_commodity p)) (value (pp_state p))
                                      (value (pp_market p)))) /\
    same_context p p'.
Proof.
  unfold onPredictClick_resume, doPrediction.
  destruct (kc_loadHistory false o p) as (Hc & Hs & Hm & Hd).
  rewrite Hc, Hs, Hm, Hd. eexists. split; [reflexivity|]. now repeat split.
Qed.

Lemma validateContext_cases (p : page) :
  validateContext p =
    if selections_made p
    then (with_input_error (false, false, false) p, true)
    else (alert (plain "Please select commodity, state and market before predicting.")
            (with_input_error
               (is_empty (value (pp_commodity p)), is_empty (value (pp_state p)),
                is_empty (value (pp_market p))) p),
          false).
Proof.
  unfold validateContext, selections_made.
  destruct (is_empty (value (pp_commodity p))), (is_empty (value (pp_state p))),
           (is_empty (value (pp_market p))); reflexivity.
Qed.

(** X7.  [onPredictClick] and [onPlotClick] send their history request
    exactly when none of the three selects has an empty value; otherwise
    they mark the empty selects, raise one alert and send nothing.  The
    date is never checked: whatever text the date input holds goes into
    the request as it is, and an empty one is left out. *)
Theorem predict_and_plot_need_three_selections (p : page) :
  (if selections_made p
   then
     onPredictClick p =
       (with_input_error (false, false, false) p,
        Await (series_request (value (pp_commodity p)) (value (pp_state p))
                              (value (pp_market p)) (pp_date p))
              onPredictClick_resume) /\
     onPlotClick p =
       (with_input_error (false, false, false) p,
        Await (series_request (value (pp_commodity p)) (value (pp_state p))
                              (value (pp_market p)) (pp_date p))
              onPlotClick_resume)
   else
     onPredictClick p = onPlotClick p /\
     onPlotClick p =
       (alert (plain "Please select commodity, state and market before predicting.")
          (with_input_error
             (is_empty (value (pp_commodity p)), is_empty (value (pp_state p)),
              is_empty (value (pp_market p))) p),
        Fin)) /\
  (forall c s m d,
     (In (lit "date", d) (rq_params (series_request c s m d)) <-> d <> []) /\
     In (lit "limit", lit "30") (rq_params (series_request c s m d))).
Proof.
  split.
  - unfold onPredictClick, onPlotClick. rewrite validateContext_cases.
    destruct (selections_made p); split; reflexivity.
  - intros c s m d. unfold series_request. cbn [rq_params]. split.
    + destruct d as [|x d]; cbn [is_empty app]; split.
      * intros H. cbn in H.
        repeat (destruct H as [H | H]; [discriminate H|]). contradiction.
      * congruence.
      * discriminate.
      * intros _. cbn. auto 10.
    + destruct (is_empty d); cbn; auto 10.
Qed.

Lemma value_after_clearForm (p : page) :
  placeholder_first (pp_commodity p) ->
  selections_made (fst (clearForm p)) = false /\
  is_empty (value (pp_commodity (fst (clearForm p)))) = true.
Proof.
  intros (o & rest & Ho & Hv).
  assert (H : value (pp_commodity (fst (clearForm p))) = []).
  { cbn. unfold value, set_selectedIndex. cbn. rewrite Ho. cbn. exact Hv. }
  unfold selections_made. rewrite H. split; reflexivity.
Qed.

Lemma predict_after_clearForm (p : page) :
  placeholder_first (pp_commodity p) ->
  onPredictClick (fst (clearForm p)) =
    (alert (plain "Please select commodity, state and market before predicting.")
       (with_input_error (true, true, true) (fst (clearForm p))),
     Fin).
Proof.
  intros H. destruct (value_after_clearForm p H) as [Hm Hc].
  unfold onPredictClick. rewrite validateContext_cases, Hm, Hc. reflexivity.
Qed.

Lemma price_predict_while_loading (p : page) :
  snd (onPredictClick (fst (onCommodityChange p))) = Fin /\
  snd (onPredictClick (fst (onStateChange p))) = Fin.
Proof.
  split; unfold onPredictClick; rewrite validateContext_cases.
  - assert (H : selections_made (fst (onCommodityChange p)) = false).
    { unfold onCommodityChange, encodeURIComponent, selections_made.
      destruct (is_empty (value (pp_commodity p)));
        [|destruct (isWellFormed (value (pp_commodity p)))]; cbn;
        now rewrite andb_false_r. }
    now rewrite H.
  - assert (H : selections_made (fst (onStateChange p)) = false).
    { unfold onStateChange, encodeURIComponent, selections_made.
      destruct (is_empty (value (pp_commodity p)) || is_empty (value (pp_state p)));
        [|destruct (isWellFormed (value (pp_commodity p)));
          [destruct (isWellFormed (value (pp_state p)))|]];
        cbn; now rewrite andb_false_r. }
    now rewrite H.
Qed.

(** On this page the answer enables the select when it lists something;
    when it lists nothing, or the call fails, the disabled flag stays as
    the answer finds it. *)
Lemma price_select_enabled_when_listed (o : outcome) (p : page) :
  (listed states o <> [] ->
   disabled (pp_state (fst (onCommodityChange_resume o p))) = false /\
   offered (pp_state (fst (onCommodityChange_resume o p))) = listed states o) /\
  (listed states o = [] ->
   disabled (pp_state (fst (onCommodityChange_resume o p))) = disabled (pp_state p) /\
   offered (pp_state (fst (onCommodityChange_resume o p))) = []).
Proof.
  unfold onCommodityChange_resume.
  destruct (fetchJSON_listed states o) as [(res & E & L) | (e & E & L)];
    rewrite E, L.
  - destruct (Nat.eqb (length (or_empty (states res))) 0) eqn:El.
    + apply eqb_length_nil in El. rewrite El. split; [congruence|].
      intros _. split; reflexivity.
    + split.
      * intros _. cbn [fst]. split; [reflexivity|]. apply offered_fill.
      * intros H. rewrite H in El. discriminate.
  - split; [congruence|]. intros _. split; reflexivity.
Qed.

(** X8.  [loadHistory] never throws.  When the answer parses to an
    object the chart is replaced by a new one with the dates and prices
    of the answer (none where the field is missing) and a single
    dataset, so an earlier mark of a prediction is gone; nothing is
    raised, except that plotting an answer without prices raises the
    error toast after the chart was replaced.  In every other case the
    chart stays as it is and the error toast is raised. *)
Theorem history_answer_replaces_chart (plotOnly : bool) (o : outcome) (p : page) :
  snd (loadHistory plotOnly o p) = Ok tt /\
  match bind_result (fetchJSON o) obj with
  | Ok data =>
      priceChart (fst (loadHistory plotOnly o p)) =
        Some (mkChart (or_empty (dates data)) (or_empty (prices data)) None) /\
      toasts (fst (loadHistory plotOnly o p)) =
        match plotOnly, prices data with
        | true, None =>
            toasts p ++
            [(plain "Could not load history. Maybe DB has no data for this context.",
              true)]
        | _, _ => toasts p
        end
  | Throw _ =>
      priceChart (fst (loadHistory plotOnly o p)) = priceChart p /\
      toasts (fst (loadHistory plotOnly o p)) =
        toasts p ++
        [(plain "Could not load history. Maybe DB has no data for this context.",
          true)]
  end.
Proof.
  unfold loadHistory, try_catch, loadHistory_try, bind, lift, bind_result, modify,
    ret, some_or_TypeError, throw.
  destruct (fetchJSON o) as [j|e]; [|repeat split].
  destruct (obj j) as [data|e]; [|repeat split].
  destruct plotOnly; [|repeat split].
  cbn. destruct (prices data); repeat split.
Qed.

(** X9.  On a chart with at least one label and one price, marking a
    prediction gives the predicted series as many entries as there are
    prices, nulls followed by the predicted price, and a second
    prediction replaces the mark of the first: the chart never gets a
    third dataset. *)
Theorem second_prediction_replaces_the_mark (out1 out2 : jsobj) (p : page)
    (l : jsstring) (ls : list jsstring) (x : jsval) (xs : list jsval)
    (s : option (list jsval)) :
  priceChart p = Some (mkChart (l :: ls) (x :: xs) s) ->
  priceChart (fst (mark_prediction out1 p)) =
    Some (mkChart (l :: ls) (x :: xs)
                  (Some (repeat Null (length xs) ++ [predicted_next_price out1]))) /\
  mark_prediction out2 (fst (mark_prediction out1 p)) = mark_prediction out2 p.
Proof.
  intros H.
  rewrite (mark_prediction_last_label out1 p l ls x xs s H). cbn [fst].
  split; [reflexivity|].
  rewrite (mark_prediction_last_label out2 p l ls x xs s H).
  rewrite (mark_prediction_last_label out2
             (with_priceChart
                (Some (mkChart (l :: ls) (x :: xs)
                         (Some (repeat Null (length xs) ++ [predicted_next_price out1]))))
                p)
             l ls x xs
             (Some (repeat Null (length xs) ++ [predicted_next_price out1])) eq_refl).
  reflexivity.
Qed.

Lemma second_prediction_replaces_the_mark_witness :
  priceChart (fst (mark_prediction (Demo.prediction 0)
                     (fst (mark_prediction (Demo.prediction 3) Demo.price_charted)))) =
    Some (mkChart [Demo.day1; Demo.day2; Demo.day3] [Num 10; Num 11; Num 12]
                  (Some [Null; Null; Num 13])).
Proof.
  destruct (second_prediction_replaces_the_mark (Demo.prediction 3) (Demo.prediction 0)
              Demo.price_charted _ _ _ _ _ eq_refl) as [_ H].
  rewrite H. reflexivity.
Defined.

(** X10.  When the chart has labels and no price (the history answer
    had dates without prices), a prediction that succeeded updates the
    chips and the sentence and then fails on the length of the array:
    the user gets the alert "Prediction failed", no toast, and the chart
    is left as it was. *)
Theorem prediction_on_chart_without_prices_alerts (c s m : jsstring) (o : outcome)
    (out : jsobj) (p : page) (l : jsstring) (ls : list jsstring)
    (pr : option (list jsval)) :
  priceChart p = Some (mkChart (l :: ls) [] pr) ->
  bind_result (fetchJSON o) obj = Ok out ->
  snd (doPrediction_resume c s m o p) = Fin /\
  alerts (fst (doPrediction_resume c s m o p)) =
    alerts p ++ [[T (lit "Prediction failed: "); NativeMessage RangeError]] /\
  toasts (fst (doPrediction_resume c s m o p)) = toasts p /\
  priceChart (fst (doPrediction_resume c s m o p)) = priceChart p /\
  chips (fst (doPrediction_resume c s m o p)) =
    ([T (lit "win: "); V (window_size out)], [T (lit "used: "); V (used_points out)],
     [T (lit "padded: " ++ (if truthy (padded out) then lit "yes" else lit "no"))]).
Proof.
  intros Hch Hout.
  unfold doPrediction_resume, try_catch, doPrediction_try, bind, lift, modify,
    mark_prediction, bind, gets, lift.
  unfold bind_result in Hout.
  destruct (fetchJSON o) as [j|e]; [|discriminate].
  rewrite Hout. cbn. rewrite Hch. cbn. repeat split. now rewrite Hch.
Qed.

Lemma prediction_on_chart_without_prices_alerts_witness :
  alerts (pg (run (mkWorld Demo.price_chosen [])
                [ClickPredict; Settle 0 Demo.dates_only;
                 Settle 0 (Demo.ok_json (Demo.prediction 3))])) =
    [[T (lit "Prediction failed: "); NativeMessage RangeError]].
Proof.
  destruct (prediction_on_chart_without_prices_alerts
              Demo.Rice Demo.Punjab Demo.Ludhiana
              (Demo.ok_json (Demo.prediction 3)) (Demo.prediction 3)
              (fst (loadHistory false Demo.dates_only
                      (with_input_error (false, false, false) Demo.price_chosen)))
              Demo.day1 [Demo.day2] None eq_refl eq_refl) as (_ & H & _).
  exact H.
Defined.

Lemma loadHistory_parsed (o : outcome) (data : jsobj) (p : page) :
  bind_result (fetchJSON o) obj = Ok data ->
  loadHistory false o p =
    (renderChart (or_empty (dates data)) (or_empty (prices data)) p, Ok tt).
Proof.
  intros H. unfold bind_result in H.
  unfold loadHistory, try_catch, loadHistory_try, bind, lift, modify, ret.
  destruct (fetchJSON o) as [j|e]; [|discriminate]. rewrite H. reflexivity.
Qed.

Lemma doPrediction_resume_marked (c s m : jsstring) (o : outcome) (out : jsobj)
    (p : page) (l : jsstring) (ls : list jsstring) (x : jsval) (xs : list jsval)
    (pr : option (list jsval)) :
  priceChart p = Some (mkChart (l :: ls) (x :: xs) pr) ->
  bind_result (fetchJSON o) obj = Ok out ->
  snd (doPrediction_resume c s m o p) = Fin /\
  priceChart (fst (doPrediction_resume c s m o p)) =
    Some (mkChart (l :: ls) (x :: xs)
                  (Some (repeat Null (length xs) ++ [predicted_next_price out]))) /\
  toasts (fst (doPrediction_resume c s m o p)) =
    toasts p ++ [(plain "Prediction successful.", false)] /\
  alerts (fst (doPrediction_resume c s m o p)) = alerts p.
Proof.
  intros Hch Hout. unfold bind_result in Hout.
  unfold doPrediction_resume, try_catch, doPrediction_try, bind, lift, modify,
    mark_prediction, bind, gets, lift.
  destruct (fetchJSON o) as [j|e]; [|discriminate].
  rewrite Hout. cbn. rewrite Hch. cbn. repeat split.
Qed.

Lemma price_step_click (p : page) :
  selections_made p = true -> pp_predictBtn p = false ->
  step (mkWorld p []) ClickPredict =
    mkWorld (with_input_error (false, false, false) p)
            [(loadHistory_request (with_input_error (false, false, false) p),
              onPredictClick_resume)].
Proof.
  intros Hsel Hb. cbn [step pg]. rewrite Hb. unfold fire. cbn [pg inflight].
  unfold onPredictClick. rewrite validateContext_cases, Hsel. reflexivity.
Qed.

Lemma price_step_settle (p : page) (rq : request)
    (k : outcome -> page -> page * proc page) (o : outcome) :
  step (mkWorld p [(rq, k)]) (Settle 0 o) = spawn (k o p) [].
Proof. reflexivity. Qed.

(** X17.  On the page of price_app.js, a click on predict with the three
    selections made, a history answer with at least one date and one
    price, and a prediction call that succeeds: no call is left in
    flight, the chart shows the dates and prices of the answer with the
    predicted series as long as the prices, nulls followed by the
    predicted price, one toast tells the success and no alert is
    raised. *)
Theorem price_prediction_with_history (p : page) (o1 o2 : outcome)
    (data out : jsobj) (l : jsstring) (ls : list jsstring) (x : jsval)
    (xs : list jsval) :
  selections_made p = true -> pp_predictBtn p = false ->
  bind_result (fetchJSON o1) obj = Ok data ->
  dates data = Some (l :: ls) -> prices data = Some (x :: xs) ->
  bind_result (fetchJSON o2) obj = Ok out ->
  inflight (run (mkWorld p []) [ClickPredict; Settle 0 o1; Settle 0 o2]) = [] /\
  priceChart (pg (run (mkWorld p []) [ClickPredict; Settle 0 o1; Settle 0 o2])) =
    Some (mkChart (l :: ls) (x :: xs)
                  (Some (repeat Null (length xs) ++ [predicted_next_price out]))) /\
  toasts (pg (run (mkWorld p []) [ClickPredict; Settle 0 o1; Settle 0 o2])) =
    toasts p ++ [(plain "Prediction successful.", false)] /\
  alerts (pg (run (mkWorld p []) [ClickPredict; Settle 0 o1; Settle 0 o2])) =
    alerts p.
Proof.
  intros Hsel Hb H1 Hd Hp H2.
  unfold run. cbn [fold_left]. rewrite (price_step_click p Hsel Hb).
  rewrite price_step_settle. unfold onPredictClick_resume.
  rewrite (loadHistory_parsed o1 data _ H1), Hd, Hp. cbn [fst or_empty].
  unfold doPrediction, spawn. cbn [fst snd app].
  rewrite price_step_settle.
  match goal with
  | |- context [doPrediction_resume ?c ?s ?m o2 ?q] =>
      destruct (doPrediction_resume_marked c s m o2 out q l ls x xs None eq_refl H2)
        as (Hf & Hc & Ht & Ha);
      destruct (doPrediction_resume c s m o2 q) as [p3 pr] eqn:E
  end.
  cbn [fst snd] in *. subst pr. unfold spawn. cbn [fst snd pg inflight].
  split; [reflexivity|]. split; [exact Hc|]. split; [exact Ht | exact Ha].
Qed.

Lemma price_prediction_with_history_witness :
  priceChart (pg (run (mkWorld Demo.price_chosen [])
                    [ClickPredict; Settle 0 Demo.history3;
                     Settle 0 (Demo.ok_json (Demo.prediction 3))])) =
    Some (mkChart [Demo.day1; Demo.day2; Demo.day3] [Num 10; Num 11; Num 12]
                  (Some [Null; Null; Num 13])).
Proof.
  destruct (price_prediction_with_history Demo.price_chosen Demo.history3
              (Demo.ok_json (Demo.prediction 3))
              (Demo.with_series [Demo.day1; Demo.day2; Demo.day3]
                                [Num 10; Num 11; Num 12])
              (Demo.prediction 3) Demo.day1 [Demo.day2; Demo.day3] (Num 10)
              [Num 11; Num 12] eq_refl eq_refl eq_refl eq_refl eq_refl eq_refl)
    as (_ & H & _).
  exact H.
Defined.

End PriceFlow.

(** ** crop_app.js, from a click to its end *)

Module CropFlow.
Import CropApp CropSpec JsFacts CropFacts.

(** [getNumber], with the page it leaves. *)
Lemma getNumber_run (Number : jsstring -> number) (f : field) (p p0 : page) :
  same_form p p0 ->
  (exists v,
     accepted Number p f = Some v /\
     getNumber Number f (fst (bounds f)) (snd (bounds f)) p0 =
       (set_error f false p0, Ok v)) \/
  (accepted Number p f = None /\
   exists e,
     getNumber Number f (fst (bounds f)) (snd (bounds f)) p0 =
       (set_error f true (set_error f false p0), Throw e)).
Proof.
  intros Hs. rewrite <- (accepted_same_form Number p p0 f Hs).
  unfold accepted, entered, getNumber, within, Qltb.
  assert (Hval : i_value (inputs (set_error f false p0) f) = i_value (inputs p0 f)).
  { unfold set_error, with_input. cbn. now rewrite field_eqb_refl. }
  rewrite Hval.
  destruct (is_empty (trim (i_value (inputs p0 f)))).
  { right. split; [reflexivity|]. eexists. reflexivity. }
  destruct (Number (trim (i_value (inputs p0 f)))) as [|v|neg].
  - right. split; [reflexivity|]. eexists. reflexivity.
  - destruct (Qle_bool (fst (bounds f)) v); cbn [negb orb andb].
    + destruct (Qle_bool v (snd (bounds f))); cbn [negb].
      * left. eexists. split; reflexivity.
      * right. split; [reflexivity|]. eexists. reflexivity.
    + right. split; [reflexivity|]. eexists. reflexivity.
  - right. split; [reflexivity|]. eexists. reflexivity.
Qed.

Ltac run_field Number f p Hs g :=
  let v := fresh "v" in
  let e := fresh "e" in
  let Ha := fresh "Ha" in
  let Hg := fresh "Hg" in
  destruct (getNumber_run Number f p _ Hs) as [(v & Ha & Hg) | (Ha & e & Hg)];
  cbn [bounds fst snd] in Hg; rewrite Hg; clear Hg;
  [ apply (same_form_set_error p _ f false) in Hs
  | unfold mark_after, first_rejected, fields, find;
    repeat match goal with H : accepted _ _ _ = _ |- _ => rewrite H; clear H end;
    unfold recommend_catch; cbn [fst snd];
    (destruct g; split; reflexivity) ].

(** X11.  A click on recommend never changes what is typed in the
    inputs.  It removes the error mark of every input before the first
    one that is not accepted, marks that one, and leaves the marks of
    the inputs after it as they were; when all seven are accepted no
    input is marked. *)
Theorem recommend_click_marks_first_rejected_input
    (Number : jsstring -> number) (p : page) (g : field) :
  i_value (inputs (fst (onRecommendClick Number p)) g) = i_value (inputs p g) /\
  i_error (inputs (fst (onRecommendClick Number p)) g) = mark_after Number p g.
Proof.
  unfold onRecommendClick, read_form, bind.
  pose proof (same_form_refl p) as Hs.
  run_field Number id_N p Hs g.
  run_field Number id_P p Hs g.
  run_field Number id_K p Hs g.
  run_field Number id_temperature p Hs g.
  run_field Number id_humidity p Hs g.
  run_field Number id_ph p Hs g.
  run_field Number id_rainfall p Hs g.
  unfold mark_after, first_rejected, fields, find.
  repeat match goal with H : accepted _ _ _ = _ |- _ => rewrite H; clear H end.
  cbn [fst snd ret]. destruct g; split; reflexivity.
Qed.

(** X12.  When the call of a click on recommend brings no reply to show
    (it is rejected, the status is no success, the body is not JSON or is
    null), the click ends with one alert and the page is otherwise as the
    answer found it: the result panel, the toasts and the inputs are
    untouched.  For a status that is no success the alert shows the text
    of the body, or "HTTP" and the status when the body is empty. *)
Theorem no_reply_alerts_and_keeps_panel (x : payload) (o : outcome) (p : page) :
  match o with
  | Rejected =>
      onRecommendClick_resume x o p = (alert [NativeMessage FetchFailed] p, Fin)
  | Responded r =>
      if ok r
      then match body_json r with
           | NotJson =>
               onRecommendClick_resume x o p =
                 (alert [NativeMessage SyntaxError] p, Fin)
           | JsonNull =>
               onRecommendClick_resume x o p =
                 (alert [NativeMessage TypeError] p, Fin)
           | JsonObj _ => snd (onRecommendClick_resume x o p) = Fin
           end
      else
        onRecommendClick_resume x o p =
          (alert (if is_empty (body_text r)
                  then [T (lit "HTTP "); Code (status r)]
                  else [T (body_text r)]) p,
           Fin)
  end.
Proof.
  unfold onRecommendClick_resume, recommend_try, bind, lift, throw, ret, json,
    renderResult, bind, lift, obj.
  destruct o as [|r]; [reflexivity|].
  destruct (ok r); cbn [negb].
  - destruct (body_json r); reflexivity.
  - destruct (is_empty (body_text r)); reflexivity.
Qed.

Lemma alternatives_items_cases (l : list (jsval * jsval)) :
  alternatives_items l =
    if forallb (fun a => numeric_or_absent (snd a)) l
    then Ok (alternatives_done l)
    else Throw (Host TypeError).
Proof.
  induction l as [|[crop conf] l IH]; [reflexivity|].
  cbn [alternatives_items alternatives_done forallb snd]. rewrite IH.
  destruct conf; cbn [numeric_or_absent andb]; try reflexivity;
    destruct (forallb (fun a => numeric_or_absent (snd a)) l); reflexivity.
Qed.

Lemma fixed_or_dash_cases (v : jsval) (suffix : jsstring) :
  (numeric_or_absent v = true /\ exists t, fixed_or_dash v suffix = Ok t) \/
  (numeric_or_absent v = false /\ fixed_or_dash v suffix = Throw (Host TypeError)).
Proof.
  destruct v; cbn; first [left; split; [reflexivity | eexists; reflexivity]
                         | right; split; reflexivity].
Qed.

Lemma recommend_try_parsed (x : payload) (r : response) (data : jsobj) (p : page) :
  ok r = true -> body_json r = JsonObj data ->
  recommend_try x (Responded r) p =
    bind (renderResult (JsonObj data) x)
         (fun _ => modify (showToast (plain "Crop recommendation generated.") false))
         p.
Proof.
  intros Hok Hbody. unfold recommend_try, json.
  unfold bind at 1 2 3. unfold lift, throw, ret. rewrite Hok, Hbody. reflexivity.
Qed.

Lemma bind_lift_Ok {A B : Type} (a : A) (f : A -> M B) (p : page) :
  bind (lift (Ok a)) f p = f a p.
Proof. reflexivity. Qed.

(** What [renderResult] leaves of the panel. *)
Lemma renderResult_cases (data : jsobj) (x : payload) (p : page) :
  if renderable data
  then
    exists tc tg,
      renderResult (JsonObj data) x p =
        (with_results
           (mkPanel
              [T (lit "Recommended crop: ");
               V (or_else (recommended_crop data) (Str (lit "Unknown crop")));
               T (lit "This is based on your soil nutrients and climate parameters.")]
              false tc [V (or_else (suitability data) (Str emdash))]
              tg [V (or_else (risk_label data) (Str emdash))]
              (alternatives_done (or_empty (alternatives data)))
              (Nat.eqb (length (or_empty (alternatives data))) 0)
              (summary x))
           p,
         Ok tt)
  else
    exists pn,
      renderResult (JsonObj data) x p = (with_results pn p, Throw (Host TypeError)) /\
      cr_mainResult pn =
        [T (lit "Recommended crop: ");
         V (or_else (recommended_crop data) (Str (lit "Unknown crop")));
         T (lit "This is based on your soil nutrients and climate parameters.")] /\
      cr_metrics_hidden pn = false /\
      cr_inputSummary pn = cr_inputSummary (results p).
Proof.
  destruct p as [inp btn [m mh c su g rk al ah sm] ts als].
  unfold renderResult, renderable. cbn [obj]. rewrite bind_lift_Ok.
  destruct (fixed_or_dash_cases (confidence data) (lit "%"))
    as [[Hc [tc Ec]] | [Hc Ec]]; rewrite Hc, Ec; cbn [andb];
    [|eexists; cbn; repeat split].
  destruct (fixed_or_dash_cases (growth_score data) (lit "/10"))
    as [[Hg [tg Eg]] | [Hg Eg]]; rewrite Hg, Eg; cbn [andb];
    [|eexists; cbn; repeat split].
  destruct (alternatives data) as [[|a l]|]; cbn [or_empty];
    [eexists _, _; reflexivity | | eexists _, _; reflexivity].
  rewrite (alternatives_items_cases (a :: l)).
  destruct (forallb (fun a0 => numeric_or_absent (snd a0)) (a :: l)).
  - eexists _, _; reflexivity.
  - eexists; cbn; repeat split.
Qed.

(** X13.  A reply whose confidences and growth score are numbers where
    present is shown in full: the panel gets the summary of the inputs
    that were sent, one toast is raised and no alert.  A reply with a
    confidence or a growth score of another type is shown in part: the
    recommended crop is written and the metrics are uncovered, then the
    click ends with one alert, no toast, and the summary of the inputs
    left as it was. *)
Theorem reply_is_shown_in_full_or_alerted (x : payload) (r : response)
    (data : jsobj) (p : page) :
  ok r = true -> body_json r = JsonObj data ->
  snd (onRecommendClick_resume x (Responded r) p) = Fin /\
  cr_mainResult (results (fst (onRecommendClick_resume x (Responded r) p))) =
    [T (lit "Recommended crop: ");
     V (or_else (recommended_crop data) (Str (lit "Unknown crop")));
     T (lit "This is based on your soil nutrients and climate parameters.")] /\
  cr_metrics_hidden (results (fst (onRecommendClick_resume x (Responded r) p))) = false /\
  if renderable data
  then
    toasts (fst (onRecommendClick_resume x (Responded r) p)) =
      toasts p ++ [(plain "Crop recommendation generated.", false)] /\
    alerts (fst (onRecommendClick_resume x (Responded r) p)) = alerts p /\
    cr_inputSummary (results (fst (onRecommendClick_resume x (Responded r) p))) =
      summary x /\
    cr_altList (results (fst (onRecommendClick_resume x (Responded r) p))) =
      alternatives_done (or_empty (alternatives data)) /\
    cr_alternatives_hidden (results (fst (onRecommendClick_resume x (Responded r) p))) =
      Nat.eqb (length (or_empty (alternatives data))) 0
  else
    toasts (fst (onRecommendClick_resume x (Responded r) p)) = toasts p /\
    alerts (fst (onRecommendClick_resume x (Responded r) p)) =
      alerts p ++ [[NativeMessage TypeError]] /\
    cr_inputSummary (results (fst (onRecommendClick_resume x (Responded r) p))) =
      cr_inputSummary (results p).
Proof.
  intros Hok Hbody.
  unfold onRecommendClick_resume.
  rewrite (recommend_try_parsed x r data p Hok Hbody). unfold bind.
  pose proof (renderResult_cases data x p) as H.
  destruct (renderable data).
  - destruct H as (tc & tg & ->). cbn. repeat split.
  - destruct H as (pn & -> & Hm & Hh & Hs). cbn. rewrite Hm, Hh, Hs. repeat split.
Qed.

Lemma reply_is_shown_in_full_or_alerted_witness :
  toasts (fst (onRecommendClick_resume Demo.soil_payload
                 (Demo.ok_json Demo.rice_reply) (Demo.soil_form (lit "150")))) =
    [(plain "Crop recommendation generated.", false)] /\
  alerts (fst (onRecommendClick_resume Demo.soil_payload
                 (Demo.ok_json Demo.text_reply) (Demo.soil_form (lit "150")))) =
    [[NativeMessage TypeError]].
Proof.
  split.
  - destruct (reply_is_shown_in_full_or_alerted Demo.soil_payload
                (mkResponse true 200 (lit "OK") [] (JsonObj Demo.rice_reply))
                Demo.rice_reply (Demo.soil_form (lit "150")) eq_refl eq_refl)
      as (_ & _ & _ & H).
    exact (proj1 H).
  - destruct (reply_is_shown_in_full_or_alerted Demo.soil_payload
                (mkResponse true 200 (lit "OK") [] (JsonObj Demo.text_reply))
                Demo.text_reply (Demo.soil_form (lit "150")) eq_refl eq_refl)
      as (_ & _ & _ & H).
    exact (proj1 (proj2 H)).
Defined.

Lemma recommend_after_clearForm (Number : jsstring -> number) (p : page) :
  onRecommendClick Number (fst (clearForm p)) =
    (alert [T (lit "Please enter a value for "); T (lit "N"); T (lit ".")]
       (set_error id_N true (set_error id_N false (fst (clearForm p)))),
     Fin).
Proof. reflexivity. Qed.

End CropFlow.

(** ** The pages together, from a click to its end *)

Module SiteFlow.

(** X14.  After a click on clear, a click on the button that submits
    sends nothing, on the three pages: the select-based page raises the
    toast "Select a commodity.", the page of price_app.js (whose commodity
    select begins with its placeholder) marks its three selects and
    raises its alert, and the page of crop_app.js marks N and asks for
    its value. *)
Theorem submit_after_clear_sends_nothing :
  (forall p,
     SelectPage.predictBtn_click (fst (SelectPage.clearBtn_click p)) =
       (SelectPage.toast (plain "Select a commodity.") true
          (fst (SelectPage.clearBtn_click p)),
        Fin)) /\
  (forall p,
     PriceSpec.placeholder_first (PriceApp.pp_commodity p) ->
     PriceApp.onPredictClick (fst (PriceApp.clearForm p)) =
       (PriceApp.alert
          (plain "Please select commodity, state and market before predicting.")
          (PriceApp.with_input_error (true, true, true) (fst (PriceApp.clearForm p))),
        Fin)) /\
  (forall Number p,
     CropApp.onRecommendClick Number (fst (CropApp.clearForm p)) =
       (CropApp.alert
          [T (lit "Please enter a value for "); T (lit "N"); T (lit ".")]
          (CropApp.set_error CropApp.id_N true
             (CropApp.set_error CropApp.id_N false (fst (CropApp.clearForm p)))),
        Fin)).
Proof.
  split; [|split].
  - apply SelectFlow.predict_after_clear.
  - apply PriceFlow.predict_after_clearForm.
  - apply CropFlow.recommend_after_clearForm.
Qed.

Lemma submit_after_clear_sends_nothing_witness :
  snd (PriceApp.onPredictClick (fst (PriceApp.clearForm Demo.price_charted))) = Fin.
Proof.
  destruct submit_after_clear_sends_nothing as (_ & H & _).
  rewrite (H Demo.price_charted); [reflexivity|].
  eexists _, _. split; reflexivity.
Defined.

(** X15.  On the page as the handler of a change of the commodity or of
    the state leaves it, that is before the answer of any call arrives,
    a click on predict sends nothing, on both price pages: the handler
    has left the dependent select without a value, so the click ends
    with its toast or its alert. *)
Theorem no_prediction_while_options_load {browser : Browser} :
  (forall p,
     (exists r,
        SelectPage.predictBtn_click (fst (SelectPage.commodity_change p)) =
          (SelectPage.toast (SelectSpec.report r) true
             (fst (SelectPage.commodity_change p)),
           Fin)) /\
     (exists r,
        SelectPage.predictBtn_click (fst (SelectPage.state_change p)) =
          (SelectPage.toast (SelectSpec.report r) true
             (fst (SelectPage.state_change p)),
           Fin))) /\
  (forall p,
     snd (PriceApp.onPredictClick (fst (PriceApp.onCommodityChange p))) = Fin /\
     snd (PriceApp.onPredictClick (fst (PriceApp.onStateChange p))) = Fin).
Proof.
  split.
  - apply SelectFlow.predict_while_loading.
  - apply PriceFlow.price_predict_while_loading.
Qed.

(** X16.  When the answer of a call for states or markets arrives, the
    select of the select-based page is enabled if and only if the answer
    lists at least one option.  On the page of price_app.js an answer that
    lists something enables the select and fills it with what is listed;
    an answer that lists nothing, or a failed call, empties the select and
    leaves its disabled flag as it finds it. *)
Theorem select_enabled_when_answer_lists {browser : Browser} (o : outcome) :
  (forall p,
     (disabled (SelectPage.stateSel (fst (SelectPage.commodity_change_resume o p))) =
        false <-> listed states o <> []) /\
     (disabled (SelectPage.marketSel (fst (SelectPage.state_change_resume o p))) =
        false <-> listed markets o <> [])) /\
  (forall p,
     (listed states o <> [] ->
      disabled (PriceApp.pp_state (fst (PriceApp.onCommodityChange_resume o p))) =
        false /\
      offered (PriceApp.pp_state (fst (PriceApp.onCommodityChange_resume o p))) =
        listed states o) /\
     (listed states o = [] ->
      disabled (PriceApp.pp_state (fst (PriceApp.onCommodityChange_resume o p))) =
        disabled (PriceApp.pp_state p) /\
      offered (PriceApp.pp_state (fst (PriceApp.onCommodityChange_resume o p))) = [])).
Proof.
  split.
  - intros p. apply SelectFlow.select_enabled_iff_listed.
  - intros p. apply PriceFlow.price_select_enabled_when_listed.
Qed.

Lemma select_enabled_when_answer_lists_witness :
  disabled (PriceApp.pp_state
              (fst (PriceApp.onCommodityChange_resume
                      (Demo.ok_json (Demo.with_states [Demo.Punjab]))
                      Demo.price_page))) = false /\
  disabled (PriceApp.pp_state
              (fst (PriceApp.onCommodityChange_resume
                      (Demo.ok_json (Demo.with_states []))
                      Demo.price_chosen))) = false.
Proof.
  split.
  - destruct (select_enabled_when_answer_lists (browser := Demo.browser)
                (Demo.ok_json (Demo.with_states [Demo.Punjab]))) as [_ H].
    destruct (H Demo.price_page) as [H1 _].
    apply H1. discriminate.
  - destruct (select_enabled_when_answer_lists (browser := Demo.browser)
                (Demo.ok_json (Demo.with_states []))) as [_ H].
    destruct (H Demo.price_chosen) as [_ H2].
    destruct (H2 eq_refl) as [Hd _]. rewrite Hd. reflexivity.
Defined.

End SiteFlow.
